(** * Wavelength calibration engine of goodman_spec/wavelength.py

    Shallow embedding of the parts of [WavelengthCalibration] that decide
    the line detection, the interactive mark store, the fit request, the
    evaluation of a solution, the linearization axis and the
    compatibility check of a stored solution.

    Intensities, pixel positions and wavelengths are numpy floats in the
    source; they are modelled as exact rationals [Q].  The module is
    Python 2 code ([import wsbuilder] is an implicit relative import), so
    comparisons with [None] follow Python 2: [None] is smaller than every
    number. *)

From Stdlib Require Import Ascii String QArith Qminmax Qabs Lia Bool ZArith.
From Stdlib Require Import Reals Qreals DecimalString DecimalNat Lra.
From Stdlib Require Import List.
Import ListNotations.

Open Scope Q_scope.

(* ------------------------------------------------------------------ *)
(** ** numpy helpers *)

Definition Qltb (x y : Q) : bool := negb (Qle_bool y x).

(** [arr.min()] and [arr.max()]; numpy raises on an empty array. *)
Definition np_min (xs : list Q) : option Q :=
  match xs with [] => None | x :: r => Some (fold_left Qmin r x) end.

Definition np_max (xs : list Q) : option Q :=
  match xs with [] => None | x :: r => Some (fold_left Qmax r x) end.

(** [np.argmin]: index of the first minimal element; raises on []. *)
Fixpoint argmin_from (l : list Q) (i best : nat) (bv : Q) : nat :=
  match l with
  | [] => best
  | x :: r => if Qltb x bv then argmin_from r (S i) i x
              else argmin_from r (S i) best bv
  end.

Definition argmin (l : list Q) : option nat :=
  match l with
  | [] => None
  | x :: r => Some (argmin_from r 1 0 x)
  end.

(** Insertion sort, used by [np.median]. *)
Fixpoint insert_sorted (x : Q) (l : list Q) : list Q :=
  match l with
  | [] => [x]
  | y :: r => if Qle_bool x y then x :: y :: r else y :: insert_sorted x r
  end.

Fixpoint sort_q (l : list Q) : list Q :=
  match l with [] => [] | x :: r => insert_sorted x (sort_q r) end.

(** [np.median]: middle of the sorted data, mean of the two middle
    values for an even count (numpy gives nan on an empty array). *)
Definition np_median (l : list Q) : Q :=
  let s := sort_q l in
  let n := length l in
  if Nat.even n then
    (nth (n / 2 - 1) s 0 + nth (n / 2) s 0) / 2
  else nth (n / 2) s 0.

Definition qsum (l : list Q) : Q := fold_right Qplus 0 l.

(* ------------------------------------------------------------------ *)
(** ** Line detection: [get_lines_in_lamp] *)

Module LineDetection.

(** Python 2 [>] between an object-array entry ([None] or a number). *)
Definition py_gt (a b : option Q) : bool :=
  match a, b with
  | Some x, Some y => Qltb y x
  | Some _, None => true
  | None, _ => false
  end.

(** [np.where(np.abs(d > d.min() + 0.05 * d.max()), d, None)]; the
    minimum and maximum raise on an empty spectrum. *)
Definition filtered_data (d : list Q) : option (list (option Q)) :=
  match np_min d, np_max d with
  | Some mn, Some mx =>
      Some (map (fun x => if Qltb (mn + (1 # 20) * mx) x then Some x else None) d)
  | _, _ => None
  end.

(** [scipy.signal.argrelmax(data, order=order)], i.e. [_boolrelextrema]
    with [np.greater] and [mode='clip']: index [i] is kept when its value
    is greater than the values at [i+k] and [i-k], for [k = 1..order],
    the indices being clipped to [0 .. n-1]. *)
Definition is_relmax {A} (gt : A -> A -> bool) (dflt : A) (d : list A)
  (order i : nat) : bool :=
  let n := length d in
  forallb (fun k =>
      gt (nth i d dflt) (nth (Nat.min (i + k) (n - 1)) d dflt)
      && gt (nth i d dflt) (nth (i - k) d dflt))
    (seq 1 order).

Definition argrelmax {A} (gt : A -> A -> bool) (dflt : A) (d : list A)
  (order : nat) : list nat :=
  filter (is_relmax gt dflt d order) (seq 0 (length d)).

(** [peaks = signal.argrelmax(filtered_data, axis=0, order=6)[0]] *)
Definition lamp_peaks (d : list Q) : option (list nat) :=
  match filtered_data d with
  | Some fd => Some (argrelmax py_gt None fd 6)
  | None => None
  end.

End LineDetection.

(* ------------------------------------------------------------------ *)
(** ** Line recentring: [recenter_lines] *)

Module Recenter.

(** [data[i]] *)
Definition at_ (d : list Q) (i : nat) : Q := nth i d 0.

Definition absdiff (a b : nat) : nat := ((a - b) + (b - a))%nat.

(** The left [while] loop of [recenter_lines]; the result is the pair
    [(left_index, left_limit)] when the loop exits.  [left_index]
    decreases at every turn and the guard is [left_index - 2 > 0], so a
    fuel of [line] turns is never exhausted. *)
Fixpoint scan_left (d : list Q) (median : Q) (fuel left_index left_limit : nat)
  : nat * nat :=
  match fuel with
  | O => (left_index, left_limit)
  | S fuel' =>
      if Nat.ltb 2 left_index then
        if Qltb (at_ d left_index) (at_ d (left_index - 1)%nat)
           && Qltb (at_ d (left_index - 1)%nat) (at_ d (left_index - 2)%nat)
        then ((left_index - 1)%nat, left_index)
        else if Qltb (at_ d left_index) median then ((left_index - 1)%nat, left_index)
        else scan_left d median fuel' (left_index - 1)%nat left_index
      else (left_index, left_limit)
  end.

(** The right [while] loop, guard [right_index + 2 < x_size - 1]; the
    result is [(right_index, right_limit)]. *)
Fixpoint scan_right (d : list Q) (median : Q) (x_size fuel right_index right_limit : nat)
  : nat * nat :=
  match fuel with
  | O => (right_index, right_limit)
  | S fuel' =>
      if Nat.ltb (right_index + 2)%nat (x_size - 1)%nat then
        if Qltb (at_ d right_index) (at_ d (right_index + 1)%nat)
           && Qltb (at_ d (right_index + 1)%nat) (at_ d (right_index + 2)%nat)
        then ((right_index + 1)%nat, right_index)
        else if Qltb (at_ d right_index) median then ((right_index + 1)%nat, right_index)
        else scan_right d median x_size fuel' (right_index + 1)%nat right_index
      else (right_index, right_limit)
  end.

(** Both loops, started as in the source ([left_limit = 0],
    [right_limit = 1], both indices at [int(line)]). *)
Definition left_scan (d : list Q) (line : nat) : nat * nat :=
  scan_left d (np_median d) line line 0.

Definition right_scan (d : list Q) (line : nat) : nat * nat :=
  scan_right d (np_median d) (length d) (length d) line 1.

(** [np.sum(sub_x_axis * sub_data) / np.sum(sub_data)] over
    [range(line - dd, line + dd + 1)]. *)
Definition window_centroid (d : list Q) (line dd : nat) : Q :=
  let xs := seq (line - dd)%nat (2 * dd + 1)%nat in
  qsum (map (fun x => inject_Z (Z.of_nat x) * at_ d x) xs) / qsum (map (at_ d) xs).

(** [min(index_diff)] with
    [index_diff = [abs(line - left_index), abs(line - right_index)]]. *)
Definition window_radius (d : list Q) (line : nat) : nat :=
  Nat.min (absdiff line (fst (left_scan d line)))
          (absdiff line (fst (right_scan d line))).

(** [max(differences) / min(differences) >= 2.] on numpy floats: a zero
    denominator gives [inf] (the test holds) or, when both differences
    are zero, [nan] (the test fails). *)
Definition ratio_ge_2 (mx mn : Q) : bool :=
  if Qeq_bool mn 0 then negb (Qeq_bool mx 0) else Qle_bool 2 (mx / mn).

(** [differences = [abs(data[line] - data[left_limit]),
                    abs(data[line] - data[right_limit])]] *)
Definition flank_drops (d : list Q) (line : nat) : Q * Q :=
  (Qabs (at_ d line - at_ d (snd (left_scan d line))),
   Qabs (at_ d line - at_ d (snd (right_scan d line)))).

(** The body of the [for line in lines] loop: the value appended to
    [new_center]. *)
Definition recenter_line (d : list Q) (line : nat) : Q :=
  let centroid := window_centroid d line (window_radius d line) in
  let '(a, b) := flank_drops d line in
  if ratio_ge_2 (Qmax a b) (Qmin a b) then inject_Z (Z.of_nat line) + 1
  else centroid + 1.

Definition recenter_lines (d : list Q) (lines : list nat) : list Q :=
  map (recenter_line d) lines.

(** [get_lines_in_lamp]: peak search, then recentring. *)
Definition get_lines_in_lamp (d : list Q) : option (list Q) :=
  match LineDetection.lamp_peaks d with
  | Some peaks => Some (recenter_lines d peaks)
  | None => None
  end.

(** The window the spec describes: half-width
    [min(|p - left_limit|, |p - right_limit|)]. *)
Definition spec_window_radius (d : list Q) (line : nat) : nat :=
  Nat.min (absdiff line (snd (left_scan d line)))
          (absdiff line (snd (right_scan d line))).

End Recenter.

(* ------------------------------------------------------------------ *)
(** ** The interactive session: marks, fit, evaluation, linearization *)

Module Session.

(** A fitted wavelength solution is a callable [pixel -> wavelength]
    (an astropy model built by [wsbuilder.WavelengthFitter]). *)
Definition model := Q -> Q.

(** The attributes of [WavelengthCalibration] the handlers below read or
    write.  The source keeps [raw_data_marks_x]/[raw_data_marks_y] (and
    [reference_marks_x]/[reference_marks_y]) as two lists that every
    statement of the module appends to, pops from or clears together;
    they are modelled as one list of [(x, y)] pairs.  [line_list] is
    [self.reference_data.get_line_list_by_name(self.lamp_name)]. *)
Record session := mk_session {
  raw_marks : list (Q * Q);
  ref_marks : list (Q * Q);
  wsolution : option model;
  rms_error : option R;
  lines_center : list Q;
  line_list : list Q
}.

Definition set_raw_marks (l : list (Q * Q)) (st : session) : session :=
  mk_session l (ref_marks st) (wsolution st) (rms_error st) (lines_center st) (line_list st).
Definition set_ref_marks (l : list (Q * Q)) (st : session) : session :=
  mk_session (raw_marks st) l (wsolution st) (rms_error st) (lines_center st) (line_list st).
Definition set_wsolution (w : option model) (st : session) : session :=
  mk_session (raw_marks st) (ref_marks st) w (rms_error st) (lines_center st) (line_list st).
Definition set_rms_error (r : option R) (st : session) : session :=
  mk_session (raw_marks st) (ref_marks st) (wsolution st) r (lines_center st) (line_list st).

(** Messages shown with [display_onscreen_message] or [log.error]. *)
Inductive message :=
| NotEnoughMarks                 (* 'Not enough marks! Minimum 4 each side.' *)
| ReferenceClicksMissing (n : nat) (* '%s Reference Click(s) is/are missing!.' *)
| RawClicksMissing (n : nat)     (* '%s Raw Click(s) is/are missing!.' *)
| ClicksRecordEmpty              (* 'Clicks record is empty' *)
| SolutionNonExistent.           (* 'Solution is still non-existent!' *)

(** A handler either returns (a value, the new state and the messages it
    emitted) or raises, leaving the state as it was at the raise. *)
Inductive outcome (A : Type) : Type :=
| Returned (a : A) (st : session) (msgs : list message)
| Raised (st : session).
Arguments Returned {A}.
Arguments Raised {A}.

(** *** [evaluate_solution] *)

(** A numpy masked array: values with their mask bit. *)
Definition masked_array := list (Q * bool).

Definition unmasked (a : masked_array) : list Q :=
  map fst (filter (fun p => negb (snd p)) a).

(** [np.ma.count_masked] *)
Definition count_masked (a : masked_array) : nat :=
  length (filter snd a).

Definition q_of_nat (n : nat) : Q := inject_Z (Z.of_nat n).

Definition mean (l : list Q) : Q := qsum l / q_of_nat (length l).

(** [np.std] of the unmasked values, squared (population variance). *)
Definition variance (l : list Q) : Q :=
  let m := mean l in qsum (map (fun x => (x - m) * (x - m)) l) / q_of_nat (length l).

(** One round of astropy's [sigma_clip] ([_perform_clip]): with
    [c = cenfunc(unmasked)] and [std = np.std(unmasked)], a value is
    masked when [deviation < -sigma * std] or [deviation > sigma * std],
    [deviation = x - c].  For [sigma >= 0] this is
    [deviation ** 2 > sigma ** 2 * std ** 2], which is how it is computed
    here, without a square root. *)
Definition perform_clip (sigma : Q) (cenfunc : list Q -> Q) (a : masked_array)
  : masked_array :=
  let u := unmasked a in
  let c := cenfunc u in
  let var := variance u in
  map (fun p => (fst p, snd p || Qltb (sigma * sigma * var) ((fst p - c) * (fst p - c)))) a.

(** [sigma_clip(data, sigma=sigma, iters=iters, cenfunc=cenfunc)] *)
Definition sigma_clip (data : list Q) (sigma : Q) (iters : nat)
  (cenfunc : list Q -> Q) : masked_array :=
  Nat.iter iters (perform_clip sigma cenfunc) (map (fun x => (x, false)) data).

(** [rline] for one [wline]: [np.argmin(abs(line_list - wline))]. *)
Definition nearest_line (catalog : list Q) (w : Q) : option Q :=
  match argmin (map (fun r => Qabs (r - w)) catalog) with
  | Some i => Some (nth i catalog 0)
  | None => None
  end.

(** [differences]: [wline - rline] for every mapped line center; [None]
    when [np.argmin] raises on an empty line list. *)
Fixpoint residuals (catalog : list Q) (wlines : list Q) : option (list Q) :=
  match wlines with
  | [] => Some []
  | w :: ws =>
      match nearest_line catalog w, residuals catalog ws with
      | Some r, Some ds => Some ((w - r) :: ds)
      | _, _ => None
      end
  end.

(** [np.sqrt(np.sum(square_differences) / len(square_differences))] *)
Definition rms_of (survivors : list Q) : R :=
  sqrt (Q2R (qsum (map (fun x => x * x) survivors) / q_of_nat (length survivors))).

(** [results = [rms_error, npoints, n_rejections]] *)
Record evaluation := mk_evaluation {
  ev_rms : R;
  ev_npoints : nat;
  ev_rejections : nat
}.

(** The range [(min, max)] of the unmasked values ([set_ylim]). *)
Definition ma_range (a : masked_array) : option (Q * Q) :=
  match np_min (unmasked a), np_max (unmasked a) with
  | Some lo, Some hi => Some (lo, hi)
  | _, _ => None
  end.

(** [evaluate_solution(plots)]: the returned value is the evaluation
    together with the y-range of the residual plot ([None] when [plots]
    is false). *)
Definition evaluate_solution (plots : bool) (st : session)
  : outcome (option (evaluation * option (Q * Q))) :=
  match wsolution st with
  | None => Returned None st [SolutionNonExistent]
  | Some f =>
      match residuals (line_list st) (map f (lines_center st)) with
      | None => Raised st
      | Some differences =>
          let clipped := sigma_clip differences 2 5 np_median in
          let once_clipped := sigma_clip differences 2 1 np_median in
          let npoints := length clipped in
          let n_rejections := count_masked clipped in
          let rms := rms_of (unmasked clipped) in
          let st' := set_rms_error (Some rms) st in
          Returned (Some (mk_evaluation rms npoints n_rejections,
                          if plots then ma_range once_clipped else None))
                   st' []
      end
  end.

(** *** [fit_pixel_to_wavelength] *)

Section Fit.

(** [wsbuilder.WavelengthFitter(model='chebyshev', degree=3).ws_fit]. *)
Variable ws_fit : list Q -> list Q -> model.

Definition fit_pixel_to_wavelength (st : session) : outcome unit :=
  let nref := length (ref_marks st) in
  let nraw := length (raw_marks st) in
  (* [if len(self.reference_marks_x) and len(self.raw_data_marks_x) > 0] *)
  if negb (Nat.eqb nref 0) && Nat.ltb 0 nraw then
    if Nat.ltb nref 4 || Nat.ltb nraw 4 then Returned tt st [NotEnoughMarks]
    else if negb (Nat.eqb nref nraw) then
      if Nat.ltb nref nraw then Returned tt st [ReferenceClicksMissing (nraw - nref)]
      else Returned tt st [RawClicksMissing (nref - nraw)]
    else
      let pixel := map fst (raw_marks st) in
      let angstrom := map fst (ref_marks st) in
      let st1 := set_wsolution (Some (ws_fit pixel angstrom)) st in
      match evaluate_solution true st1 with
      | Returned _ st2 msgs => Returned tt st2 msgs
      | Raised st2 => Raised st2
      end
  else Returned tt (set_wsolution None st) [ClicksRecordEmpty].

End Fit.

(** *** [linearize_spectrum] *)

(** [np.linspace(start, stop, num)]: [arange(0, num) * step + start]
    with [step = (stop - start) / (num - 1)], the last sample then set to
    [stop]. *)
Definition linspace (start stop : Q) (num : nat) : list Q :=
  match num with
  | O => []
  | S O => [start]
  | S n' =>
      let step := (stop - start) / q_of_nat n' in
      map (fun i => q_of_nat i * step + start) (seq 0 n') ++ [stop]
  end.

Section Linearize.

(** [splrep(x_axis, data, s=0)], [splev(new_x_axis, tck)] and
    [signal.medfilt]; [None] when scipy raises. *)
Variable resample : list Q -> list Q -> list Q -> option (list Q).

Definition linearize_spectrum (st : session) (data : list Q)
  : outcome (option (list Q * list Q)) :=
  let pixel_axis := map q_of_nat (seq 1 (length data)) in
  match wsolution st with
  | Some f =>
      let x_axis := map f pixel_axis in
      match x_axis with
      | [] => Raised st                      (* [x_axis[0]] on an empty axis *)
      | x0 :: _ =>
          let new_x_axis := linspace x0 (last x_axis x0) (length data) in
          match resample x_axis data new_x_axis with
          | Some smoothed => Returned (Some (new_x_axis, smoothed)) st []
          | None => Raised st
          end
      end
  | None => Returned None st []
  end.

End Linearize.

(** *** The [d] key of [key_pressed]: delete the closest mark *)

Inductive region := RawDataRegion | ReferenceRegion.

(** [list.pop(i)] for [i >= 0]; [None] for the [IndexError]. *)
Definition py_pop {A} (i : nat) (l : list A) : option (list A) :=
  if Nat.ltb i (length l) then Some (firstn i l ++ skipn (S i) l) else None.

(** Pop index [i] from the raw-data marks, then from the reference
    marks. *)
Definition pop_pair (i : nat) (st : session) : outcome unit :=
  match py_pop i (raw_marks st) with
  | None => Raised st
  | Some raw' =>
      let st1 := set_raw_marks raw' st in
      match py_pop i (ref_marks st1) with
      | None => Raised st1
      | Some ref' => Returned tt (set_ref_marks ref' st1) []
      end
  end.

Definition pop_raw_only (i : nat) (st : session) : outcome unit :=
  match py_pop i (raw_marks st) with
  | None => Raised st
  | Some raw' => Returned tt (set_raw_marks raw' st) []
  end.

Definition pop_ref_only (i : nat) (st : session) : outcome unit :=
  match py_pop i (ref_marks st) with
  | None => Raised st
  | Some ref' => Returned tt (set_ref_marks ref' st) []
  end.

(** [closer_index = int(np.argmin([abs(v - event.xdata) for v in marks_x]))] *)
Definition closer_index (marks : list (Q * Q)) (xdata : Q) : option nat :=
  argmin (map (fun v => Qabs (fst v - xdata)) marks).

Definition delete_closest (r : region) (xdata : Q) (st : session) : outcome unit :=
  match r with
  | RawDataRegion =>
      match closer_index (raw_marks st) xdata with
      | None => Raised st
      | Some i =>
          if Nat.eqb (length (raw_marks st)) (length (ref_marks st)) then pop_pair i st
          else if Nat.eqb i (length (raw_marks st) - 1) then pop_raw_only i st
          else pop_pair i st
      end
  | ReferenceRegion =>
      match closer_index (ref_marks st) xdata with
      | None => Raised st
      | Some i =>
          if Nat.eqb (length (raw_marks st)) (length (ref_marks st)) then pop_pair i st
          else if Nat.eqb i (length (ref_marks st) - 1) then pop_ref_only i st
          else pop_pair i st
      end
  end.

(** [list.pop(i)] on an index in range. *)
Definition drop_at {A} (i : nat) (l : list A) : list A := firstn i l ++ skipn (S i) l.

Definition side_marks (r : region) (st : session) : list (Q * Q) :=
  match r with RawDataRegion => raw_marks st | ReferenceRegion => ref_marks st end.

Definition set_side_marks (r : region) (l : list (Q * Q)) (st : session) : session :=
  match r with RawDataRegion => set_raw_marks l st | ReferenceRegion => set_ref_marks l st end.

End Session.

(* ------------------------------------------------------------------ *)
(** ** Reuse of a solution: [set_spectral_features], [check_compatibility] *)

Module Compatibility.

Local Open Scope string_scope.

(** A header value: a string or a number. *)
Inductive hval := VStr (s : string) | VNum (q : Q).

(** Python [!=] between two header values. *)
Definition py_neq (a b : hval) : bool :=
  match a, b with
  | VStr x, VStr y => negb (String.eqb x y)
  | VNum x, VNum y => negb (Qeq_bool x y)
  | _, _ => true
  end.

(** The dict built by [set_spectral_features], in insertion order. *)
Definition spectral_dict := list (string * hval).

Fixpoint lookup (k : string) (d : spectral_dict) : option hval :=
  match d with
  | [] => None
  | (k', v) :: r => if String.eqb k k' then Some v else lookup k r
  end.

(** The header keywords read by [set_spectral_features].  A header that
    has every red-camera keyword ([ROI], [INSTCONF], [WAVMODE], ...) is
    read as red; otherwise the [KeyError] branch reads it as blue.  The
    angle cards [CAM_ANG] and [GRT_ANG] are copied as they are: a number,
    or a string when the card holds one. *)
Record red_header := mk_red {
  r_grating : hval; r_roi : hval; r_filter : hval; r_filter2 : hval;
  r_slit : hval; r_instconf : hval; r_wavmode : hval;
  r_cam_ang : hval; r_grt_ang : hval
}.

Record blue_header := mk_blue {
  b_grating : hval; b_ccdsum : hval; b_filter : hval; b_filter2 : hval;
  b_slit : hval; b_param18 : hval; b_param22 : hval;
  b_cam_ang : hval; b_grt_ang : hval
}.

Inductive header := RedHeader (h : red_header) | BlueHeader (h : blue_header).

Definition set_spectral_features (h : header) : spectral_dict :=
  match h with
  | RedHeader r =>
      [("camera", VStr "red"); ("grating", r_grating r); ("roi", r_roi r);
       ("filter1", r_filter r); ("filter2", r_filter2 r); ("slit", r_slit r);
       ("instconf", r_instconf r); ("wavmode", r_wavmode r);
       ("cam_ang", r_cam_ang r); ("grt_ang", r_grt_ang r)]
  | BlueHeader b =>
      [("camera", VStr "blue"); ("grating", b_grating b); ("ccdsum", b_ccdsum b);
       ("filter1", b_filter b); ("filter2", b_filter2 b); ("slit", b_slit b);
       ("serial_bin", b_param18 b); ("parallel_bin", b_param22 b);
       ("cam_ang", b_cam_ang b); ("grt_ang", b_grt_ang b)]
  end.

Definition red_exact_keys : list string := ["grating"; "roi"; "instconf"; "wavmode"].
Definition blue_exact_keys : list string := ["grating"; "ccdsum"; "serial_bin"; "parallel_bin"].
Definition angle_keys : list string := ["cam_ang"; "grt_ang"].

Definition mem (k : string) (l : list string) : bool := existsb (String.eqb k) l.

(** [new_dict[key] - self.spectral_dict[key]] in the red branch: two
    numbers subtract; a string operand raises [TypeError] ([None]). *)
Definition py_sub (a b : hval) : option Q :=
  match a, b with
  | VNum x, VNum y => Some (x - y)
  | _, _ => None
  end.

(** One turn of [for key in new_dict.keys()]: [Some true] goes on,
    [Some false] is [return False], [None] is a raised exception
    ([KeyError], or the angle difference [angle_diff] raising). *)
Definition check_key (exact : list string) (angle_diff : hval -> hval -> option Q)
  (stored new_dict : spectral_dict) (key : string) : option bool :=
  let exact_mismatch :=
    if mem key exact then
      match lookup key new_dict, lookup key stored with
      | Some a, Some b => Some (py_neq a b)
      | _, _ => None
      end
    else Some false in
  match exact_mismatch with
  | None => None
  | Some true => Some false
  | Some false =>
      (* the [elif] on the angle keys *)
      if mem key angle_keys then
        match lookup key new_dict, lookup key stored with
        | Some a, Some b =>
            match angle_diff a b with
            | Some d => Some (negb (Qltb 1 (Qabs d)))
            | None => None
            end
        | _, _ => None
        end
      else Some true
  end.

Fixpoint check_keys (exact : list string) (angle_diff : hval -> hval -> option Q)
  (stored new_dict : spectral_dict) (keys : list string) : option bool :=
  match keys with
  | [] => Some true
  | k :: ks =>
      match check_key exact angle_diff stored new_dict k with
      | Some true => check_keys exact angle_diff stored new_dict ks
      | r => r
      end
  end.

Section Check.

(** [float(s)] on a string. *)
Variable parse_float : string -> option Q.

(** [float(v)] on a header value; [None] for the [ValueError]. *)
Definition py_float_q (v : hval) : option Q :=
  match v with
  | VNum q => Some q
  | VStr s => parse_float s
  end.

(** [float(new_dict[key]) - float(self.spectral_dict[key])] in the blue
    branch. *)
Definition float_sub (a b : hval) : option Q :=
  match py_float_q a with
  | None => None
  | Some x =>
      match py_float_q b with
      | None => None
      | Some y => Some (x - y)
      end
  end.

(** [check_compatibility(header)] of the solution whose dict is
    [stored]; [None] stands for a raised exception.  The loop visits the
    keys in insertion order.  Python 2 visits a dict in hash order; each
    turn either returns [False], goes on or raises, so that order only
    matters when one turn raises and another returns [False]. *)
Definition check_compatibility (stored : spectral_dict) (h : option header)
  : option bool :=
  match h with
  | None => Some false
  | Some h =>
      let new_dict := set_spectral_features h in
      match lookup "camera" stored with
      | Some (VStr c) =>
          if String.eqb c "red" then
            check_keys red_exact_keys py_sub stored new_dict (map fst new_dict)
          else if String.eqb c "blue" then
            check_keys blue_exact_keys float_sub stored new_dict (map fst new_dict)
          else Some true
      | Some _ => Some true
      | None => if (length new_dict =? 0)%nat then Some true else None
      end
  end.

End Check.

End Compatibility.

(* ------------------------------------------------------------------ *)
(** ** Instrument configuration: [get_spectral_characteristics] and
    [predicted_wavelength] *)

Module Spectral.
Import Compatibility.
Local Open Scope R_scope.
Local Open Scope string_scope.

(** [self.gratings_dict] of [__init__]. *)
Definition gratings_dict : list (string * Q) :=
  [("SYZY_400", 400%Q); ("KOSI_600", 600%Q); ("930", 930%Q);
   ("RALC_1200-BLUE", 1200%Q); ("RALC_1200-RED", 1200%Q)].

Fixpoint assoc_str (k : string) (l : list (string * Q)) : option Q :=
  match l with
  | [] => None
  | (k', v) :: r => if String.eqb k k' then Some v else assoc_str k r
  end.

(** A FITS header as its cards in order; [header[k]] is
    [Compatibility.lookup k header] ([None] for the [KeyError]). *)
Definition fits_header := list (string * hval).

(** [self.gratings_dict[self.lamp_header['GRATING']]]: the keys are
    strings, so a numeric card raises [KeyError] too. *)
Definition grating_frequency_of (g : hval) : option Q :=
  match g with VStr s => assoc_str s gratings_dict | VNum _ => None end.

(** [try: self.lamp_header['PG5_4'] except KeyError:
    self.lamp_header['PARAM22']] *)
Definition binning_of (h : fits_header) : option hval :=
  match lookup "PG5_4" h with Some b => Some b | None => lookup "PARAM22" h end.

(** [np.sin(x * np.pi / 180.)] *)
Definition sin_deg (x : R) : R := sin (x * PI / 180).

(** [predicted_wavelength(pixel)] from the attributes
    [grating_frequency], [alpha], [beta] and [binning].  With a string
    binning card, [pixel * binning] repeats the string and [- 2048]
    raises [TypeError] ([None]). *)
Definition predicted_wavelength (grating_frequency : Q) (alpha beta : R)
  (binning : hval) (pixel : Q) : option R :=
  match binning with
  | VNum b =>
      Some (10 * (1000000 / Q2R grating_frequency) *
            (sin_deg alpha
             + sin (beta * PI / 180
                    + atan ((Q2R pixel * Q2R b - 2048) * (15 / 1000) / (3772 / 10)))))
  | VStr _ => None
  end.

(** The attributes [get_spectral_characteristics] sets and the dict it
    returns. *)
Record characteristics := mk_characteristics {
  grating_frequency : Q;
  binning : hval;
  center_wavelength : R;
  blue_limit : R;
  red_limit : R;
  alpha : R;
  beta : R;
  pix1 : R;
  pix2 : R
}.

Section Characteristics.

(** [float(s)] on a string card. *)
Variable parse_float : string -> option Q.

Definition py_float (v : hval) : option R :=
  match v with
  | VNum q => Some (Q2R q)
  | VStr s => match parse_float s with Some q => Some (Q2R q) | None => None end
  end.

(** [get_spectral_characteristics()] on [self.lamp_header]; [None] when
    a card is missing ([KeyError]), the grating is unknown, an angle is
    not a number ([ValueError]) or [predicted_wavelength] raises. *)
Definition get_spectral_characteristics (h : fits_header) : option characteristics :=
  let blue_correction_factor := -90 in
  let red_correction_factor := -60 in
  match lookup "GRATING" h with
  | None => None
  | Some g =>
  match grating_frequency_of g with
  | None => None
  | Some freq =>
  match lookup "GRT_ANG" h with
  | None => None
  | Some ga =>
  match py_float ga with
  | None => None
  | Some grating_angle =>
  match lookup "CAM_ANG" h with
  | None => None
  | Some ca =>
  match py_float ca with
  | None => None
  | Some camera_angle =>
  match binning_of h with
  | None => None
  | Some bin =>
      let alpha := grating_angle + 0 in
      let beta := camera_angle - grating_angle in
      let center := 10 * (1000000 / Q2R freq) * (sin_deg alpha + sin_deg beta) in
      let blue := 10 * (1000000 / Q2R freq) *
                  (sin_deg alpha + sin_deg (beta - 4656 / 1000)) + blue_correction_factor in
      let red := 10 * (1000000 / Q2R freq) *
                 (sin_deg alpha + sin_deg (beta + 4656 / 1000)) + red_correction_factor in
      match predicted_wavelength freq alpha beta bin 1,
            predicted_wavelength freq alpha beta bin 2 with
      | Some pixel_one, Some pixel_two =>
          Some (mk_characteristics freq bin center blue red alpha beta pixel_one pixel_two)
      | _, _ => None
      end
  end end end end end end end.

End Characteristics.

End Spectral.

(* ------------------------------------------------------------------ *)
(** ** [interpolate] *)

Module Interpolation.
Import Session.

(** [self.interpolation_size] *)
Definition interpolation_size : nat := 200.

Section Interpolate.

(** [splrep(x_axis, spectrum, s=0)] then [splev(new_x_axis, tck)];
    [None] when scipy raises. *)
Variable spline : list Q -> list Q -> list Q -> option (list Q).

Definition interpolate (spectrum : list Q) : option (list Q * list Q) :=
  let x_axis := map q_of_nat (seq 1 (length spectrum)) in
  match x_axis with
  | [] => None                              (* [x_axis[0]] raises [IndexError] *)
  | first_x :: _ =>
      let last_x := last x_axis first_x in
      let new_x_axis := linspace first_x last_x (length spectrum * interpolation_size)%nat in
      match spline x_axis spectrum new_x_axis with
      | Some new_spectrum => Some (new_x_axis, new_spectrum)
      | None => None
      end
  end.

End Interpolate.

End Interpolation.

(* ------------------------------------------------------------------ *)
(** ** More of the interactive session: [find_more_lines], the
    [ctrl+z] key, deletion in the residual plot, [register_mark] *)

Module Interactive.
Import Session.

(** [self.filling_value] *)
Definition filling_value : Q := 1000.

(** [w in marks_x]: Python's [in] compares with [==]. *)
Definition py_in (w : Q) (xs : list Q) : bool := existsb (Qeq_bool w) xs.

(** [rline] for every [wline], in order; [None] when [np.argmin] raises
    on an empty line list. *)
Fixpoint nearest_lines (catalog : list Q) (wlines : list Q) : option (list Q) :=
  match wlines with
  | [] => Some []
  | w :: ws =>
      match nearest_line catalog w, nearest_lines catalog ws with
      | Some r, Some rs => Some (r :: rs)
      | _, _ => None
      end
  end.

(** The last loop of [find_more_lines], over
    [(new_physical[i], new_wavelength[i], clipped_differences[i] is masked)];
    the membership test sees the marks appended by earlier turns. *)
Fixpoint add_new_marks (cands : list (Q * Q * bool)) (raw ref : list (Q * Q))
  : list (Q * Q) * list (Q * Q) :=
  match cands with
  | [] => (raw, ref)
  | (p, w, masked) :: r =>
      if negb masked && negb (py_in w (map fst ref))
      then add_new_marks r (raw ++ [(p, filling_value)]) (ref ++ [(w, filling_value)])
      else add_new_marks r raw ref
  end.

(** [find_more_lines()].  [sigma_clip] is called with its default
    center [np.ma.median]; the three lists it compares by length always
    have the same length. *)
Definition find_more_lines (st : session) : outcome bool :=
  match wsolution st with
  | None => Returned true st []
  | Some f =>
      let wlines := map f (lines_center st) in
      match nearest_lines (line_list st) wlines with
      | None => Raised st
      | Some rlines =>
          let square_differences :=
            map (fun wr => (fst wr - snd wr) * (fst wr - snd wr)) (combine wlines rlines) in
          let clipped := sigma_clip square_differences 2 3 np_median in
          let cands := combine (combine (lines_center st) rlines) (map snd clipped) in
          let marks := add_new_marks cands (raw_marks st) (ref_marks st) in
          Returned true (set_ref_marks (snd marks) (set_raw_marks (fst marks) st)) []
      end
  end.

(** [self.X.pop(index)] on the four mark lists for every [index], raw
    data first; a raise leaves the pops already done. *)
Fixpoint pop_pairs (idxs : list nat) (st : session) : outcome unit :=
  match idxs with
  | [] => Returned tt st []
  | i :: r =>
      match pop_pair i st with
      | Returned _ st1 _ => pop_pairs r st1
      | Raised st1 => Raised st1
      end
  end.

(** [to_remove]: the indices [i] with [raw_data_marks_y[i] ==
    filling_value], sorted in decreasing order. *)
Definition auto_mark_indices (raw : list (Q * Q)) : list nat :=
  rev (filter (fun i => Qeq_bool (snd (nth i raw (0, 0))) filling_value)
              (seq 0 (length raw))).

(** The [ctrl+z] key of [key_pressed] (its guard
    [self.raw_data_marks_x is not []] always holds). *)
Definition undo_auto_marks (st : session) : outcome unit :=
  pop_pairs (auto_mark_indices (raw_marks st)) st.

(** The [d] key over the residual plot ([self.contextual_bb]): the
    reference index is the mark nearest to [event.ydata], the raw one
    the mark nearest to [event.xdata]; both are computed before any pop. *)
Definition delete_contextual (xdata ydata : Q) (st : session) : outcome unit :=
  match closer_index (ref_marks st) ydata with
  | None => Raised st
  | Some j =>
      match closer_index (raw_marks st) xdata with
      | None => Raised st
      | Some i =>
          match pop_raw_only i st with
          | Returned _ st1 _ => pop_ref_only j st1
          | Raised st1 => Raised st1
          end
      end
  end.

(** The data [recenter_line_by_data] reads besides the session:
    [len(self.lamp_data)] (so [self.raw_pixel_axis] is
    [range(1, lamp_length + 1)]) and [self.reference_solution[0]]
    ([None] when no reference lamp was found). *)
Record click_context := mk_click_context {
  lamp_length : nat;
  reference_axis : option (list Q)
}.

Inductive data_name := Reference | RawData | OtherName.

(** [recenter_line_by_data(data_name, x_data)].  The centre of mass of
    the 20 samples around the click is only plotted (numpy gives [nan]
    rather than raising on a zero sum); the returned value is the line of
    [line_list] (reference) or of [lines_center] (raw data) nearest to
    the click. *)
Definition recenter_line_by_data (ctx : click_context) (name : data_name) (x_data : Q)
  (st : session) : outcome (option Q) :=
  match name with
  | Reference =>
      match reference_axis ctx with
      | None => Raised st                   (* [None[0]]: [TypeError] *)
      | Some ax =>
          match argmin (map (fun v => Qabs (v - x_data)) ax) with
          | None => Raised st
          | Some _ =>
              match nearest_line (line_list st) x_data with
              | None => Raised st
              | Some r => Returned (Some r) st []
              end
          end
      end
  | RawData =>
      match argmin (map (fun v => Qabs (v - x_data)) (map q_of_nat (seq 1 (lamp_length ctx)))) with
      | None => Raised st
      | Some _ =>
          match nearest_line (lines_center st) x_data with
          | None => Raised st
          | Some c => Returned (Some c) st []
          end
      end
  | OtherName => Returned None st []      (* log.error('Unrecognized data name') *)
  end.

(** Where the click fell: [self.reference_bb], [self.raw_data_bb] or
    elsewhere. *)
Inductive click_region := InReference | InRawData | Elsewhere.

(** [register_mark(event)]; [xdata] and [ydata] are [None] outside the
    axes. *)
Definition register_mark (ctx : click_context) (xdata ydata : option Q)
  (where_ : click_region) (st : session) : outcome unit :=
  match xdata, ydata with
  | Some x, Some y =>
      match where_ with
      | InReference =>
          match recenter_line_by_data ctx Reference x st with
          | Returned (Some r) st1 _ => Returned tt (set_ref_marks (ref_marks st1 ++ [(r, y)]) st1) []
          | Returned None st1 _ => Returned tt st1 []   (* not reached *)
          | Raised st1 => Raised st1
          end
      | InRawData =>
          match recenter_line_by_data ctx RawData x st with
          | Returned (Some c) st1 _ => Returned tt (set_raw_marks (raw_marks st1 ++ [(c, y)]) st1) []
          | Returned None st1 _ => Returned tt st1 []   (* not reached *)
          | Raised st1 => Raised st1
          end
      | Elsewhere => Returned tt st []
      end
  | _, _ => Returned tt st []               (* 'Clicked Region is out of boundaries' *)
  end.

End Interactive.

(* ------------------------------------------------------------------ *)
(** ** [display_onscreen_message]: breaking a long message into lines *)

Module Messages.
Local Open Scope nat_scope.
Local Open Scope string_scope.

(** [s.split(' ')]: every single space separates, empty words kept. *)
Fixpoint py_split_space (s : string) : list string :=
  match s with
  | EmptyString => [EmptyString]
  | String c r =>
      if Ascii.eqb c " "%char then EmptyString :: py_split_space r
      else match py_split_space r with
           | w :: ws => String c w :: ws
           | [] => [String c EmptyString]
           end
  end.

(** [' '.join(words)] *)
Fixpoint py_join_space (l : list string) : string :=
  match l with
  | [] => EmptyString
  | [x] => x
  | x :: r => x ++ " " ++ py_join_space r
  end.

(** [split_message[a:b]] *)
Definition slice {A} (a b : nat) (l : list A) : list A := firstn (b - a) (skipn a l).

(** The first [if] of the loop body, on the state
    [(line_length, e, full_message)]. *)
Definition wrap_break (words : list string) (s : nat * nat * list string) (i : nat)
  : nat * nat * list string :=
  let '(line_length, e, full_message) := s in
  let line_length := line_length + String.length (nth i words "") + 1 in
  if Nat.leb 30 line_length
  then (0, i, app full_message [py_join_space (slice e i words)])
  else (line_length, e, full_message).

(** The whole body of [for i in range(len(split_message))]. *)
Definition wrap_step (words : list string) (s : nat * nat * list string) (i : nat)
  : nat * nat * list string :=
  let '(line_length, e, full_message) := wrap_break words s i in
  if Nat.eqb i (length words - 1)
  then (line_length, e, app full_message [py_join_space (skipn e words)])
  else (line_length, e, full_message).

(** [full_message], the lines drawn in the message panel. *)
Definition wrap_message (message : string) : list string :=
  if Nat.ltb 30 (String.length message) then
    let words := py_split_space message in
    snd (fold_left (wrap_step words) (seq 0 (length words)) (0, 0, []))
  else [message].

End Messages.

(* ------------------------------------------------------------------ *)
(** ** Writing a linearized spectrum: [add_wavelength_solution] *)

Module Output.
Import Session.
Local Open Scope string_scope.

(** [self.args.destiny] and [self.args.output_prefix] *)
Record run_args := mk_args {
  destiny : string;
  output_prefix : string
}.

(** [s.replace(old, new)] for a non-empty [old]: every occurrence, left
    to right, without overlaps.  Each turn consumes a character, so
    [String.length s] turns suffice. *)
Fixpoint replace_fuel (fuel : nat) (old new s : string) : string :=
  match fuel with
  | O => s
  | S fuel' =>
      match s with
      | EmptyString => EmptyString
      | String c r =>
          if String.prefix old s
          then new ++ replace_fuel fuel' old new
                        (substring (String.length old) (String.length s - String.length old) s)
          else String c (replace_fuel fuel' old new r)
      end
  end.

Definition py_replace (old new s : string) : string :=
  replace_fuel (String.length s) old new s.

(** ['%s' % n] for a non-negative [int]. *)
Definition py_str_nat (n : nat) : string := NilEmpty.string_of_uint (Nat.to_uint n).

(** [new_filename] *)
Definition output_filename (a : run_args) (original_filename : string) (index : option nat)
  : string :=
  let f_end := match index with
               | None => ".fits"
               | Some k => "_" ++ py_str_nat k ++ ".fits"
               end in
  destiny a ++ output_prefix a ++ py_replace ".fits" "" original_filename ++ f_end.

(** The [HISTORY] card: the evaluation computed here, or the comment
    passed in. *)
Inductive history :=
| HistoryEvaluation (rms : R) (npoints n_rejections : nat)
| HistoryComment (comment : string).

(** The cards set on [new_header] that carry the solution, and the file
    [fits.writeto] writes. *)
Record written := mk_written {
  w_history : history;
  w_crval1 : Q;
  w_crpix1 : nat;
  w_cdelt1 : Q;
  w_cd1_1 : Q;
  w_filename : string;
  w_data : list Q
}.

(** [add_wavelength_solution(new_header, spectrum, original_filename,
    evaluation_comment, index)]; [spectrum] is what [linearize_spectrum]
    returned. *)
Definition add_wavelength_solution (a : run_args) (st : session)
  (spectrum : option (list Q * list Q)) (original_filename : string)
  (evaluation_comment : option string) (index : option nat) : outcome written :=
  let hist :=
    match evaluation_comment with
    | None =>
        match evaluate_solution false st with
        | Returned (Some (ev, _)) st1 msgs =>
            Returned (HistoryEvaluation (ev_rms ev) (ev_npoints ev) (ev_rejections ev)) st1 msgs
        | Returned None st1 _ => Raised st1   (* unpacking [None]: [TypeError] *)
        | Raised st1 => Raised st1
        end
    | Some c => Returned (HistoryComment c) st []
    end in
  match hist with
  | Raised st1 => Raised st1
  | Returned h st1 msgs =>
      match spectrum with
      | None => Raised st1                   (* [None[0]]: [TypeError] *)
      | Some (ax, ys) =>
          let new_crpix := 1%nat in
          match ax with
          | new_crval :: x1 :: _ =>
              let new_cdelt := x1 - new_crval in
              Returned (mk_written h new_crval new_crpix new_cdelt new_cdelt
                          (output_filename a original_filename index) ys) st1 msgs
          | _ => Raised st1                    (* [spectrum[0][1]]: [IndexError] *)
          end
      end
  end.

End Output.

(* ------------------------------------------------------------------ *)
(** ** Concrete inputs *)

Module Samples.

(** A flat lamp spectrum at 100 counts with a faint line (107 counts) at
    pixel 7 and a strong one (200 counts) at pixel 20. *)
Definition faint_line_spectrum : list Q :=
  map inject_Z (repeat 100%Z 7 ++ [107%Z] ++ repeat 100%Z 12 ++ [200%Z] ++ repeat 100%Z 7).

(** One emission line at pixel 6 whose flanks end on a rising neighbour
    (left) and below the median (right). *)
Definition single_line_spectrum : list Q :=
  map inject_Z [5; 4; 3; 2; 4; 8; 10; 7; 3; 2; 3; 4; 5]%Z.

(** Three pixel-side marks, two wavelength-side marks. *)
Definition three_two_marks : Session.session :=
  Session.mk_session [(10, 0); (20, 0); (30, 0)] [(100, 0); (200, 0)] None None [] [].

(** A red-camera lamp configuration (camera angle 30, grating angle
    15), the same configuration with the grating angle moved by 1.5 and
    by 0.5 degrees, and a blue-camera header with the same grating and
    angles. *)
Definition red_lamp (grt_ang : Q) : Compatibility.red_header :=
  Compatibility.mk_red (Compatibility.VStr "SYZY_400") (Compatibility.VStr "Spectroscopic 2x2")
    (Compatibility.VStr "<NO FILTER>") (Compatibility.VStr "GG455")
    (Compatibility.VStr "1.0_LONG_SLIT") (Compatibility.VStr "Red")
    (Compatibility.VStr "400_M2") (Compatibility.VNum 30) (Compatibility.VNum grt_ang).

Definition blue_lamp : Compatibility.blue_header :=
  Compatibility.mk_blue (Compatibility.VStr "SYZY_400") (Compatibility.VStr "2 2")
    (Compatibility.VStr "<NO FILTER>") (Compatibility.VStr "GG455")
    (Compatibility.VStr "1.0_LONG_SLIT") (Compatibility.VNum 2) (Compatibility.VNum 2)
    (Compatibility.VNum 30) (Compatibility.VNum 15).

(** A solution [4000 + 2 * pixel], four detected lines and a line list
    in which the line near 4060 A is 1 A off. *)
Definition sample_model (x : Q) : Q := 2 * x + 4000.

Definition evaluated_session : Session.session :=
  Session.mk_session [] [] (Some sample_model) None [10; 20; 30; 40]
    [4020; 4040; 4061; 4080; 5000].

(** No solution yet. *)
Definition unfitted_session : Session.session :=
  Session.mk_session [] [] None None [10; 20; 30; 40] [4020; 4040; 4061; 4080].

(** Five pixel-side marks and three wavelength-side marks. *)
Definition five_three_marks : Session.session :=
  Session.mk_session [(10, 0); (20, 0); (30, 0); (40, 0); (50, 0)]
    [(4020, 0); (4040, 0); (4060, 0)] None None [] [].

(** A fitter that always returns [sample_model]. *)
Definition sample_fit (pixel angstrom : list Q) : Q -> Q := sample_model.

(** A resampler that returns the input intensities. *)
Definition keep_intensities (x_axis data new_x_axis : list Q) : option (list Q) :=
  Some data.

(** A red-camera lamp header as its cards, binning in [PARAM22]. *)
Definition red_lamp_cards : Spectral.fits_header :=
  [("OBJECT"%string, Compatibility.VStr "HgArNe"); ("GRATING"%string, Compatibility.VStr "SYZY_400");
   ("GRT_ANG"%string, Compatibility.VNum 15); ("CAM_ANG"%string, Compatibility.VNum 30);
   ("PARAM22"%string, Compatibility.VNum 1)].

(** [float] on string cards, for headers whose angles are numbers. *)
Definition no_string_floats (s : string) : option Q := None.

(** A session with a solution, one hand-made mark on each side and the
    line list of [evaluated_session]. *)
Definition marked_session : Session.session :=
  Session.mk_session [(15, 3)] [(4030, 8)] (Some sample_model) None [10; 20; 30; 40]
    [4020; 4040; 4061; 4080; 5000].

(** [marked_session] after [find_more_lines]. *)
Definition marked_session_more_lines : Session.session :=
  Session.mk_session [(15, 3); (10, 1000); (20, 1000); (40, 1000)]
    [(4030, 8); (4020, 1000); (4040, 1000); (4080, 1000)] (Some sample_model) None
    [10; 20; 30; 40] [4020; 4040; 4061; 4080; 5000].

(** Marks where a hand-made raw mark was clicked at height 1000, and the
    reference side has one more mark. *)
Definition filled_marks_session : Session.session :=
  Session.mk_session [(10, 1000); (15, 3); (20, 1000); (30, 7)]
    [(4020, 1000); (4030, 8); (4040, 1000); (4060, 7); (4100, 2)] None None [] [].

(** A lamp of 50 pixels and a reference lamp sampled at 4000, 4050 and
    4100 A. *)
Definition click_ctx : Interactive.click_context :=
  Interactive.mk_click_context 50 (Some [4000; 4050; 4100]).

(** [args.destiny] and [args.output_prefix]. *)
Definition sample_args : Output.run_args := Output.mk_args "out/" "w".

End Samples.

(* ================================================================== *)
(** * Properties *)

Lemma Qltb_lt x y : Qltb x y = true <-> x < y.
Proof.
  unfold Qltb. rewrite negb_true_iff. split; intro H.
  - apply Qnot_le_lt. intro H'. apply Qle_bool_iff in H'. congruence.
  - destruct (Qle_bool y x) eqn:E; [|reflexivity].
    apply Qle_bool_iff in E. exfalso. apply (Qlt_not_le x y); assumption.
Qed.

Lemma Qltb_false x y : Qltb x y = false <-> y <= x.
Proof.
  unfold Qltb. rewrite negb_false_iff. apply Qle_bool_iff.
Qed.

Lemma nth_map_indep {A B} (g : A -> B) (l : list A) (i : nat) (da : A) (db : B) :
  (i < length l)%nat -> nth i (map g l) db = g (nth i l da).
Proof.
  intro Hi. rewrite (nth_indep (map g l) db (g da)) by (rewrite length_map; exact Hi).
  apply map_nth.
Qed.

Module LineDetectionFacts.
Import LineDetection.

Lemma in_argrelmax {A} (gt : A -> A -> bool) (dflt : A) (d : list A) (order p : nat) :
  In p (argrelmax gt dflt d order) ->
  (p < length d)%nat /\ is_relmax gt dflt d order p = true.
Proof.
  unfold argrelmax. rewrite filter_In, in_seq. intros [[_ H] H']. split; [lia|exact H'].
Qed.

(** A kept index is greater than its right neighbour, so it is not a
    masked ([None]) sample. *)
Lemma relmax_not_none (fd : list (option Q)) (p : nat) :
  is_relmax py_gt None fd 6 p = true -> exists x, nth p fd None = Some x.
Proof.
  unfold is_relmax. simpl. destruct (nth p fd None) as [x|]; [eauto|].
  simpl. discriminate.
Qed.

(** C1 (as amended).  Line detection masks exactly the samples that are
    not strictly above [min + 0.05 * max] of the spectrum: every sample
    strictly above that threshold is kept with its value, and every
    reported peak (local maximum of order 6 of the masked signal) is a
    sample strictly above it. *)
Theorem lamp_peaks_mask_threshold (d : list Q) (mn mx : Q) :
  np_min d = Some mn -> np_max d = Some mx ->
  exists fd,
    filtered_data d = Some fd /\ length fd = length d /\
    (forall i, (i < length d)%nat ->
       (nth i fd None = None <-> nth i d 0 <= mn + (1 # 20) * mx) /\
       (nth i fd None <> None -> nth i fd None = Some (nth i d 0))) /\
    lamp_peaks d = Some (argrelmax py_gt None fd 6) /\
    (forall p, In p (argrelmax py_gt None fd 6) -> mn + (1 # 20) * mx < nth p d 0).
Proof.
  intros Hmn Hmx.
  set (g := fun x : Q => if Qltb (mn + (1 # 20) * mx) x then Some x else None).
  assert (Hfd : filtered_data d = Some (map g d)).
  { unfold filtered_data. rewrite Hmn, Hmx. reflexivity. }
  assert (Hnth : forall i, (i < length d)%nat -> nth i (map g d) None = g (nth i d 0)).
  { intros i Hi. apply nth_map_indep; exact Hi. }
  exists (map g d). split; [exact Hfd|]. split; [apply length_map|]. split; [|split].
  - intros i Hi. rewrite Hnth by exact Hi. unfold g.
    destruct (Qltb (mn + (1 # 20) * mx) (nth i d 0)) eqn:E.
    + apply Qltb_lt in E. split; [|intros _; reflexivity]. split; [discriminate|].
      intro Hle. exfalso. apply (Qlt_not_le _ _ E Hle).
    + apply Qltb_false in E. split; [split; [intros _; exact E|intros _; reflexivity]|].
      intro H. exfalso. apply H. reflexivity.
  - unfold lamp_peaks. rewrite Hfd. reflexivity.
  - intros p Hp. apply in_argrelmax in Hp. destruct Hp as [Hlen Hrel].
    rewrite length_map in Hlen.
    destruct (relmax_not_none _ _ Hrel) as [x Hx].
    rewrite Hnth in Hx by exact Hlen. unfold g in Hx.
    destruct (Qltb (mn + (1 # 20) * mx) (nth p d 0)) eqn:E; [|discriminate].
    apply Qltb_lt. exact E.
Qed.

Lemma lamp_peaks_mask_threshold_witness :
  np_min Samples.faint_line_spectrum = Some 100 /\
  np_max Samples.faint_line_spectrum = Some 200 /\
  exists fd,
    filtered_data Samples.faint_line_spectrum = Some fd /\
    length fd = length Samples.faint_line_spectrum /\
    (forall i, (i < length Samples.faint_line_spectrum)%nat ->
       (nth i fd None = None <-> nth i Samples.faint_line_spectrum 0 <= 100 + (1 # 20) * 200) /\
       (nth i fd None <> None -> nth i fd None = Some (nth i Samples.faint_line_spectrum 0))) /\
    lamp_peaks Samples.faint_line_spectrum = Some (argrelmax py_gt None fd 6) /\
    (forall p, In p (argrelmax py_gt None fd 6) ->
       100 + (1 # 20) * 200 < nth p Samples.faint_line_spectrum 0).
Proof.
  split; [vm_compute; reflexivity|]. split; [vm_compute; reflexivity|].
  apply lamp_peaks_mask_threshold; vm_compute; reflexivity.
Defined.

(** C1 fails as stated: the spectrum [faint_line_spectrum] has minimum
    100 and maximum 200, so the claimed threshold
    [min + 0.05 * (max - min)] is 105; its sample at pixel 7 (107 counts)
    lies above it and is a strict local maximum of order 6, yet the code
    masks it (its threshold is [min + 0.05 * max = 110]) and reports
    only the line at pixel 20. *)
Lemma lamp_peaks_threshold_counterexample :
  np_min Samples.faint_line_spectrum = Some 100 /\
  np_max Samples.faint_line_spectrum = Some 200 /\
  100 + (1 # 20) * (200 - 100) <= nth 7 Samples.faint_line_spectrum 0 /\
  argrelmax (fun a b => Qltb b a) 0 Samples.faint_line_spectrum 6 = [7%nat; 20%nat] /\
  (exists fd, filtered_data Samples.faint_line_spectrum = Some fd /\ nth 7 fd None = None) /\
  lamp_peaks Samples.faint_line_spectrum = Some [20%nat].
Proof.
  split; [vm_compute; reflexivity|]. split; [vm_compute; reflexivity|].
  split; [apply Qle_bool_iff; vm_compute; reflexivity|].
  split; [vm_compute; reflexivity|].
  split; [eexists; split; [vm_compute; reflexivity|vm_compute; reflexivity]|].
  vm_compute; reflexivity.
Qed.

End LineDetectionFacts.

Module RecenterFacts.
Import Recenter.

(** C2 (defect).  On [single_line_spectrum] the only detected line is
    pixel 6; the scans stop at [left_limit = 3] and [right_limit = 8],
    but the loop counters have already moved one pixel further
    ([left_index = 2], [right_index = 9]).  The source measures the
    window from the counters: its half-width is 3, not
    [min(|6 - 3|, |6 - 8|) = 2], and the line (which passes the
    symmetry test, flank drops 8 and 7) is reported at the centroid of
    [3 .. 9], [213/36 + 1], instead of the centroid of [4 .. 8],
    [189/32 + 1]. *)
Lemma recenter_window_uses_loop_counters :
  LineDetection.lamp_peaks Samples.single_line_spectrum = Some [6%nat] /\
  left_scan Samples.single_line_spectrum 6 = (2%nat, 3%nat) /\
  right_scan Samples.single_line_spectrum 6 = (9%nat, 8%nat) /\
  window_radius Samples.single_line_spectrum 6 = 3%nat /\
  spec_window_radius Samples.single_line_spectrum 6 = 2%nat /\
  flank_drops Samples.single_line_spectrum 6 = (8, 7) /\
  get_lines_in_lamp Samples.single_line_spectrum =
    Some [window_centroid Samples.single_line_spectrum 6 3 + 1] /\
  window_centroid Samples.single_line_spectrum 6 3 == 213 # 36 /\
  window_centroid Samples.single_line_spectrum 6 2 == 189 # 32 /\
  ~ (213 # 36 == 189 # 32).
Proof.
  repeat split; try (vm_compute; reflexivity).
  vm_compute. discriminate.
Qed.

(** C3.  For every detected line [p] (0-based index of the peak), with
    [a], [b] the intensity drops from the peak to [left_limit] and
    [right_limit]: when [max(a, b) / min(a, b) >= 2] the reported
    position is [p + 1], when the ratio is below 2 it is the centroid
    plus 1; in every case the reported position is [p + 1] or the
    centroid plus 1, i.e. a 1-based pixel coordinate. *)
Theorem get_lines_in_lamp_asymmetry_guard (d out : list Q) (k : nat) :
  get_lines_in_lamp d = Some out -> (k < length out)%nat ->
  exists peaks,
    LineDetection.lamp_peaks d = Some peaks /\ length peaks = length out /\
    let p := nth k peaks 0%nat in
    let x := nth k out 0 in
    let a := fst (flank_drops d p) in
    let b := snd (flank_drops d p) in
    (0 < Qmin a b -> 2 <= Qmax a b / Qmin a b -> x = inject_Z (Z.of_nat p) + 1) /\
    (0 < Qmin a b -> Qmax a b / Qmin a b < 2 ->
       x = window_centroid d p (window_radius d p) + 1) /\
    (x = inject_Z (Z.of_nat p) + 1 \/ x = window_centroid d p (window_radius d p) + 1).
Proof.
  unfold get_lines_in_lamp.
  destruct (LineDetection.lamp_peaks d) as [peaks|]; [|discriminate].
  intros Hout Hk. injection Hout as <-. unfold recenter_lines in *.
  rewrite length_map in Hk.
  exists peaks. split; [reflexivity|]. split; [symmetry; apply length_map|].
  cbv zeta.
  rewrite (nth_map_indep (recenter_line d) peaks k 0%nat 0 Hk).
  set (p := nth k peaks 0%nat).
  unfold recenter_line.
  destruct (flank_drops d p) as [a b]. simpl fst; simpl snd.
  unfold ratio_ge_2.
  split; [|split].
  - intros Hpos Hge.
    destruct (Qeq_bool (Qmin a b) 0) eqn:E0.
    + apply Qeq_bool_iff in E0. rewrite E0 in Hpos. discriminate.
    + assert (Qle_bool 2 (Qmax a b / Qmin a b) = true) as ->
        by (apply Qle_bool_iff; exact Hge).
      reflexivity.
  - intros Hpos Hlt.
    destruct (Qeq_bool (Qmin a b) 0) eqn:E0.
    + apply Qeq_bool_iff in E0. rewrite E0 in Hpos. discriminate.
    + destruct (Qle_bool 2 (Qmax a b / Qmin a b)) eqn:E.
      * apply Qle_bool_iff in E. exfalso. apply (Qlt_not_le _ _ Hlt E).
      * reflexivity.
  - destruct (if Qeq_bool (Qmin a b) 0 then negb (Qeq_bool (Qmax a b) 0)
              else Qle_bool 2 (Qmax a b / Qmin a b)); [left|right]; reflexivity.
Qed.

Lemma get_lines_in_lamp_asymmetry_guard_witness :
  get_lines_in_lamp Samples.single_line_spectrum =
    Some [window_centroid Samples.single_line_spectrum 6 3 + 1] /\
  lt 0 (length [window_centroid Samples.single_line_spectrum 6 3 + 1]) /\
  exists peaks,
    LineDetection.lamp_peaks Samples.single_line_spectrum = Some peaks /\
    length peaks = length [window_centroid Samples.single_line_spectrum 6 3 + 1] /\
    let p := nth 0 peaks 0%nat in
    let x := nth 0 [window_centroid Samples.single_line_spectrum 6 3 + 1] 0 in
    let a := fst (flank_drops Samples.single_line_spectrum p) in
    let b := snd (flank_drops Samples.single_line_spectrum p) in
    (0 < Qmin a b -> 2 <= Qmax a b / Qmin a b -> x = inject_Z (Z.of_nat p) + 1) /\
    (0 < Qmin a b -> Qmax a b / Qmin a b < 2 ->
       x = window_centroid Samples.single_line_spectrum p
             (window_radius Samples.single_line_spectrum p) + 1) /\
    (x = inject_Z (Z.of_nat p) + 1 \/
     x = window_centroid Samples.single_line_spectrum p
           (window_radius Samples.single_line_spectrum p) + 1).
Proof.
  split; [vm_compute; reflexivity|]. split; [simpl; lia|].
  apply get_lines_in_lamp_asymmetry_guard; [vm_compute; reflexivity|simpl; lia].
Defined.

End RecenterFacts.

Module ArgminFacts.

Lemma nth_of_skipn (l : list Q) (i : nat) (x : Q) (r : list Q) :
  skipn i l = x :: r -> nth i l 0 = x /\ skipn (S i) l = r /\ (i < length l)%nat.
Proof.
  intro H. split; [|split].
  - rewrite <- (Nat.add_0_r i), <- nth_skipn, H. reflexivity.
  - rewrite <- (skipn_skipn 1 i), H. reflexivity.
  - assert (Hl : length (skipn i l) = S (length r)) by (rewrite H; reflexivity).
    rewrite length_skipn in Hl. lia.
Qed.

Lemma argmin_from_spec (l : list Q) :
  forall r i best bv,
    skipn i l = r -> (i <= length l)%nat -> (best < i)%nat -> nth best l 0 = bv ->
    (forall j, (j < i)%nat -> bv <= nth j l 0) ->
    (argmin_from r i best bv < length l)%nat /\
    forall j, (j < length l)%nat -> nth (argmin_from r i best bv) l 0 <= nth j l 0.
Proof.
  induction r as [|x r IH]; intros i best bv Hsk Hi Hb Hbv Hmin; simpl.
  - assert (Hlen : length l = i).
    { assert (H0 : length (skipn i l) = 0%nat) by (rewrite Hsk; reflexivity).
      rewrite length_skipn in H0. lia. }
    split; [lia|]. intros j Hj. rewrite Hbv. apply Hmin. lia.
  - destruct (nth_of_skipn l i x r Hsk) as [Hx [Hsk' Hil]].
    destruct (Qltb x bv) eqn:E.
    + apply Qltb_lt in E.
      apply IH; [exact Hsk'|lia|lia|exact Hx|].
      intros j Hj. destruct (Nat.eq_dec j i) as [->|Hne].
      * rewrite Hx. apply Qle_refl.
      * apply Qle_trans with bv; [apply Qlt_le_weak; exact E|apply Hmin; lia].
    + apply Qltb_false in E.
      apply IH; [exact Hsk'|lia|lia|exact Hbv|].
      intros j Hj. destruct (Nat.eq_dec j i) as [->|Hne].
      * rewrite Hx. exact E.
      * apply Hmin. lia.
Qed.

(** [np.argmin] returns an index of the list whose value is minimal. *)
Lemma argmin_spec (l : list Q) (i : nat) :
  argmin l = Some i ->
  (i < length l)%nat /\ forall j, (j < length l)%nat -> nth i l 0 <= nth j l 0.
Proof.
  destruct l as [|x r]; simpl; [discriminate|].
  intro H. injection H as <-.
  apply (argmin_from_spec (x :: r) r 1 0 x); simpl; try reflexivity; try lia.
  intros j Hj. assert (j = 0%nat) as -> by lia. apply Qle_refl.
Qed.

Lemma argmin_from_first (l : list Q) :
  forall r i best bv,
    skipn i l = r -> (best < i)%nat -> nth best l 0 = bv ->
    (forall j, (j < i)%nat -> bv <= nth j l 0) ->
    (forall j, (j < best)%nat -> bv < nth j l 0) ->
    forall j, (j < argmin_from r i best bv)%nat -> nth (argmin_from r i best bv) l 0 < nth j l 0.
Proof.
  induction r as [|x r IH]; intros i best bv Hsk Hb Hbv Hle Hlt; simpl.
  - rewrite Hbv. exact Hlt.
  - destruct (nth_of_skipn l i x r Hsk) as [Hx [Hsk' _]].
    destruct (Qltb x bv) eqn:E.
    + apply Qltb_lt in E.
      apply IH; [exact Hsk'|lia|exact Hx| |].
      * intros j Hj. destruct (Nat.eq_dec j i) as [->|Hne].
        -- rewrite Hx. apply Qle_refl.
        -- apply Qle_trans with bv; [apply Qlt_le_weak; exact E|apply Hle; lia].
      * intros j Hj. apply Qlt_le_trans with bv; [exact E|apply Hle; lia].
    + apply Qltb_false in E.
      apply IH; [exact Hsk'|lia|exact Hbv| |exact Hlt].
      intros j Hj. destruct (Nat.eq_dec j i) as [->|Hne].
      * rewrite Hx. exact E.
      * apply Hle. lia.
Qed.

(** [np.argmin] returns the first index of a minimal value. *)
Lemma argmin_first (l : list Q) (i : nat) :
  argmin l = Some i -> forall j, (j < i)%nat -> nth i l 0 < nth j l 0.
Proof.
  destruct l as [|x r]; simpl; [discriminate|].
  intro H. injection H as <-.
  apply (argmin_from_first (x :: r) r 1 0 x); simpl; try reflexivity; try lia.
  intros j Hj. assert (j = 0%nat) as -> by lia. apply Qle_refl.
Qed.

Lemma argmin_some (l : list Q) : l <> [] -> exists i, argmin l = Some i.
Proof. destruct l; [contradiction|]. intros _. simpl. eauto. Qed.

End ArgminFacts.

Module MarksFacts.
Import Session.


Lemma py_pop_ok {A} (i : nat) (l : list A) :
  (i < length l)%nat -> py_pop i l = Some (drop_at i l).
Proof. intro H. unfold py_pop. apply Nat.ltb_lt in H. rewrite H. reflexivity. Qed.

Lemma py_pop_out {A} (i : nat) (l : list A) :
  (length l <= i)%nat -> py_pop i l = None.
Proof.
  intro H. unfold py_pop. destruct (Nat.ltb i (length l)) eqn:E; [|reflexivity].
  apply Nat.ltb_lt in E. lia.
Qed.

Lemma pop_pair_ok (i : nat) (st : session) :
  (i < length (raw_marks st))%nat -> (i < length (ref_marks st))%nat ->
  pop_pair i st =
  Returned tt (set_ref_marks (drop_at i (ref_marks st))
                 (set_raw_marks (drop_at i (raw_marks st)) st)) [].
Proof.
  intros H1 H2. unfold pop_pair. rewrite (py_pop_ok _ _ H1). simpl.
  rewrite (py_pop_ok _ _ H2). reflexivity.
Qed.

Lemma pop_pair_raise (i : nat) (st : session) :
  (length (raw_marks st) <= i \/ length (ref_marks st) <= i)%nat ->
  exists st', pop_pair i st = Raised st'.
Proof.
  intro H. unfold pop_pair.
  destruct (py_pop i (raw_marks st)) eqn:E1; [|eauto].
  simpl. destruct (py_pop i (ref_marks st)) eqn:E2; [|eauto].
  exfalso. unfold py_pop in E1, E2.
  destruct (Nat.ltb i (length (raw_marks st))) eqn:F1; [|discriminate].
  destruct (Nat.ltb i (length (ref_marks st))) eqn:F2; [|discriminate].
  apply Nat.ltb_lt in F1, F2. lia.
Qed.

Lemma closer_index_spec (marks : list (Q * Q)) (t : Q) :
  marks <> [] ->
  exists i, closer_index marks t = Some i /\ (i < length marks)%nat /\
    forall j, (j < length marks)%nat ->
      Qabs (fst (nth i marks (0, 0)) - t) <= Qabs (fst (nth j marks (0, 0)) - t).
Proof.
  intro Hne. unfold closer_index.
  destruct (ArgminFacts.argmin_some (map (fun v => Qabs (fst v - t)) marks)) as [i Hi].
  { destruct marks; [contradiction|discriminate]. }
  exists i. split; [exact Hi|].
  destruct (ArgminFacts.argmin_spec _ _ Hi) as [Hlt Hmin].
  rewrite length_map in Hlt, Hmin. split; [exact Hlt|].
  intros j Hj. specialize (Hmin j Hj).
  rewrite (nth_map_indep (fun v => Qabs (fst v - t)) marks i (0, 0) 0 Hlt) in Hmin.
  rewrite (nth_map_indep (fun v => Qabs (fst v - t)) marks j (0, 0) 0 Hj) in Hmin.
  exact Hmin.
Qed.

Lemma closer_index_first (marks : list (Q * Q)) (t : Q) (i : nat) :
  closer_index marks t = Some i ->
  forall j, (j < i)%nat ->
    Qabs (fst (nth i marks (0, 0)) - t) < Qabs (fst (nth j marks (0, 0)) - t).
Proof.
  intros Hi j Hj. unfold closer_index in Hi.
  destruct (ArgminFacts.argmin_spec _ _ Hi) as [Hlt _]. rewrite length_map in Hlt.
  pose proof (ArgminFacts.argmin_first _ _ Hi j Hj) as H.
  rewrite (nth_map_indep (fun v => Qabs (fst v - t)) marks i (0, 0) 0 Hlt) in H.
  rewrite (nth_map_indep (fun v => Qabs (fst v - t)) marks j (0, 0) 0 ltac:(lia)) in H.
  exact H.
Qed.

(** C4, as the code behaves.  The [d] key picks, on the clicked side,
    the first entry whose value is closest to the requested value.  When
    both sides have the same length, or that entry is not the last one of
    its side, it pops that index from both sides (a full pair), also when
    the counts differ; only when the counts differ and the entry is the
    last one of its side does it pop that entry alone, which on the
    shorter side is a matched entry and not the dangling one.  If the
    other side has no entry at that index, the pops raise [IndexError]. *)
Theorem delete_closest_removes_nearest (r : region) (t : Q) (st : session) :
  side_marks r st <> [] ->
  exists i,
    closer_index (side_marks r st) t = Some i /\
    (i < length (side_marks r st))%nat /\
    (forall j, (j < length (side_marks r st))%nat ->
       Qabs (fst (nth i (side_marks r st) (0, 0)) - t)
       <= Qabs (fst (nth j (side_marks r st) (0, 0)) - t)) /\
    (forall j, (j < i)%nat ->
       Qabs (fst (nth i (side_marks r st) (0, 0)) - t)
       < Qabs (fst (nth j (side_marks r st) (0, 0)) - t)) /\
    ((length (raw_marks st) = length (ref_marks st) \/
      i <> (length (side_marks r st) - 1)%nat) ->
     (i < length (raw_marks st))%nat -> (i < length (ref_marks st))%nat ->
     delete_closest r t st =
       Returned tt (set_ref_marks (drop_at i (ref_marks st))
                      (set_raw_marks (drop_at i (raw_marks st)) st)) []) /\
    ((length (raw_marks st) = length (ref_marks st) \/
      i <> (length (side_marks r st) - 1)%nat) ->
     (length (raw_marks st) <= i \/ length (ref_marks st) <= i)%nat ->
     exists st', delete_closest r t st = Raised st') /\
    (length (raw_marks st) <> length (ref_marks st) ->
     i = (length (side_marks r st) - 1)%nat ->
     delete_closest r t st =
       Returned tt (set_side_marks r (drop_at i (side_marks r st)) st) []).
Proof.
  intro Hne.
  destruct (closer_index_spec _ t Hne) as [i [Hi [Hlt Hmin]]].
  exists i. split; [exact Hi|]. split; [exact Hlt|]. split; [exact Hmin|].
  split; [exact (closer_index_first _ _ _ Hi)|].
  assert (Hdel : delete_closest r t st =
    if Nat.eqb (length (raw_marks st)) (length (ref_marks st)) then pop_pair i st
    else if Nat.eqb i (length (side_marks r st) - 1) then
      match r with RawDataRegion => pop_raw_only i st | ReferenceRegion => pop_ref_only i st end
    else pop_pair i st).
  { destruct r; simpl in Hi |- *; rewrite Hi; reflexivity. }
  assert (Hpair : (length (raw_marks st) = length (ref_marks st) \/
                   i <> (length (side_marks r st) - 1)%nat) ->
                  delete_closest r t st = pop_pair i st).
  { intros Hc. rewrite Hdel.
    destruct (Nat.eqb (length (raw_marks st)) (length (ref_marks st))) eqn:E1; [reflexivity|].
    destruct (Nat.eqb i (length (side_marks r st) - 1)) eqn:E2; [|reflexivity].
    apply Nat.eqb_neq in E1. apply Nat.eqb_eq in E2. lia. }
  split; [|split].
  - intros Hc H1 H2. rewrite (Hpair Hc). apply pop_pair_ok; assumption.
  - intros Hc Hout. rewrite (Hpair Hc). apply pop_pair_raise. exact Hout.
  - intros Hc Hlast. rewrite Hdel.
    apply Nat.eqb_neq in Hc. rewrite Hc.
    apply Nat.eqb_eq in Hlast. rewrite Hlast.
    apply Nat.eqb_eq in Hlast.
    destruct r; simpl in Hlt |- *.
    + unfold pop_raw_only. rewrite (py_pop_ok _ _ Hlt). reflexivity.
    + unfold pop_ref_only. rewrite (py_pop_ok _ _ Hlt). reflexivity.
Qed.

Lemma delete_closest_removes_nearest_witness :
  side_marks RawDataRegion Samples.three_two_marks <> [] /\
  exists i,
    closer_index (side_marks RawDataRegion Samples.three_two_marks) 30 = Some i /\
    (i < length (side_marks RawDataRegion Samples.three_two_marks))%nat /\
    (forall j, (j < length (side_marks RawDataRegion Samples.three_two_marks))%nat ->
       Qabs (fst (nth i (side_marks RawDataRegion Samples.three_two_marks) (0, 0)) - 30)
       <= Qabs (fst (nth j (side_marks RawDataRegion Samples.three_two_marks) (0, 0)) - 30)) /\
    (forall j, (j < i)%nat ->
       Qabs (fst (nth i (side_marks RawDataRegion Samples.three_two_marks) (0, 0)) - 30)
       < Qabs (fst (nth j (side_marks RawDataRegion Samples.three_two_marks) (0, 0)) - 30)) /\
    ((length (raw_marks Samples.three_two_marks) = length (ref_marks Samples.three_two_marks) \/
      i <> (length (side_marks RawDataRegion Samples.three_two_marks) - 1)%nat) ->
     (i < length (raw_marks Samples.three_two_marks))%nat ->
     (i < length (ref_marks Samples.three_two_marks))%nat ->
     delete_closest RawDataRegion 30 Samples.three_two_marks =
       Returned tt (set_ref_marks (drop_at i (ref_marks Samples.three_two_marks))
                      (set_raw_marks (drop_at i (raw_marks Samples.three_two_marks))
                         Samples.three_two_marks)) []) /\
    ((length (raw_marks Samples.three_two_marks) = length (ref_marks Samples.three_two_marks) \/
      i <> (length (side_marks RawDataRegion Samples.three_two_marks) - 1)%nat) ->
     (length (raw_marks Samples.three_two_marks) <= i \/ length (ref_marks Samples.three_two_marks) <= i)%nat ->
     exists st', delete_closest RawDataRegion 30 Samples.three_two_marks = Raised st') /\
    (length (raw_marks Samples.three_two_marks) <> length (ref_marks Samples.three_two_marks) ->
     i = (length (side_marks RawDataRegion Samples.three_two_marks) - 1)%nat ->
     delete_closest RawDataRegion 30 Samples.three_two_marks =
       Returned tt (set_side_marks RawDataRegion
                      (drop_at i (side_marks RawDataRegion Samples.three_two_marks))
                      Samples.three_two_marks) []).
Proof.
  split; [simpl; discriminate|].
  apply delete_closest_removes_nearest. simpl. discriminate.
Defined.

(** C4 fails as stated: with three pixel-side marks (10, 20, 30) and two
    wavelength-side marks (100, 200), deleting the pixel mark closest to
    10 removes the full pair (10, 100) and keeps the dangling pixel mark
    30, instead of removing only the dangling entry. *)
Lemma delete_closest_counterexample :
  delete_closest RawDataRegion 10 Samples.three_two_marks =
    Returned tt (mk_session [(20, 0); (30, 0)] [(200, 0)] None None [] []) [] /\
  delete_closest RawDataRegion 10 Samples.three_two_marks <>
    Returned tt (mk_session [(10, 0); (20, 0)] [(100, 0); (200, 0)] None None [] []) [].
Proof.
  split.
  - vm_compute. reflexivity.
  - vm_compute. intro H. injection H. discriminate.
Qed.

End MarksFacts.

Module EvaluationFacts.
Import Session.

Lemma nearest_line_spec (catalog : list Q) (w r : Q) :
  nearest_line catalog w = Some r ->
  In r catalog /\ forall c, In c catalog -> Qabs (r - w) <= Qabs (c - w).
Proof.
  unfold nearest_line.
  destruct (argmin (map (fun r0 => Qabs (r0 - w)) catalog)) as [i|] eqn:E; [|discriminate].
  intro H. injection H as <-.
  destruct (ArgminFacts.argmin_spec _ _ E) as [Hlt Hmin].
  rewrite length_map in Hlt, Hmin.
  split; [apply nth_In; exact Hlt|].
  intros c Hc. destruct (In_nth catalog c 0 Hc) as [j [Hj <-]].
  specialize (Hmin j Hj).
  rewrite (nth_map_indep (fun r0 => Qabs (r0 - w)) catalog i 0 0 Hlt) in Hmin.
  rewrite (nth_map_indep (fun r0 => Qabs (r0 - w)) catalog j 0 0 Hj) in Hmin.
  exact Hmin.
Qed.

Lemma nearest_line_some (catalog : list Q) (w : Q) :
  catalog <> [] -> exists r, nearest_line catalog w = Some r.
Proof.
  intro Hne. unfold nearest_line.
  destruct (ArgminFacts.argmin_some (map (fun r0 => Qabs (r0 - w)) catalog)) as [i Hi].
  { destruct catalog; [contradiction|discriminate]. }
  rewrite Hi. eauto.
Qed.

Lemma residuals_spec (catalog ws : list Q) :
  catalog <> [] ->
  exists ds, residuals catalog ws = Some ds /\ length ds = length ws /\
    forall k, (k < length ws)%nat ->
      exists r, nearest_line catalog (nth k ws 0) = Some r /\ nth k ds 0 = nth k ws 0 - r.
Proof.
  intro Hne. induction ws as [|w ws IH].
  - exists []. split; [reflexivity|]. split; [reflexivity|]. simpl. intros k Hk. lia.
  - destruct IH as [ds [Hds [Hlen Hk]]].
    destruct (nearest_line_some catalog w Hne) as [r Hr].
    exists ((w - r) :: ds). simpl. rewrite Hr, Hds.
    split; [reflexivity|]. split; [simpl; lia|].
    intros [|k] Hk'; simpl.
    + exists r. split; [exact Hr|reflexivity].
    + apply Hk. simpl in Hk'. lia.
Qed.

Lemma length_perform_clip sigma cenfunc (a : masked_array) :
  length (perform_clip sigma cenfunc a) = length a.
Proof. unfold perform_clip. apply length_map. Qed.

Lemma length_sigma_clip (data : list Q) sigma iters cenfunc :
  length (sigma_clip data sigma iters cenfunc) = length data.
Proof.
  unfold sigma_clip. induction iters as [|n IH]; simpl.
  - apply length_map.
  - rewrite length_perform_clip. exact IH.
Qed.

Lemma unmasked_plus_masked (a : masked_array) :
  (length (unmasked a) + count_masked a)%nat = length a.
Proof.
  unfold unmasked, count_masked. rewrite length_map.
  induction a as [|[x m] a IH]; simpl; [reflexivity|].
  destruct m; simpl; lia.
Qed.

(** C6.  With a fitted model and a non-empty line list, evaluation maps
    every detected line through the model, takes its residual against
    the nearest line of the reference list, clips the residuals with
    [sigma_clip] (sigma 2, 5 iterations, median as center), and reports
    [sqrt(mean of the squared unmasked residuals)]; the residual plot
    range comes from a separate single-iteration clip of the same
    residuals, which the reported numbers do not use. *)
Theorem evaluate_solution_clipped_rms (plots : bool) (st : session) (f : model) :
  wsolution st = Some f -> line_list st <> [] ->
  exists differences,
    residuals (line_list st) (map f (lines_center st)) = Some differences /\
    length differences = length (lines_center st) /\
    (forall k, (k < length differences)%nat ->
       exists r, In r (line_list st) /\
         nth k differences 0 = f (nth k (lines_center st) 0) - r /\
         forall c, In c (line_list st) ->
           Qabs (r - f (nth k (lines_center st) 0)) <= Qabs (c - f (nth k (lines_center st) 0))) /\
    evaluate_solution plots st =
      Returned
        (Some (mk_evaluation
                 (rms_of (unmasked (sigma_clip differences 2 5 np_median)))
                 (length differences)
                 (count_masked (sigma_clip differences 2 5 np_median)),
               if plots then ma_range (sigma_clip differences 2 1 np_median) else None))
        (set_rms_error (Some (rms_of (unmasked (sigma_clip differences 2 5 np_median)))) st)
        [].
Proof.
  intros Hf Hne.
  destruct (residuals_spec (line_list st) (map f (lines_center st)) Hne) as [ds [Hds [Hlen Hk]]].
  rewrite length_map in Hlen, Hk.
  exists ds. split; [exact Hds|]. split; [exact Hlen|]. split.
  - intros k Hk'. rewrite Hlen in Hk'.
    destruct (Hk k Hk') as [r [Hr Hd]].
    rewrite (nth_map_indep f (lines_center st) k 0 0 Hk') in Hr, Hd.
    destruct (nearest_line_spec _ _ _ Hr) as [Hin Hmin].
    exists r. split; [exact Hin|]. split; [exact Hd|exact Hmin].
  - unfold evaluate_solution. rewrite Hf, Hds. rewrite length_sigma_clip. reflexivity.
Qed.

Lemma evaluate_solution_clipped_rms_witness :
  wsolution Samples.evaluated_session = Some Samples.sample_model /\
  line_list Samples.evaluated_session <> [] /\
  exists differences,
    residuals (line_list Samples.evaluated_session)
      (map Samples.sample_model (lines_center Samples.evaluated_session)) = Some differences /\
    length differences = length (lines_center Samples.evaluated_session) /\
    (forall k, (k < length differences)%nat ->
       exists r, In r (line_list Samples.evaluated_session) /\
         nth k differences 0 =
           Samples.sample_model (nth k (lines_center Samples.evaluated_session) 0) - r /\
         forall c, In c (line_list Samples.evaluated_session) ->
           Qabs (r - Samples.sample_model (nth k (lines_center Samples.evaluated_session) 0))
           <= Qabs (c - Samples.sample_model (nth k (lines_center Samples.evaluated_session) 0))) /\
    evaluate_solution true Samples.evaluated_session =
      Returned
        (Some (mk_evaluation
                 (rms_of (unmasked (sigma_clip differences 2 5 np_median)))
                 (length differences)
                 (count_masked (sigma_clip differences 2 5 np_median)),
               if true then ma_range (sigma_clip differences 2 1 np_median) else None))
        (set_rms_error (Some (rms_of (unmasked (sigma_clip differences 2 5 np_median))))
           Samples.evaluated_session)
        [].
Proof.
  split; [reflexivity|]. split; [simpl; discriminate|].
  apply evaluate_solution_clipped_rms; [reflexivity|simpl; discriminate].
Defined.

(** C10.  With a fitted model and a non-empty line list, [n_points] is
    the number of all residuals (one per detected line, the rejected ones
    included), [n_rejected] the number the clip masked, the RMS is taken
    over exactly [n_points - n_rejected] residuals, and
    [n_rejected <= n_points]. *)
Theorem evaluate_solution_counts (plots : bool) (st : session) (f : model) :
  wsolution st = Some f -> line_list st <> [] ->
  exists differences ev display,
    residuals (line_list st) (map f (lines_center st)) = Some differences /\
    evaluate_solution plots st =
      Returned (Some (ev, display)) (set_rms_error (Some (ev_rms ev)) st) [] /\
    ev_npoints ev = length (lines_center st) /\
    ev_npoints ev = length differences /\
    ev_rejections ev = count_masked (sigma_clip differences 2 5 np_median) /\
    length (unmasked (sigma_clip differences 2 5 np_median)) =
      (ev_npoints ev - ev_rejections ev)%nat /\
    ev_rms ev = rms_of (unmasked (sigma_clip differences 2 5 np_median)) /\
    (ev_rejections ev <= ev_npoints ev)%nat.
Proof.
  intros Hf Hne.
  destruct (evaluate_solution_clipped_rms plots st f Hf Hne)
    as [ds [Hds [Hlen [_ Hev]]]].
  set (c := sigma_clip ds 2 5 np_median) in *.
  exists ds, (mk_evaluation (rms_of (unmasked c)) (length ds) (count_masked c)),
    (if plots then ma_range (sigma_clip ds 2 1 np_median) else None).
  cbn [ev_rms ev_npoints ev_rejections]. change (sigma_clip ds 2 5 np_median) with c.
  pose proof (unmasked_plus_masked c) as Hc.
  assert (Hl : length c = length ds) by apply length_sigma_clip.
  split; [exact Hds|]. split; [exact Hev|]. split; [exact Hlen|].
  split; [reflexivity|]. split; [reflexivity|]. split; [lia|].
  split; [reflexivity|]. lia.
Qed.

Lemma evaluate_solution_counts_witness :
  wsolution Samples.evaluated_session = Some Samples.sample_model /\
  line_list Samples.evaluated_session <> [] /\
  exists differences ev display,
    residuals (line_list Samples.evaluated_session)
      (map Samples.sample_model (lines_center Samples.evaluated_session)) = Some differences /\
    evaluate_solution false Samples.evaluated_session =
      Returned (Some (ev, display))
        (set_rms_error (Some (ev_rms ev)) Samples.evaluated_session) [] /\
    ev_npoints ev = length (lines_center Samples.evaluated_session) /\
    ev_npoints ev = length differences /\
    ev_rejections ev = count_masked (sigma_clip differences 2 5 np_median) /\
    length (unmasked (sigma_clip differences 2 5 np_median)) =
      (ev_npoints ev - ev_rejections ev)%nat /\
    ev_rms ev = rms_of (unmasked (sigma_clip differences 2 5 np_median)) /\
    (ev_rejections ev <= ev_npoints ev)%nat.
Proof.
  split; [reflexivity|]. split; [simpl; discriminate|].
  apply evaluate_solution_counts; [reflexivity|simpl; discriminate].
Defined.

End EvaluationFacts.

Module FitFacts.
Import Session.

Lemma evaluate_solution_keeps_model (plots : bool) (st : session) :
  match evaluate_solution plots st with
  | Returned _ st' _ => wsolution st' = wsolution st
  | Raised st' => wsolution st' = wsolution st
  end.
Proof.
  unfold evaluate_solution.
  destruct (wsolution st) as [f|] eqn:Hf; [|exact Hf].
  destruct (residuals (line_list st) (map f (lines_center st))); simpl; rewrite Hf; reflexivity.
Qed.

(** C5 (as amended).  A fit request on two non-empty mark lists of which
    one has fewer than 4 points shows only "Not enough marks! Minimum 4
    each side." (no count, also when the counts differ); with at least 4
    points on each side and different counts it reports how many clicks
    are missing on the shorter side; both leave the session unchanged.
    When a side is empty it reports an empty record and discards the
    current model.  Only with equal counts of at least 4 is a model
    fitted, from the mark pairs. *)
Theorem fit_pixel_to_wavelength_preconditions (ws_fit : list Q -> list Q -> model)
  (st : session) :
  let nref := length (ref_marks st) in
  let nraw := length (raw_marks st) in
  ((nref = 0 \/ nraw = 0)%nat ->
     fit_pixel_to_wavelength ws_fit st =
       Returned tt (set_wsolution None st) [ClicksRecordEmpty]) /\
  (nref <> 0%nat -> nraw <> 0%nat -> (nref < 4 \/ nraw < 4)%nat ->
     fit_pixel_to_wavelength ws_fit st = Returned tt st [NotEnoughMarks]) /\
  ((4 <= nref)%nat -> (nref < nraw)%nat ->
     fit_pixel_to_wavelength ws_fit st =
       Returned tt st [ReferenceClicksMissing (nraw - nref)]) /\
  ((4 <= nraw)%nat -> (nraw < nref)%nat ->
     fit_pixel_to_wavelength ws_fit st =
       Returned tt st [RawClicksMissing (nref - nraw)]) /\
  ((4 <= nref)%nat -> nref = nraw ->
     match fit_pixel_to_wavelength ws_fit st with
     | Returned _ st' _ | Raised st' =>
         wsolution st' = Some (ws_fit (map fst (raw_marks st)) (map fst (ref_marks st)))
     end).
Proof.
  cbv zeta. unfold fit_pixel_to_wavelength.
  set (nref := length (ref_marks st)). set (nraw := length (raw_marks st)).
  split; [|split; [|split; [|split]]].
  - intros [H|H]; rewrite H.
    + reflexivity.
    + destruct (negb (Nat.eqb nref 0)); reflexivity.
  - intros H1 H2 H3.
    assert (negb (Nat.eqb nref 0) && Nat.ltb 0 nraw = true) as ->.
    { apply andb_true_intro. split.
      - apply negb_true_iff, Nat.eqb_neq. exact H1.
      - apply Nat.ltb_lt. lia. }
    assert (Nat.ltb nref 4 || Nat.ltb nraw 4 = true) as ->.
    { destruct H3 as [H3|H3]; apply orb_true_intro; [left|right]; apply Nat.ltb_lt; exact H3. }
    reflexivity.
  - intros H1 H2.
    assert (negb (Nat.eqb nref 0) && Nat.ltb 0 nraw = true) as ->.
    { apply andb_true_intro. split.
      - apply negb_true_iff, Nat.eqb_neq. lia.
      - apply Nat.ltb_lt. lia. }
    assert (Nat.ltb nref 4 || Nat.ltb nraw 4 = false) as ->.
    { apply orb_false_intro; apply Nat.ltb_ge; lia. }
    assert (negb (Nat.eqb nref nraw) = true) as ->.
    { apply negb_true_iff, Nat.eqb_neq. lia. }
    assert (Nat.ltb nref nraw = true) as -> by (apply Nat.ltb_lt; exact H2).
    reflexivity.
  - intros H1 H2.
    assert (negb (Nat.eqb nref 0) && Nat.ltb 0 nraw = true) as ->.
    { apply andb_true_intro. split.
      - apply negb_true_iff, Nat.eqb_neq. lia.
      - apply Nat.ltb_lt. lia. }
    assert (Nat.ltb nref 4 || Nat.ltb nraw 4 = false) as ->.
    { apply orb_false_intro; apply Nat.ltb_ge; lia. }
    assert (negb (Nat.eqb nref nraw) = true) as ->.
    { apply negb_true_iff, Nat.eqb_neq. lia. }
    assert (Nat.ltb nref nraw = false) as -> by (apply Nat.ltb_ge; lia).
    reflexivity.
  - intros H1 H2.
    assert (negb (Nat.eqb nref 0) && Nat.ltb 0 nraw = true) as ->.
    { apply andb_true_intro. split.
      - apply negb_true_iff, Nat.eqb_neq. lia.
      - apply Nat.ltb_lt. lia. }
    assert (Nat.ltb nref 4 || Nat.ltb nraw 4 = false) as ->.
    { apply orb_false_intro; apply Nat.ltb_ge; lia. }
    assert (negb (Nat.eqb nref nraw) = false) as ->.
    { apply negb_false_iff, Nat.eqb_eq. exact H2. }
    pose proof (evaluate_solution_keeps_model true
      (set_wsolution (Some (ws_fit (map fst (raw_marks st)) (map fst (ref_marks st)))) st)) as Hk.
    destruct (evaluate_solution true _); exact Hk.
Qed.

Lemma fit_pixel_to_wavelength_preconditions_witness :
  fit_pixel_to_wavelength Samples.sample_fit Samples.five_three_marks =
    Returned tt Samples.five_three_marks [NotEnoughMarks].
Proof.
  destruct (fit_pixel_to_wavelength_preconditions Samples.sample_fit Samples.five_three_marks)
    as [_ [H _]].
  apply H; simpl; lia.
Defined.

(** C5 fails as stated: with five pixel-side marks and three
    wavelength-side marks the counts differ, but the fit request only
    shows "Not enough marks! Minimum 4 each side.", without saying how
    many clicks of which side are missing. *)
Lemma fit_pixel_to_wavelength_counterexample :
  length (raw_marks Samples.five_three_marks) <> length (ref_marks Samples.five_three_marks) /\
  fit_pixel_to_wavelength Samples.sample_fit Samples.five_three_marks =
    Returned tt Samples.five_three_marks [NotEnoughMarks].
Proof. split; [simpl; discriminate|reflexivity]. Qed.

End FitFacts.

Module LinearizeFacts.
Import Session.

(** C7 (defect).  Without a fitted model, evaluation logs
    "Solution is still non-existent!", returns nothing and leaves the
    session unchanged; linearization also returns nothing and leaves the
    session unchanged, but emits no message at all. *)
Theorem no_solution_evaluate_and_linearize
  (resample : list Q -> list Q -> list Q -> option (list Q))
  (plots : bool) (st : session) (data : list Q) :
  wsolution st = None ->
  evaluate_solution plots st = Returned None st [SolutionNonExistent] /\
  linearize_spectrum resample st data = Returned None st [].
Proof.
  intro H. unfold evaluate_solution, linearize_spectrum. rewrite H. split; reflexivity.
Qed.

Lemma no_solution_evaluate_and_linearize_witness :
  wsolution Samples.unfitted_session = None /\
  evaluate_solution true Samples.unfitted_session =
    Returned None Samples.unfitted_session [SolutionNonExistent] /\
  linearize_spectrum Samples.keep_intensities Samples.unfitted_session [1; 2; 3; 4] =
    Returned None Samples.unfitted_session [].
Proof.
  split; [reflexivity|].
  apply no_solution_evaluate_and_linearize. reflexivity.
Defined.

Lemma q_of_nat_S (n : nat) : q_of_nat (S n) == q_of_nat n + 1.
Proof.
  unfold q_of_nat. rewrite Nat2Z.inj_succ, <- Z.add_1_r, inject_Z_plus. reflexivity.
Qed.

Lemma q_of_nat_S_nonzero (n : nat) : ~ q_of_nat (S n) == 0.
Proof. unfold q_of_nat, Qeq. simpl. lia. Qed.

Lemma linspace_length (start stop : Q) (n : nat) :
  length (linspace start stop n) = n.
Proof.
  destruct n as [|[|m]]; [reflexivity|reflexivity|].
  unfold linspace. rewrite length_app, length_map, length_seq. simpl. lia.
Qed.

Lemma linspace_first (start stop : Q) (n : nat) :
  (1 <= n)%nat -> nth 0 (linspace start stop n) 0 == start.
Proof.
  intro Hn. destruct n as [|[|m]]; [lia|reflexivity|].
  unfold linspace. simpl. unfold q_of_nat. simpl. ring.
Qed.

Lemma linspace_last (start stop : Q) (m : nat) :
  nth (S m) (linspace start stop (S (S m))) 0 = stop.
Proof.
  unfold linspace. rewrite app_nth2; rewrite length_map, length_seq; [|lia].
  rewrite Nat.sub_diag. reflexivity.
Qed.

Lemma linspace_step (start stop : Q) (n i : nat) :
  (S i < n)%nat ->
  nth (S i) (linspace start stop n) 0 - nth i (linspace start stop n) 0
  == (stop - start) / q_of_nat (n - 1).
Proof.
  intro Hi. destruct n as [|[|m]]; [lia|lia|].
  replace (S (S m) - 1)%nat with (S m) by lia.
  set (step := (stop - start) / q_of_nat (S m)).
  assert (Hin : forall k, (k < S m)%nat ->
            nth k (linspace start stop (S (S m))) 0 == q_of_nat k * step + start).
  { intros k Hk. unfold linspace. fold step.
    rewrite app_nth1 by (rewrite length_map, length_seq; exact Hk).
    rewrite (nth_map_indep (fun i0 => q_of_nat i0 * step + start) (seq 0 (S m)) k 0%nat 0)
      by (rewrite length_seq; exact Hk).
    rewrite seq_nth by exact Hk. reflexivity. }
  destruct (Nat.eq_dec i m) as [->|Hne].
  - rewrite linspace_last, (Hin m) by lia. unfold step.
    rewrite (q_of_nat_S m).
    field. intro H0. apply (q_of_nat_S_nonzero m). rewrite q_of_nat_S. exact H0.
  - rewrite (Hin (S i)) by lia. rewrite (Hin i) by lia.
    rewrite (q_of_nat_S i). unfold step. ring.
Qed.

Lemma last_map_seq (h : nat -> Q) (m : nat) (d : Q) :
  last (map h (seq 1 (S m))) d = h (S m).
Proof. rewrite seq_S, map_app. cbn [map]. rewrite last_last. reflexivity. Qed.

(** C8.  Whenever linearization returns an axis, the axis has as many
    samples as the input spectrum, starts at the model's value at pixel
    1, ends at its value at the last pixel, and has constant spacing. *)
Theorem linearize_spectrum_uniform_axis
  (resample : list Q -> list Q -> list Q -> option (list Q))
  (st : session) (data : list Q) (f : model) (ax ys : list Q)
  (st' : session) (msgs : list message) :
  wsolution st = Some f ->
  linearize_spectrum resample st data = Returned (Some (ax, ys)) st' msgs ->
  length ax = length data /\
  nth 0 ax 0 == f (q_of_nat 1) /\
  nth (length data - 1) ax 0 == f (q_of_nat (length data)) /\
  forall i, (S i < length data)%nat ->
    nth (S i) ax 0 - nth i ax 0
    == (f (q_of_nat (length data)) - f (q_of_nat 1)) / q_of_nat (length data - 1).
Proof.
  intros Hf Hlin. unfold linearize_spectrum in Hlin. rewrite Hf in Hlin.
  destruct data as [|d0 ds]; [discriminate|].
  set (n := length (d0 :: ds)) in *.
  assert (Hn : n = S (length ds)) by reflexivity.
  destruct (map f (map q_of_nat (seq 1 n))) as [|x0 xs] eqn:Ex;
    [rewrite Hn in Ex; discriminate|].
  assert (Hx0 : x0 = f (q_of_nat 1)).
  { rewrite Hn in Ex. simpl in Ex. injection Ex as H _. symmetry. exact H. }
  assert (Hlast : last (x0 :: xs) x0 = f (q_of_nat n)).
  { rewrite <- Ex, map_map, Hn. apply (last_map_seq (fun i => f (q_of_nat i))). }
  rewrite Hlast in Hlin.
  destruct (resample (x0 :: xs) (d0 :: ds) (linspace x0 (f (q_of_nat n)) n));
    [|discriminate].
  assert (Hax : linspace x0 (f (q_of_nat n)) n = ax) by congruence.
  subst ax.
  split; [apply linspace_length|].
  split; [rewrite linspace_first by lia; rewrite Hx0; reflexivity|].
  split.
  - rewrite Hn. destruct (length ds) as [|m].
    + simpl. rewrite Hx0. reflexivity.
    + replace (S (S m) - 1)%nat with (S m) by lia.
      rewrite linspace_last. reflexivity.
  - intros i Hi. rewrite linspace_step by exact Hi. rewrite Hx0. reflexivity.
Qed.

Lemma linearize_spectrum_uniform_axis_witness :
  wsolution Samples.evaluated_session = Some Samples.sample_model /\
  linearize_spectrum Samples.keep_intensities Samples.evaluated_session [1; 2; 3; 4] =
    Returned (Some (linspace (Samples.sample_model (q_of_nat 1))
                             (Samples.sample_model (q_of_nat 4)) 4, [1; 2; 3; 4]))
             Samples.evaluated_session [] /\
  length (linspace (Samples.sample_model (q_of_nat 1)) (Samples.sample_model (q_of_nat 4)) 4)
    = length [1; 2; 3; 4] /\
  nth 0 (linspace (Samples.sample_model (q_of_nat 1)) (Samples.sample_model (q_of_nat 4)) 4) 0
    == Samples.sample_model (q_of_nat 1) /\
  nth (length [1; 2; 3; 4] - 1)
    (linspace (Samples.sample_model (q_of_nat 1)) (Samples.sample_model (q_of_nat 4)) 4) 0
    == Samples.sample_model (q_of_nat (length [1; 2; 3; 4])) /\
  forall i, (S i < length [1; 2; 3; 4])%nat ->
    nth (S i) (linspace (Samples.sample_model (q_of_nat 1)) (Samples.sample_model (q_of_nat 4)) 4) 0
    - nth i (linspace (Samples.sample_model (q_of_nat 1)) (Samples.sample_model (q_of_nat 4)) 4) 0
    == (Samples.sample_model (q_of_nat (length [1; 2; 3; 4])) - Samples.sample_model (q_of_nat 1))
       / q_of_nat (length [1; 2; 3; 4] - 1).
Proof.
  assert (Hlin : linearize_spectrum Samples.keep_intensities Samples.evaluated_session [1; 2; 3; 4] =
    Returned (Some (linspace (Samples.sample_model (q_of_nat 1))
                             (Samples.sample_model (q_of_nat 4)) 4, [1; 2; 3; 4]))
             Samples.evaluated_session []) by reflexivity.
  split; [reflexivity|]. split; [exact Hlin|].
  exact (linearize_spectrum_uniform_axis Samples.keep_intensities Samples.evaluated_session
           [1; 2; 3; 4] Samples.sample_model _ _ _ _ eq_refl Hlin).
Defined.

End LinearizeFacts.

Module CompatibilityFacts.
Import Compatibility.

Ltac settle_keys :=
  cbn;
  repeat match goal with
         | |- context [py_neq ?a ?b] => destruct (py_neq a b); cbn
         | |- context [Qltb ?a ?b] => destruct (Qltb a b); cbn
         end;
  reflexivity.

Lemma float_sub_some (parse_float : string -> option Q) (a b : hval) (x y : Q) :
  py_float_q parse_float a = Some x -> py_float_q parse_float b = Some y ->
  float_sub parse_float a b = Some (x - y).
Proof. intros Ha Hb. unfold float_sub. rewrite Ha, Hb. reflexivity. Qed.

Ltac use_float_sub :=
  repeat match goal with
         | |- context [float_sub ?pf ?a ?b] =>
             erewrite (float_sub_some pf a b) by eassumption
         end.

(** C9 (as amended).  Against a header of the same camera variant, the
    check returns [false] exactly when one of the variant's exact keys
    differs (red: grating, roi, instconf, wavmode; blue: grating, ccdsum,
    serial and parallel binning) or the camera or grating angle differs
    by more than 1 degree, and [true] otherwise.  A solution from the red
    camera subtracts the angle cards as they are, so this holds when they
    are numbers, and the check raises on a red header whose exact keys
    match and whose angle cards are strings; a solution from the blue
    camera applies [float()] to the angle cards first.  A grating angle
    moved by 1.5 degrees gives [false], by 0.5 degrees [true].  Against a
    header of the other variant only the grating and the two angles are
    compared. *)
Theorem check_compatibility_keys (parse_float : string -> option Q) :
  (forall (s c : red_header) (cs gs cc gc : Q),
     r_cam_ang s = VNum cs -> r_grt_ang s = VNum gs ->
     r_cam_ang c = VNum cc -> r_grt_ang c = VNum gc ->
     check_compatibility parse_float (set_spectral_features (RedHeader s)) (Some (RedHeader c)) =
     Some (negb (py_neq (r_grating c) (r_grating s)) && negb (py_neq (r_roi c) (r_roi s))
           && negb (py_neq (r_instconf c) (r_instconf s))
           && negb (py_neq (r_wavmode c) (r_wavmode s))
           && negb (Qltb 1 (Qabs (cc - cs)))
           && negb (Qltb 1 (Qabs (gc - gs))))) /\
  (forall (s c : red_header) (x y : string),
     py_neq (r_grating c) (r_grating s) = false -> py_neq (r_roi c) (r_roi s) = false ->
     py_neq (r_instconf c) (r_instconf s) = false ->
     py_neq (r_wavmode c) (r_wavmode s) = false ->
     r_cam_ang c = VStr x -> r_grt_ang c = VStr y ->
     check_compatibility parse_float (set_spectral_features (RedHeader s)) (Some (RedHeader c))
     = None) /\
  (forall (s c : blue_header) (cs gs cc gc : Q),
     py_float_q parse_float (b_cam_ang s) = Some cs ->
     py_float_q parse_float (b_grt_ang s) = Some gs ->
     py_float_q parse_float (b_cam_ang c) = Some cc ->
     py_float_q parse_float (b_grt_ang c) = Some gc ->
     check_compatibility parse_float (set_spectral_features (BlueHeader s)) (Some (BlueHeader c)) =
     Some (negb (py_neq (b_grating c) (b_grating s)) && negb (py_neq (b_ccdsum c) (b_ccdsum s))
           && negb (py_neq (b_param18 c) (b_param18 s))
           && negb (py_neq (b_param22 c) (b_param22 s))
           && negb (Qltb 1 (Qabs (cc - cs)))
           && negb (Qltb 1 (Qabs (gc - gs))))) /\
  (forall (s : red_header) (c : blue_header) (cs gs cc gc : Q),
     r_cam_ang s = VNum cs -> r_grt_ang s = VNum gs ->
     b_cam_ang c = VNum cc -> b_grt_ang c = VNum gc ->
     check_compatibility parse_float (set_spectral_features (RedHeader s)) (Some (BlueHeader c)) =
     Some (negb (py_neq (b_grating c) (r_grating s))
           && negb (Qltb 1 (Qabs (cc - cs)))
           && negb (Qltb 1 (Qabs (gc - gs))))) /\
  (forall (s : blue_header) (c : red_header) (cs gs cc gc : Q),
     py_float_q parse_float (b_cam_ang s) = Some cs ->
     py_float_q parse_float (b_grt_ang s) = Some gs ->
     py_float_q parse_float (r_cam_ang c) = Some cc ->
     py_float_q parse_float (r_grt_ang c) = Some gc ->
     check_compatibility parse_float (set_spectral_features (BlueHeader s)) (Some (RedHeader c)) =
     Some (negb (py_neq (r_grating c) (b_grating s))
           && negb (Qltb 1 (Qabs (cc - cs)))
           && negb (Qltb 1 (Qabs (gc - gs))))) /\
  check_compatibility parse_float (set_spectral_features (RedHeader (Samples.red_lamp 15)))
    (Some (RedHeader (Samples.red_lamp (33 # 2)))) = Some false /\
  check_compatibility parse_float (set_spectral_features (RedHeader (Samples.red_lamp 15)))
    (Some (RedHeader (Samples.red_lamp (31 # 2)))) = Some true.
Proof.
  split.
  { intros [] [] cs gs cc gc H1 H2 H3 H4; cbn in H1, H2, H3, H4; subst; settle_keys. }
  split.
  { intros [] [] x y E1 E2 E3 E4 H5 H6; cbn in E1, E2, E3, E4, H5, H6; subst.
    cbn -[py_neq]. rewrite E1, E2, E3, E4. reflexivity. }
  split.
  { intros [] [] cs gs cc gc H1 H2 H3 H4; cbn [b_cam_ang b_grt_ang] in H1, H2, H3, H4.
    cbn -[float_sub py_neq Qltb Qabs Qminus]. use_float_sub. settle_keys. }
  split.
  { intros [] [] cs gs cc gc H1 H2 H3 H4; cbn in H1, H2, H3, H4; subst; settle_keys. }
  split.
  { intros [] [] cs gs cc gc H1 H2 H3 H4; cbn [b_cam_ang b_grt_ang r_cam_ang r_grt_ang] in H1, H2, H3, H4.
    cbn -[float_sub py_neq Qltb Qabs Qminus]. use_float_sub. settle_keys. }
  split; vm_compute; reflexivity.
Qed.

(** C9 fails as stated: a solution fitted on a red-camera lamp is judged
    compatible with a blue-camera exposure that has the same grating and
    angles, although the camera differs and the exposure has none of the
    red-camera keys (roi, instconf, wavmode). *)
Lemma check_compatibility_counterexample :
  lookup "camera" (set_spectral_features (RedHeader (Samples.red_lamp 15))) = Some (VStr "red") /\
  lookup "camera" (set_spectral_features (BlueHeader Samples.blue_lamp)) = Some (VStr "blue") /\
  lookup "roi" (set_spectral_features (BlueHeader Samples.blue_lamp)) = None /\
  check_compatibility Samples.no_string_floats
    (set_spectral_features (RedHeader (Samples.red_lamp 15)))
    (Some (BlueHeader Samples.blue_lamp)) = Some true.
Proof. repeat split; vm_compute; reflexivity. Qed.

End CompatibilityFacts.

Module PeakFacts.
Import LineDetection.

Lemma py_gt_irrefl (x : option Q) : py_gt x x = false.
Proof. destruct x as [x|]; simpl; [apply Qltb_false, Qle_refl|reflexivity]. Qed.

Lemma py_gt_asym (x y : option Q) : py_gt x y = true -> py_gt y x = false.
Proof.
  destruct x as [x|], y as [y|]; simpl; try discriminate; try reflexivity.
  intro H. apply Qltb_lt in H. apply Qltb_false. apply Qlt_le_weak. exact H.
Qed.

Lemma relmax_window {A} (gt : A -> A -> bool) (dflt : A) (d : list A) (order p k : nat) :
  is_relmax gt dflt d order p = true -> (1 <= k <= order)%nat ->
  gt (nth p d dflt) (nth (Nat.min (p + k) (length d - 1)) d dflt) = true /\
  gt (nth p d dflt) (nth (p - k) d dflt) = true.
Proof.
  unfold is_relmax. intros H Hk. rewrite forallb_forall in H.
  apply andb_prop, H. apply in_seq. lia.
Qed.

Lemma relmax_separated {A} (gt : A -> A -> bool) (dflt : A) (d : list A) (order p q : nat) :
  (forall x y, gt x y = true -> gt y x = false) ->
  is_relmax gt dflt d order p = true -> is_relmax gt dflt d order q = true ->
  (p < q)%nat -> (q < length d)%nat -> (order < q - p)%nat.
Proof.
  intros Hasym Hp Hq Hpq Hqn.
  destruct (Nat.lt_ge_cases order (q - p)) as [H|H]; [exact H|exfalso].
  destruct (relmax_window gt dflt d order p (q - p) Hp) as [H1 _]; [lia|].
  destruct (relmax_window gt dflt d order q (q - p) Hq) as [_ H2]; [lia|].
  replace (Nat.min (p + (q - p)) (length d - 1)) with q in H1 by lia.
  replace (q - (q - p))%nat with p in H2 by lia.
  rewrite (Hasym _ _ H1) in H2. discriminate.
Qed.

Lemma relmax_not_first {A} (gt : A -> A -> bool) (dflt : A) (d : list A) (order : nat) :
  (forall x, gt x x = false) -> (1 <= order)%nat -> is_relmax gt dflt d order 0 = false.
Proof.
  intros Hirr Ho. destruct (is_relmax gt dflt d order 0) eqn:E; [|reflexivity].
  destruct (relmax_window gt dflt d order 0 1 E) as [_ H]; [lia|].
  simpl in H. rewrite Hirr in H. discriminate.
Qed.

Lemma relmax_not_last {A} (gt : A -> A -> bool) (dflt : A) (d : list A) (order p : nat) :
  (forall x, gt x x = false) -> (1 <= order)%nat -> (p + 1 = length d)%nat ->
  is_relmax gt dflt d order p = false.
Proof.
  intros Hirr Ho Hp. destruct (is_relmax gt dflt d order p) eqn:E; [|reflexivity].
  destruct (relmax_window gt dflt d order p 1 E) as [H _]; [lia|].
  replace (Nat.min (p + 1) (length d - 1)) with p in H by lia.
  rewrite Hirr in H. discriminate.
Qed.

Lemma filtered_data_length (d : list Q) (fd : list (option Q)) :
  filtered_data d = Some fd -> length fd = length d.
Proof.
  unfold filtered_data. destruct (np_min d), (np_max d); try discriminate.
  intro H. injection H as <-. apply length_map.
Qed.

(** Any two lines found by the peak search of [get_lines_in_lamp] are
    more than 6 pixels apart, and no line is found at the first or the
    last pixel of the lamp. *)
Theorem lamp_peaks_separated (d : list Q) (ps : list nat) :
  lamp_peaks d = Some ps ->
  (forall p, In p ps -> (1 <= p)%nat /\ (p + 2 <= length d)%nat) /\
  (forall p q, In p ps -> In q ps -> (p < q)%nat -> (6 < q - p)%nat).
Proof.
  unfold lamp_peaks. destruct (filtered_data d) as [fd|] eqn:Efd; [|discriminate].
  intro H. injection H as <-.
  pose proof (filtered_data_length d fd Efd) as Hlen.
  split.
  - intros p Hp. apply LineDetectionFacts.in_argrelmax in Hp. destruct Hp as [Hlt Hrel].
    split.
    + destruct p as [|p]; [|lia].
      rewrite relmax_not_first in Hrel; [discriminate|apply py_gt_irrefl|lia].
    + destruct (Nat.eq_dec (p + 1) (length fd)) as [He|He].
      * rewrite relmax_not_last in Hrel; [discriminate|apply py_gt_irrefl|lia|exact He].
      * lia.
  - intros p q Hp Hq Hpq.
    apply LineDetectionFacts.in_argrelmax in Hp. apply LineDetectionFacts.in_argrelmax in Hq.
    apply (relmax_separated py_gt None fd 6 p q py_gt_asym); tauto.
Qed.

Lemma lamp_peaks_separated_witness :
  lamp_peaks Samples.faint_line_spectrum = Some [20%nat] /\
  (forall p, In p [20%nat] -> (1 <= p)%nat /\ (p + 2 <= length Samples.faint_line_spectrum)%nat) /\
  (forall p q, In p [20%nat] -> In q [20%nat] -> (p < q)%nat -> (6 < q - p)%nat).
Proof.
  assert (H : lamp_peaks Samples.faint_line_spectrum = Some [20%nat]) by (vm_compute; reflexivity).
  split; [exact H|]. exact (lamp_peaks_separated _ _ H).
Defined.

Lemma Qmin_same (c : Q) : Qmin c c = c.
Proof. unfold Qmin, GenericMinMax.gmin. destruct (c ?= c); reflexivity. Qed.

Lemma Qmax_same (c : Q) : Qmax c c = c.
Proof. unfold Qmax, GenericMinMax.gmax. destruct (c ?= c); reflexivity. Qed.

Lemma fold_Qmin_repeat (c : Q) (n : nat) : fold_left Qmin (repeat c n) c = c.
Proof. induction n as [|n IH]; simpl; [reflexivity|]. rewrite Qmin_same. exact IH. Qed.

Lemma fold_Qmax_repeat (c : Q) (n : nat) : fold_left Qmax (repeat c n) c = c.
Proof. induction n as [|n IH]; simpl; [reflexivity|]. rewrite Qmax_same. exact IH. Qed.

Lemma filter_all_false {A} (f : A -> bool) (l : list A) :
  (forall x, f x = false) -> filter f l = [].
Proof. intro H. induction l as [|x l IH]; simpl; [reflexivity|]. rewrite H. exact IH. Qed.

(** [get_lines_in_lamp] raises on an empty lamp, and finds no line in a
    flat lamp of positive counts: every sample is at or below the
    threshold [c + 0.05 c] and is masked. *)
Theorem get_lines_in_lamp_flat_or_empty :
  Recenter.get_lines_in_lamp [] = None /\
  forall (c : Q) (n : nat), 0 < c -> Recenter.get_lines_in_lamp (repeat c (S n)) = Some [].
Proof.
  split; [reflexivity|]. intros c n Hc.
  unfold Recenter.get_lines_in_lamp, lamp_peaks, filtered_data.
  replace (np_min (repeat c (S n))) with (Some c)
    by (simpl; rewrite fold_Qmin_repeat; reflexivity).
  replace (np_max (repeat c (S n))) with (Some c)
    by (simpl; rewrite fold_Qmax_repeat; reflexivity).
  rewrite map_repeat.
  replace (if Qltb (c + (1 # 20) * c) c then Some c else None) with (@None Q).
  2:{ destruct (Qltb (c + (1 # 20) * c) c) eqn:E; [|reflexivity].
      apply Qltb_lt in E. exfalso.
      assert (0 < (1 # 20) * c) by (apply Qmult_lt_0_compat; [reflexivity|exact Hc]).
      apply (Qlt_irrefl c). apply Qlt_trans with (c + (1 # 20) * c); [|exact E].
      rewrite <- (Qplus_0_r c) at 1. apply Qplus_lt_r. assumption. }
  unfold argrelmax. rewrite filter_all_false; [reflexivity|].
  intro i. unfold is_relmax. rewrite !nth_repeat. reflexivity.
Qed.

End PeakFacts.

Module RecenterWindowFacts.
Import Recenter.

Lemma scan_left_index_le (d : list Q) (m : Q) (fuel li ll : nat) :
  (fst (scan_left d m fuel li ll) <= li)%nat.
Proof.
  revert li ll. induction fuel as [|fuel IH]; intros li ll; simpl; [lia|].
  destruct (Nat.ltb 2 li); [|simpl; lia].
  repeat match goal with |- context [if ?b then _ else _] => destruct b end;
    simpl; try lia.
  specialize (IH (li - 1)%nat li). lia.
Qed.

Lemma window_radius_le (d : list Q) (line : nat) : (window_radius d line <= line)%nat.
Proof.
  unfold window_radius, left_scan, absdiff.
  pose proof (scan_left_index_le d (np_median d) line line 0). lia.
Qed.

Lemma q_of_nat_le (a b : nat) : (a <= b)%nat -> Session.q_of_nat a <= Session.q_of_nat b.
Proof. intro H. unfold Session.q_of_nat. rewrite <- Zle_Qle. lia. Qed.

Lemma weighted_sum_bounds (w : nat -> Q) (xs : list nat) (lo hi : Q) :
  (forall x, In x xs -> 0 < w x /\ lo <= Session.q_of_nat x /\ Session.q_of_nat x <= hi) ->
  lo * qsum (map w xs) <= qsum (map (fun x => inject_Z (Z.of_nat x) * w x) xs) /\
  qsum (map (fun x => inject_Z (Z.of_nat x) * w x) xs) <= hi * qsum (map w xs).
Proof.
  induction xs as [|x xs IH]; intros H; unfold qsum in *; simpl.
  - split; rewrite Qmult_0_r; apply Qle_refl.
  - destruct (H x (or_introl eq_refl)) as [Hw [Hlo Hhi]].
    destruct IH as [IH1 IH2]; [intros y Hy; apply H; right; exact Hy|].
    unfold Session.q_of_nat in Hlo, Hhi.
    rewrite Qmult_plus_distr_r, Qmult_plus_distr_r.
    split; apply Qplus_le_compat; try assumption;
      apply Qmult_le_compat_r; try assumption; apply Qlt_le_weak; exact Hw.
Qed.

Lemma weight_sum_pos (w : nat -> Q) (xs : list nat) :
  xs <> [] -> (forall x, In x xs -> 0 < w x) -> 0 < qsum (map w xs).
Proof.
  unfold qsum. induction xs as [|x xs IH]; intros Hne H; [contradiction|].
  simpl. destruct xs as [|y ys].
  - simpl. rewrite Qplus_0_r. apply H. left. reflexivity.
  - apply Qlt_trans with (w x + 0).
    + rewrite Qplus_0_r. apply H. left. reflexivity.
    + apply Qplus_lt_r. apply IH; [discriminate|]. intros z Hz. apply H. right. exact Hz.
Qed.

Lemma window_centroid_bounds (d : list Q) (line dd : nat) :
  (dd <= line)%nat ->
  (forall x, (line - dd <= x <= line + dd)%nat -> 0 < at_ d x) ->
  Session.q_of_nat (line - dd) <= window_centroid d line dd /\
  window_centroid d line dd <= Session.q_of_nat (line + dd).
Proof.
  intros Hdd Hpos. unfold window_centroid.
  set (xs := seq (line - dd)%nat (2 * dd + 1)%nat).
  assert (Hin : forall x, In x xs -> (line - dd <= x <= line + dd)%nat).
  { intros x Hx. unfold xs in Hx. rewrite in_seq in Hx. destruct Hx as [Hx1 Hx2]. lia. }
  assert (Hne : xs <> []).
  { unfold xs. replace (2 * dd + 1)%nat with (S (2 * dd)) by lia. discriminate. }
  assert (HW : 0 < qsum (map (at_ d) xs)).
  { apply weight_sum_pos; [exact Hne|]. intros x Hx. apply Hpos, Hin, Hx. }
  destruct (weighted_sum_bounds (at_ d) xs (Session.q_of_nat (line - dd))
              (Session.q_of_nat (line + dd))) as [H1 H2].
  { intros x Hx. destruct (Hin x Hx) as [Ha Hb].
    split; [apply Hpos; lia|]. split; apply q_of_nat_le; lia. }
  split.
  - apply Qle_shift_div_l; [exact HW|]. exact H1.
  - apply Qle_shift_div_r; [exact HW|]. exact H2.
Qed.

(** When the lamp counts are positive over the centroid window, the
    position [recenter_lines] reports for a peak [p] lies within the
    window half-width of the 1-based peak position [p + 1]. *)
Theorem recenter_line_within_window (d : list Q) (line : nat) :
  (forall x, (line - window_radius d line <= x <= line + window_radius d line)%nat ->
     0 < at_ d x) ->
  Session.q_of_nat line + 1 - Session.q_of_nat (window_radius d line) <= recenter_line d line /\
  recenter_line d line <= Session.q_of_nat line + 1 + Session.q_of_nat (window_radius d line).
Proof.
  intro Hpos.
  pose proof (window_radius_le d line) as Hr.
  set (r := window_radius d line) in *.
  assert (Hr0 : 0 <= Session.q_of_nat r) by (apply (q_of_nat_le 0); lia).
  assert (Hlo : Session.q_of_nat (line - r) == Session.q_of_nat line - Session.q_of_nat r).
  { unfold Session.q_of_nat. rewrite Nat2Z.inj_sub by exact Hr.
    unfold Z.sub. rewrite inject_Z_plus, inject_Z_opp. reflexivity. }
  assert (Hhi : Session.q_of_nat (line + r) == Session.q_of_nat line + Session.q_of_nat r).
  { unfold Session.q_of_nat. rewrite Nat2Z.inj_add, inject_Z_plus. reflexivity. }
  destruct (window_centroid_bounds d line r Hr Hpos) as [C1 C2].
  unfold recenter_line. fold r.
  destruct (flank_drops d line) as [a b].
  destruct (ratio_ge_2 (Qmax a b) (Qmin a b)).
  - fold (Session.q_of_nat line). split.
    + rewrite <- (Qplus_0_r (Session.q_of_nat line + 1)) at 2.
      unfold Qminus. apply Qplus_le_r.
      rewrite <- (Qopp_involutive 0). apply Qopp_le_compat. exact Hr0.
    + rewrite <- (Qplus_0_r (Session.q_of_nat line + 1)) at 1. apply Qplus_le_r. exact Hr0.
  - rewrite Hlo in C1. rewrite Hhi in C2. split.
    + apply Qle_trans with (Session.q_of_nat line - Session.q_of_nat r + 1).
      * apply Qle_lteq. right. ring.
      * apply Qplus_le_l. exact C1.
    + apply Qle_trans with (Session.q_of_nat line + Session.q_of_nat r + 1).
      * apply Qplus_le_l. exact C2.
      * apply Qle_lteq. right. ring.
Qed.

Lemma recenter_line_within_window_witness :
  (forall x, (6 - window_radius Samples.single_line_spectrum 6 <= x
              <= 6 + window_radius Samples.single_line_spectrum 6)%nat ->
     0 < at_ Samples.single_line_spectrum x) /\
  Session.q_of_nat 6 + 1 - Session.q_of_nat (window_radius Samples.single_line_spectrum 6)
    <= recenter_line Samples.single_line_spectrum 6 /\
  recenter_line Samples.single_line_spectrum 6
    <= Session.q_of_nat 6 + 1 + Session.q_of_nat (window_radius Samples.single_line_spectrum 6).
Proof.
  assert (H : forall x, (6 - window_radius Samples.single_line_spectrum 6 <= x
              <= 6 + window_radius Samples.single_line_spectrum 6)%nat ->
              0 < at_ Samples.single_line_spectrum x).
  { intros x Hx.
    replace (window_radius Samples.single_line_spectrum 6) with 3%nat in Hx
      by (vm_compute; reflexivity).
    assert (x = 3 \/ x = 4 \/ x = 5 \/ x = 6 \/ x = 7 \/ x = 8 \/ x = 9)%nat as Hc by lia.
    destruct Hc as [-> | [-> | [-> | [-> | [-> | [-> | ->]]]]]]; apply Qltb_lt; vm_compute; reflexivity. }
  split; [exact H|]. exact (recenter_line_within_window _ _ H).
Defined.

End RecenterWindowFacts.

Module InteractiveFacts.
Import Session Interactive.

Lemma session_eta_marks (st : session) (a b c d : list (Q * Q)) :
  set_ref_marks a (set_raw_marks b (set_ref_marks c (set_raw_marks d st))) =
  set_ref_marks a (set_raw_marks b st).
Proof. destruct st; reflexivity. Qed.

Lemma session_marks_id (st : session) :
  set_ref_marks (ref_marks st) (set_raw_marks (raw_marks st) st) = st.
Proof. destruct st; reflexivity. Qed.

Lemma argmin_nonempty_seq (g : Q -> Q) (n : nat) :
  (0 < n)%nat -> exists i, argmin (map g (map q_of_nat (seq 1 n))) = Some i.
Proof.
  intro Hn. apply ArgminFacts.argmin_some. destruct n; [lia|]. discriminate.
Qed.

(** A click on the raw-data plot appends a mark at the detected line
    nearest to the click, with the click's height, and leaves the
    reference marks as they were. *)
Theorem register_mark_raw_snaps (ctx : click_context) (x y : Q) (st : session) :
  (0 < lamp_length ctx)%nat -> lines_center st <> [] ->
  exists c,
    register_mark ctx (Some x) (Some y) InRawData st =
      Returned tt (set_raw_marks (raw_marks st ++ [(c, y)]) st) [] /\
    In c (lines_center st) /\
    forall c', In c' (lines_center st) -> Qabs (c - x) <= Qabs (c' - x).
Proof.
  intros Hn Hne. unfold register_mark, recenter_line_by_data.
  destruct (argmin_nonempty_seq (fun v => Qabs (v - x)) _ Hn) as [i Hi]. rewrite Hi.
  destruct (EvaluationFacts.nearest_line_some _ x Hne) as [c Hc]. rewrite Hc.
  exists c. split; [reflexivity|]. exact (EvaluationFacts.nearest_line_spec _ _ _ Hc).
Qed.

Lemma register_mark_raw_snaps_witness :
  (0 < lamp_length Samples.click_ctx)%nat /\ lines_center Samples.marked_session <> [] /\
  exists c,
    register_mark Samples.click_ctx (Some 22) (Some 9) InRawData Samples.marked_session =
      Returned tt (set_raw_marks (raw_marks Samples.marked_session ++ [(c, 9)])
                     Samples.marked_session) [] /\
    In c (lines_center Samples.marked_session) /\
    forall c', In c' (lines_center Samples.marked_session) -> Qabs (c - 22) <= Qabs (c' - 22).
Proof.
  assert (H1 : (0 < lamp_length Samples.click_ctx)%nat) by (vm_compute; lia).
  assert (H2 : lines_center Samples.marked_session <> []) by discriminate.
  split; [exact H1|]. split; [exact H2|].
  exact (register_mark_raw_snaps _ _ _ _ H1 H2).
Defined.

(** A click on the reference plot (with a reference lamp loaded)
    appends a mark at the line of the line list nearest to the click,
    with the click's height, and leaves the raw-data marks as they were. *)
Theorem register_mark_reference_snaps (ctx : click_context) (ax : list Q) (x y : Q)
  (st : session) :
  reference_axis ctx = Some ax -> ax <> [] -> line_list st <> [] ->
  exists r,
    register_mark ctx (Some x) (Some y) InReference st =
      Returned tt (set_ref_marks (ref_marks st ++ [(r, y)]) st) [] /\
    In r (line_list st) /\
    forall r', In r' (line_list st) -> Qabs (r - x) <= Qabs (r' - x).
Proof.
  intros Hax Hne Hll. unfold register_mark, recenter_line_by_data. rewrite Hax.
  destruct (ArgminFacts.argmin_some (map (fun v => Qabs (v - x)) ax)) as [i Hi].
  { destruct ax; [contradiction|discriminate]. }
  rewrite Hi.
  destruct (EvaluationFacts.nearest_line_some _ x Hll) as [r Hr]. rewrite Hr.
  exists r. split; [reflexivity|]. exact (EvaluationFacts.nearest_line_spec _ _ _ Hr).
Qed.

Lemma register_mark_reference_snaps_witness :
  reference_axis Samples.click_ctx = Some [4000; 4050; 4100] /\
  [4000; 4050; 4100] <> [] /\ line_list Samples.marked_session <> [] /\
  exists r,
    register_mark Samples.click_ctx (Some 4052) (Some 9) InReference Samples.marked_session =
      Returned tt (set_ref_marks (ref_marks Samples.marked_session ++ [(r, 9)])
                     Samples.marked_session) [] /\
    In r (line_list Samples.marked_session) /\
    forall r', In r' (line_list Samples.marked_session) -> Qabs (r - 4052) <= Qabs (r' - 4052).
Proof.
  assert (H1 : reference_axis Samples.click_ctx = Some [4000; 4050; 4100]) by reflexivity.
  assert (H2 : [4000; 4050; 4100] <> []) by discriminate.
  assert (H3 : line_list Samples.marked_session <> []) by discriminate.
  split; [exact H1|]. split; [exact H2|]. split; [exact H3|].
  exact (register_mark_reference_snaps _ _ _ _ _ H1 H2 H3).
Defined.

(** What the last loop of [find_more_lines] appends: pairs of marks at
    height [filling_value], taken from unmasked candidates, whose
    wavelength is not yet among the reference marks. *)
Lemma add_new_marks_spec (cands : list (Q * Q * bool)) :
  forall raw ref,
  exists A B,
    add_new_marks cands raw ref = (raw ++ A, ref ++ B) /\ length A = length B /\
    forall k, (k < length A)%nat ->
      snd (nth k A (0, 0)) = filling_value /\ snd (nth k B (0, 0)) = filling_value /\
      In (fst (nth k A (0, 0)), fst (nth k B (0, 0)), false) cands /\
      py_in (fst (nth k B (0, 0))) (map fst (ref ++ firstn k B)) = false.
Proof.
  induction cands as [|[[p w] m] cands IH]; intros raw ref; simpl.
  - exists [], []. rewrite !app_nil_r. split; [reflexivity|]. split; [reflexivity|].
    simpl. intros k Hk. lia.
  - destruct (negb m && negb (py_in w (map fst ref))) eqn:E.
    + apply andb_prop in E. destruct E as [Em Ew].
      apply negb_true_iff in Em, Ew. subst m.
      destruct (IH (raw ++ [(p, filling_value)]) (ref ++ [(w, filling_value)]))
        as [A [B [Heq [Hlen HA]]]].
      exists ((p, filling_value) :: A), ((w, filling_value) :: B).
      rewrite Heq, <- !app_assoc. split; [reflexivity|]. split; [simpl; lia|].
      intros [|k] Hk; simpl.
      * split; [reflexivity|]. split; [reflexivity|]. split; [left; reflexivity|].
        rewrite app_nil_r. exact Ew.
      * simpl in Hk. destruct (HA k ltac:(lia)) as [H1 [H2 [H3 H4]]].
        split; [exact H1|]. split; [exact H2|]. split; [right; exact H3|].
        rewrite <- app_assoc in H4. exact H4.
    + destruct (IH raw ref) as [A [B [Heq [Hlen HA]]]].
      exists A, B. split; [exact Heq|]. split; [exact Hlen|].
      intros k Hk. destruct (HA k Hk) as [H1 [H2 [H3 H4]]].
      split; [exact H1|]. split; [exact H2|]. split; [right; exact H3|exact H4].
Qed.

Lemma nearest_lines_pairs (catalog : list Q) (f : Q -> Q) (l rs : list Q) :
  nearest_lines catalog (map f l) = Some rs ->
  forall p w, In (p, w) (combine l rs) -> nearest_line catalog (f p) = Some w.
Proof.
  revert rs. induction l as [|x l IH]; intros rs H p w Hin; simpl in *; [contradiction|].
  destruct (nearest_line catalog (f x)) as [r|] eqn:Er; [|discriminate].
  destruct (nearest_lines catalog (map f l)) as [rs'|] eqn:Ers; [|discriminate].
  injection H as <-. simpl in Hin. destruct Hin as [Hin|Hin].
  - injection Hin as <- <-. exact Er.
  - exact (IH rs' eq_refl p w Hin).
Qed.

Lemma find_more_lines_shape (st st1 : session) (f : model) (b : bool) (msgs : list message) :
  wsolution st = Some f -> find_more_lines st = Returned b st1 msgs ->
  b = true /\ msgs = [] /\
  exists A B,
    st1 = set_ref_marks (ref_marks st ++ B) (set_raw_marks (raw_marks st ++ A) st) /\
    length A = length B /\
    forall k, (k < length A)%nat ->
      snd (nth k A (0, 0)) = filling_value /\ snd (nth k B (0, 0)) = filling_value /\
      In (fst (nth k A (0, 0))) (lines_center st) /\
      nearest_line (line_list st) (f (fst (nth k A (0, 0)))) = Some (fst (nth k B (0, 0))) /\
      py_in (fst (nth k B (0, 0))) (map fst (ref_marks st ++ firstn k B)) = false.
Proof.
  intros Hf H. unfold find_more_lines in H. rewrite Hf in H.
  destruct (nearest_lines (line_list st) (map f (lines_center st))) as [rl|] eqn:Erl;
    [|discriminate].
  set (cands := combine (combine (lines_center st) rl)
                  (map snd (sigma_clip (map (fun wr => (fst wr - snd wr) * (fst wr - snd wr))
                     (combine (map f (lines_center st)) rl)) 2 3 np_median))) in H.
  destruct (add_new_marks_spec cands (raw_marks st) (ref_marks st)) as [A [B [Heq [Hlen HA]]]].
  rewrite Heq in H. simpl in H. injection H as <- <- <-.
  split; [reflexivity|]. split; [reflexivity|].
  exists A, B. split; [reflexivity|]. split; [exact Hlen|].
  intros k Hk. destruct (HA k Hk) as [H1 [H2 [H3 H4]]].
  apply in_combine_l in H3.
  split; [exact H1|]. split; [exact H2|]. split; [exact (in_combine_l _ _ _ _ H3)|].
  split; [|exact H4].
  exact (nearest_lines_pairs _ f _ _ Erl _ _ H3).
Qed.

(** With a solution, [find_more_lines] only appends: each side gets the
    same number of new marks, all at height [filling_value]; every new
    raw-data mark is a detected line, its reference partner is the
    line-list entry nearest to the line's wavelength under the solution,
    and that wavelength was not among the reference marks already there. *)
Theorem find_more_lines_adds_matched_lines (st st1 : session) (f : model) (b : bool)
  (msgs : list message) :
  wsolution st = Some f -> find_more_lines st = Returned b st1 msgs ->
  exists A B,
    st1 = set_ref_marks (ref_marks st ++ B) (set_raw_marks (raw_marks st ++ A) st) /\
    length A = length B /\
    forall k, (k < length A)%nat ->
      snd (nth k A (0, 0)) = filling_value /\ snd (nth k B (0, 0)) = filling_value /\
      In (fst (nth k A (0, 0))) (lines_center st) /\
      nearest_line (line_list st) (f (fst (nth k A (0, 0)))) = Some (fst (nth k B (0, 0))) /\
      py_in (fst (nth k B (0, 0))) (map fst (ref_marks st ++ firstn k B)) = false.
Proof.
  intros Hf H. exact (proj2 (proj2 (find_more_lines_shape st st1 f b msgs Hf H))).
Qed.

Lemma find_more_lines_adds_matched_lines_witness :
  wsolution Samples.marked_session = Some Samples.sample_model /\
  find_more_lines Samples.marked_session = Returned true Samples.marked_session_more_lines [] /\
  exists A B,
    Samples.marked_session_more_lines =
      set_ref_marks (ref_marks Samples.marked_session ++ B)
        (set_raw_marks (raw_marks Samples.marked_session ++ A) Samples.marked_session) /\
    length A = length B /\
    forall k, (k < length A)%nat ->
      snd (nth k A (0, 0)) = filling_value /\ snd (nth k B (0, 0)) = filling_value /\
      In (fst (nth k A (0, 0))) (lines_center Samples.marked_session) /\
      nearest_line (line_list Samples.marked_session)
        (Samples.sample_model (fst (nth k A (0, 0)))) = Some (fst (nth k B (0, 0))) /\
      py_in (fst (nth k B (0, 0))) (map fst (ref_marks Samples.marked_session ++ firstn k B))
        = false.
Proof.
  assert (H1 : wsolution Samples.marked_session = Some Samples.sample_model) by reflexivity.
  assert (H2 : find_more_lines Samples.marked_session =
               Returned true Samples.marked_session_more_lines []) by (vm_compute; reflexivity).
  split; [exact H1|]. split; [exact H2|].
  exact (find_more_lines_adds_matched_lines _ _ _ _ _ H1 H2).
Defined.

Lemma drop_at_middle {A} (l r : list A) (x : A) :
  drop_at (length l) (l ++ x :: r) = l ++ r.
Proof.
  unfold drop_at. induction l as [|z l IH]; [reflexivity|].
  cbn [length app firstn skipn] in *. rewrite IH. reflexivity.
Qed.

Lemma combine_app_eq {A B} (a1 a2 : list A) (b1 b2 : list B) :
  length a1 = length b1 -> combine (a1 ++ a2) (b1 ++ b2) = combine a1 b1 ++ combine a2 b2.
Proof.
  revert b1. induction a1 as [|x a1 IH]; intros [|y b1] H; simpl in *; try discriminate;
    [reflexivity|]. rewrite IH by lia. reflexivity.
Qed.

Lemma combine_firstn_r {A B} (a : list A) (b : list B) :
  combine a (firstn (length a) b) = combine a b.
Proof.
  revert b. induction a as [|x a IH]; intros [|y b]; simpl; try reflexivity.
  rewrite IH. reflexivity.
Qed.

Lemma map_snd_combine {A B} (a : list A) (b : list B) :
  length a = length b -> map snd (combine a b) = b.
Proof.
  revert b. induction a as [|x a IH]; intros [|y b] H; simpl in *; try discriminate;
    [reflexivity|]. rewrite IH by lia. reflexivity.
Qed.

Lemma pop_pairs_filled (a : list (Q * Q)) :
  forall r1 rest_raw rest_ref st,
    length r1 = length a -> raw_marks st = a ++ rest_raw -> ref_marks st = r1 ++ rest_ref ->
    pop_pairs (rev (filter (fun i => Qeq_bool (snd (nth i a (0, 0))) filling_value) (seq 0 (length a)))) st =
    Returned tt
      (set_ref_marks (map snd (filter (fun p => negb (Qeq_bool (snd (fst p)) filling_value)) (combine a r1))
                        ++ rest_ref)
         (set_raw_marks (filter (fun m => negb (Qeq_bool (snd m) filling_value)) a ++ rest_raw) st)) [].
Proof.
  induction a as [|x a IH] using rev_ind; intros r1 rest_raw rest_ref st Hlen Hraw Href.
  - destruct r1; [|discriminate]. simpl in *. rewrite <- Hraw, <- Href.
    rewrite session_marks_id. reflexivity.
  - rewrite length_app in Hlen. simpl in Hlen.
    assert (Hr1 : r1 <> []) by (destruct r1; [simpl in Hlen; lia|discriminate]).
    destruct (exists_last Hr1) as [r1' [y ->]].
    rewrite length_app in Hlen. simpl in Hlen.
    assert (Hl : length r1' = length a) by lia.
    rewrite length_app. simpl. rewrite Nat.add_1_r, seq_S, filter_app. simpl.
    rewrite app_nth2 by lia. rewrite Nat.sub_diag. simpl.
    rewrite (filter_ext_in (fun i => Qeq_bool (snd (nth i (a ++ [x]) (0, 0))) filling_value)
               (fun i => Qeq_bool (snd (nth i a (0, 0))) filling_value)).
    2:{ intros i Hi. rewrite in_seq in Hi. rewrite app_nth1 by lia. reflexivity. }
    rewrite combine_app_eq by (symmetry; exact Hl). rewrite !filter_app. simpl.
    destruct (Qeq_bool (snd x) filling_value) eqn:Ex; simpl.
    + rewrite rev_app_distr. simpl.
      rewrite MarksFacts.pop_pair_ok.
      2:{ rewrite Hraw, !length_app. simpl. lia. }
      2:{ rewrite Href, !length_app. simpl. lia. }
      rewrite (IH r1' rest_raw rest_ref).
      * rewrite session_eta_marks, !app_nil_r. reflexivity.
      * exact Hl.
      * simpl. rewrite Hraw, <- app_assoc. simpl. apply drop_at_middle.
      * simpl. rewrite Href, <- app_assoc. simpl. rewrite <- Hl. apply drop_at_middle.
    + rewrite app_nil_r.
      rewrite (IH r1' (x :: rest_raw) (y :: rest_ref)).
      * rewrite map_app, <- !app_assoc. reflexivity.
      * exact Hl.
      * rewrite Hraw, <- app_assoc. reflexivity.
      * rewrite Href, <- app_assoc. reflexivity.
Qed.

Lemma undo_auto_marks_result (st : session) :
  (length (raw_marks st) <= length (ref_marks st))%nat ->
  undo_auto_marks st =
  Returned tt
    (set_ref_marks (map snd (filter (fun p => negb (Qeq_bool (snd (fst p)) filling_value))
                               (combine (raw_marks st) (ref_marks st)))
                    ++ skipn (length (raw_marks st)) (ref_marks st))
       (set_raw_marks (filter (fun m => negb (Qeq_bool (snd m) filling_value)) (raw_marks st)) st)) [].
Proof.
  intro H. unfold undo_auto_marks, auto_mark_indices.
  refine (eq_trans (pop_pairs_filled (raw_marks st)
                      (firstn (length (raw_marks st)) (ref_marks st)) []
                      (skipn (length (raw_marks st)) (ref_marks st)) st _ _ _) _).
  - rewrite length_firstn. lia.
  - rewrite app_nil_r. reflexivity.
  - rewrite firstn_skipn. reflexivity.
  - rewrite combine_firstn_r, app_nil_r. reflexivity.
Qed.

(** [ctrl+z] removes every raw-data mark whose height equals
    [filling_value] (hand-made ones included) together with the
    reference mark at the same position, and keeps the other marks in
    order, as long as the reference side has at least as many marks. *)
Theorem undo_auto_marks_removes_filled (st : session) :
  (length (raw_marks st) <= length (ref_marks st))%nat ->
  undo_auto_marks st =
  Returned tt
    (set_ref_marks (map snd (filter (fun p => negb (Qeq_bool (snd (fst p)) filling_value))
                               (combine (raw_marks st) (ref_marks st)))
                    ++ skipn (length (raw_marks st)) (ref_marks st))
       (set_raw_marks (filter (fun m => negb (Qeq_bool (snd m) filling_value)) (raw_marks st))
          st)) [].
Proof. exact (undo_auto_marks_result st). Qed.

Lemma undo_auto_marks_removes_filled_witness :
  (length (raw_marks Samples.filled_marks_session)
     <= length (ref_marks Samples.filled_marks_session))%nat /\
  undo_auto_marks Samples.filled_marks_session =
  Returned tt
    (set_ref_marks (map snd (filter (fun p => negb (Qeq_bool (snd (fst p)) filling_value))
                               (combine (raw_marks Samples.filled_marks_session)
                                        (ref_marks Samples.filled_marks_session)))
                    ++ skipn (length (raw_marks Samples.filled_marks_session))
                             (ref_marks Samples.filled_marks_session))
       (set_raw_marks (filter (fun m => negb (Qeq_bool (snd m) filling_value))
                         (raw_marks Samples.filled_marks_session))
          Samples.filled_marks_session)) [].
Proof.
  assert (H : (length (raw_marks Samples.filled_marks_session)
                 <= length (ref_marks Samples.filled_marks_session))%nat)
    by (vm_compute; lia).
  split; [exact H|]. exact (undo_auto_marks_removes_filled _ H).
Defined.

Lemma filter_true_in {A} (f : A -> bool) (l : list A) :
  (forall x, In x l -> f x = true) -> filter f l = l.
Proof.
  induction l as [|x l IH]; intro H; simpl; [reflexivity|].
  rewrite H by (left; reflexivity). rewrite IH; [reflexivity|].
  intros y Hy. apply H. right. exact Hy.
Qed.

Lemma filter_false_in {A} (f : A -> bool) (l : list A) :
  (forall x, In x l -> f x = false) -> filter f l = [].
Proof.
  induction l as [|x l IH]; intro H; simpl; [reflexivity|].
  rewrite H by (left; reflexivity). apply IH.
  intros y Hy. apply H. right. exact Hy.
Qed.

Lemma nth_filled_in (A : list (Q * Q)) (m : Q * Q) :
  (forall k, (k < length A)%nat -> snd (nth k A (0, 0)) = filling_value) ->
  In m A -> Qeq_bool (snd m) filling_value = true.
Proof.
  intros H Hm. destruct (In_nth A m (0, 0) Hm) as [k [Hk <-]].
  rewrite (H k Hk). apply Qeq_bool_refl.
Qed.

(** [ctrl+z] right after [find_more_lines] gives the marks back as they
    were, when both sides had the same number of marks and no raw-data
    mark was at height [filling_value]. *)
Theorem find_more_lines_then_undo (st st1 : session) (b : bool) (msgs : list message) :
  length (raw_marks st) = length (ref_marks st) ->
  forallb (fun m => negb (Qeq_bool (snd m) filling_value)) (raw_marks st) = true ->
  find_more_lines st = Returned b st1 msgs ->
  undo_auto_marks st1 = Returned tt st [].
Proof.
  intros Hlen Hnone H.
  destruct (wsolution st) as [f|] eqn:Ef.
  - destruct (find_more_lines_shape st st1 f b msgs Ef H) as [_ [_ [A [B [-> [HAB HA]]]]]].
    rewrite undo_auto_marks_result.
    2:{ simpl. rewrite !length_app. lia. }
    simpl. rewrite combine_app_eq by exact Hlen. rewrite !filter_app.
    assert (HAf : forall m, In m A -> Qeq_bool (snd m) filling_value = true).
    { intros m Hm. apply (nth_filled_in A m); [|exact Hm].
      intros k Hk. exact (proj1 (HA k Hk)). }
    assert (Hrw : forall m, In m (raw_marks st) -> negb (Qeq_bool (snd m) filling_value) = true).
    { intros m Hm. rewrite forallb_forall in Hnone. exact (Hnone m Hm). }
    rewrite (filter_true_in _ (raw_marks st)) by exact Hrw.
    rewrite (filter_false_in _ A).
    2:{ intros m Hm. rewrite (HAf m Hm). reflexivity. }
    rewrite (filter_true_in _ (combine (raw_marks st) (ref_marks st))).
    2:{ intros [m r] Hm. apply Hrw. exact (in_combine_l _ _ _ _ Hm). }
    rewrite (filter_false_in _ (combine A B)).
    2:{ intros [m r] Hm. simpl. rewrite (HAf m (in_combine_l _ _ _ _ Hm)). reflexivity. }
    rewrite skipn_all2 by (rewrite !length_app; lia).
    rewrite !app_nil_r, map_snd_combine by exact Hlen.
    rewrite session_eta_marks, session_marks_id. reflexivity.
  - unfold find_more_lines in H. rewrite Ef in H. injection H as <- <- <-.
    unfold undo_auto_marks, auto_mark_indices.
    rewrite filter_false_in; [reflexivity|].
    intros i Hi. rewrite in_seq in Hi.
    rewrite forallb_forall in Hnone.
    apply negb_true_iff, Hnone, nth_In. lia.
Qed.

Lemma find_more_lines_then_undo_witness :
  length (raw_marks Samples.marked_session) = length (ref_marks Samples.marked_session) /\
  forallb (fun m => negb (Qeq_bool (snd m) filling_value)) (raw_marks Samples.marked_session)
    = true /\
  find_more_lines Samples.marked_session = Returned true Samples.marked_session_more_lines [] /\
  undo_auto_marks Samples.marked_session_more_lines = Returned tt Samples.marked_session [].
Proof.
  assert (H1 : length (raw_marks Samples.marked_session)
               = length (ref_marks Samples.marked_session)) by reflexivity.
  assert (H2 : forallb (fun m => negb (Qeq_bool (snd m) filling_value))
                 (raw_marks Samples.marked_session) = true) by (vm_compute; reflexivity).
  assert (H3 : find_more_lines Samples.marked_session =
               Returned true Samples.marked_session_more_lines []) by (vm_compute; reflexivity).
  split; [exact H1|]. split; [exact H2|]. split; [exact H3|].
  exact (find_more_lines_then_undo _ _ _ _ H1 H2 H3).
Defined.

Lemma Qltb_abs_shift (t x x' : Q) :
  t <= x -> t <= x' -> Qltb (Qabs (x - t)) (Qabs (x' - t)) = Qltb x x'.
Proof.
  intros Hx Hx'.
  assert (E1 : Qabs (x - t) == x - t) by (apply Qabs_pos; rewrite Qle_minus_iff in Hx; exact Hx).
  assert (E2 : Qabs (x' - t) == x' - t)
    by (apply Qabs_pos; rewrite Qle_minus_iff in Hx'; exact Hx').
  destruct (Qltb x x') eqn:E.
  - apply Qltb_lt in E. apply Qltb_lt. rewrite E1, E2. apply Qplus_lt_l. exact E.
  - apply Qltb_false in E. apply Qltb_false. rewrite E1, E2. apply Qplus_le_l. exact E.
Qed.

Lemma argmin_from_shift (t : Q) (l : list Q) :
  forall i best bv, t <= bv -> (forall x, In x l -> t <= x) ->
  argmin_from (map (fun x => Qabs (x - t)) l) i best (Qabs (bv - t)) = argmin_from l i best bv.
Proof.
  induction l as [|x l IH]; intros i best bv Hbv Hl; cbn [map argmin_from]; [reflexivity|].
  rewrite Qltb_abs_shift by (try exact Hbv; apply Hl; left; reflexivity).
  destruct (Qltb x bv); apply IH; try exact Hbv; try (apply Hl; left; reflexivity);
    intros y Hy; apply Hl; right; exact Hy.
Qed.

(** [np.argmin] of the distances to a point below every value is the
    [np.argmin] of the values. *)
Lemma argmin_shift (t : Q) (l : list Q) :
  (forall x, In x l -> t <= x) -> argmin (map (fun x => Qabs (x - t)) l) = argmin l.
Proof.
  destruct l as [|x l]; intro H; [reflexivity|]. cbn [map argmin].
  rewrite argmin_from_shift; [reflexivity| |].
  - apply H. left. reflexivity.
  - intros y Hy. apply H. right. exact Hy.
Qed.

(** The [d] key over the residual plot removes the raw-data mark nearest
    to the click's abscissa and the reference mark nearest to its
    ordinate.  Clicked at a height at or below every reference
    wavelength (residuals are small next to wavelengths), the reference
    mark removed is the first one of smallest wavelength, whatever the
    abscissa. *)
Theorem delete_contextual_removes_nearest (xdata ydata : Q) (st : session) :
  raw_marks st <> [] -> ref_marks st <> [] ->
  exists i j,
    closer_index (raw_marks st) xdata = Some i /\
    closer_index (ref_marks st) ydata = Some j /\
    (forall k, (k < length (raw_marks st))%nat ->
       Qabs (fst (nth i (raw_marks st) (0, 0)) - xdata)
       <= Qabs (fst (nth k (raw_marks st) (0, 0)) - xdata)) /\
    (forall k, (k < length (ref_marks st))%nat ->
       Qabs (fst (nth j (ref_marks st) (0, 0)) - ydata)
       <= Qabs (fst (nth k (ref_marks st) (0, 0)) - ydata)) /\
    delete_contextual xdata ydata st =
      Returned tt (set_ref_marks (drop_at j (ref_marks st))
                     (set_raw_marks (drop_at i (raw_marks st)) st)) [] /\
    ((forall m, In m (ref_marks st) -> ydata <= fst m) ->
     argmin (map fst (ref_marks st)) = Some j /\
     (forall k, (k < length (ref_marks st))%nat ->
        fst (nth j (ref_marks st) (0, 0)) <= fst (nth k (ref_marks st) (0, 0))) /\
     (forall k, (k < j)%nat ->
        fst (nth j (ref_marks st) (0, 0)) < fst (nth k (ref_marks st) (0, 0)))).
Proof.
  intros Hraw Href.
  destruct (MarksFacts.closer_index_spec (raw_marks st) xdata Hraw) as [i [Hi [Hilt Himin]]].
  destruct (MarksFacts.closer_index_spec (ref_marks st) ydata Href) as [j [Hj [Hjlt Hjmin]]].
  exists i, j. split; [exact Hi|]. split; [exact Hj|]. split; [exact Himin|].
  split; [exact Hjmin|]. split.
  - unfold delete_contextual. rewrite Hj, Hi. unfold pop_raw_only.
    rewrite (MarksFacts.py_pop_ok _ _ Hilt). unfold pop_ref_only. simpl.
    rewrite (MarksFacts.py_pop_ok _ _ Hjlt). reflexivity.
  - intro Hy.
    assert (Ha : argmin (map fst (ref_marks st)) = Some j).
    { rewrite <- Hj. unfold closer_index.
      rewrite <- (argmin_shift ydata (map fst (ref_marks st))).
      - rewrite map_map. reflexivity.
      - intros x Hx. apply in_map_iff in Hx. destruct Hx as [m [<- Hm]]. exact (Hy m Hm). }
    split; [exact Ha|].
    destruct (ArgminFacts.argmin_spec _ _ Ha) as [_ Hmin]. rewrite length_map in Hmin.
    split.
    + intros k Hk. specialize (Hmin k Hk).
      rewrite (nth_map_indep fst (ref_marks st) j (0, 0) 0 Hjlt) in Hmin.
      rewrite (nth_map_indep fst (ref_marks st) k (0, 0) 0 Hk) in Hmin. exact Hmin.
    + intros k Hk. pose proof (ArgminFacts.argmin_first _ _ Ha k Hk) as Hf.
      rewrite (nth_map_indep fst (ref_marks st) j (0, 0) 0 Hjlt) in Hf.
      rewrite (nth_map_indep fst (ref_marks st) k (0, 0) 0 ltac:(lia)) in Hf. exact Hf.
Qed.

Lemma delete_contextual_removes_nearest_witness :
  raw_marks Samples.marked_session_more_lines <> [] /\
  ref_marks Samples.marked_session_more_lines <> [] /\
  exists i j,
    closer_index (raw_marks Samples.marked_session_more_lines) 40 = Some i /\
    closer_index (ref_marks Samples.marked_session_more_lines) (-1) = Some j /\
    (forall k, (k < length (raw_marks Samples.marked_session_more_lines))%nat ->
       Qabs (fst (nth i (raw_marks Samples.marked_session_more_lines) (0, 0)) - 40)
       <= Qabs (fst (nth k (raw_marks Samples.marked_session_more_lines) (0, 0)) - 40)) /\
    (forall k, (k < length (ref_marks Samples.marked_session_more_lines))%nat ->
       Qabs (fst (nth j (ref_marks Samples.marked_session_more_lines) (0, 0)) - -1)
       <= Qabs (fst (nth k (ref_marks Samples.marked_session_more_lines) (0, 0)) - -1)) /\
    delete_contextual 40 (-1) Samples.marked_session_more_lines =
      Returned tt (set_ref_marks (drop_at j (ref_marks Samples.marked_session_more_lines))
                     (set_raw_marks (drop_at i (raw_marks Samples.marked_session_more_lines))
                        Samples.marked_session_more_lines)) [] /\
    ((forall m, In m (ref_marks Samples.marked_session_more_lines) -> -1 <= fst m) ->
     argmin (map fst (ref_marks Samples.marked_session_more_lines)) = Some j /\
     (forall k, (k < length (ref_marks Samples.marked_session_more_lines))%nat ->
        fst (nth j (ref_marks Samples.marked_session_more_lines) (0, 0))
        <= fst (nth k (ref_marks Samples.marked_session_more_lines) (0, 0))) /\
     (forall k, (k < j)%nat ->
        fst (nth j (ref_marks Samples.marked_session_more_lines) (0, 0))
        < fst (nth k (ref_marks Samples.marked_session_more_lines) (0, 0)))).
Proof.
  assert (H1 : raw_marks Samples.marked_session_more_lines <> []) by discriminate.
  assert (H2 : ref_marks Samples.marked_session_more_lines <> []) by discriminate.
  split; [exact H1|]. split; [exact H2|].
  exact (delete_contextual_removes_nearest _ _ _ H1 H2).
Defined.

End InteractiveFacts.

Module MessagesFacts.
Import Messages.
Local Open Scope nat_scope.
Local Open Scope string_scope.

Lemma string_app_assoc (a b c : string) : (a ++ b) ++ c = a ++ (b ++ c).
Proof. induction a as [|x a IH]; simpl; [reflexivity|]. rewrite IH. reflexivity. Qed.

Lemma py_split_space_nonempty (s : string) : py_split_space s <> [].
Proof.
  destruct s as [|c r]; simpl; [discriminate|].
  destruct (Ascii.eqb c " "%char); [discriminate|].
  destruct (py_split_space r); discriminate.
Qed.

Lemma py_join_space_cons (x : string) (l : list string) :
  l <> [] -> py_join_space (x :: l) = x ++ " " ++ py_join_space l.
Proof. destruct l; [contradiction|reflexivity]. Qed.

Lemma py_join_space_string (c : ascii) (w : string) (ws : list string) :
  py_join_space (String c w :: ws) = String c (py_join_space (w :: ws)).
Proof. destruct ws; reflexivity. Qed.

(** [' '.join(s.split(' ')) == s] *)
Lemma py_join_split (s : string) : py_join_space (py_split_space s) = s.
Proof.
  induction s as [|c r IH]; [reflexivity|]. simpl.
  destruct (Ascii.eqb c " "%char) eqn:E.
  - apply Ascii.eqb_eq in E. subst c.
    rewrite py_join_space_cons by apply py_split_space_nonempty. simpl. rewrite IH. reflexivity.
  - destruct (py_split_space r) as [|w ws] eqn:Es.
    + exfalso. exact (py_split_space_nonempty r Es).
    + rewrite py_join_space_string, IH. reflexivity.
Qed.

Lemma py_join_space_app (a b : list string) :
  a <> [] -> b <> [] -> py_join_space (app a b) = py_join_space a ++ " " ++ py_join_space b.
Proof.
  intros Ha Hb. induction a as [|x a IH]; [contradiction|].
  destruct a as [|y a].
  - simpl. apply py_join_space_cons. exact Hb.
  - rewrite <- app_comm_cons. rewrite py_join_space_cons by (destruct a; discriminate).
    rewrite IH by discriminate. rewrite (py_join_space_cons x (y :: a)) by discriminate.
    rewrite !string_app_assoc. reflexivity.
Qed.

Lemma firstn_app_skipn {A} (l : list A) (i j : nat) :
  app (firstn i l) (firstn j (skipn i l)) = firstn (i + j) l.
Proof.
  revert i. induction l as [|x l IH]; intros [|i]; simpl;
    try rewrite firstn_nil; try reflexivity.
  rewrite IH. reflexivity.
Qed.

Lemma firstn_slice {A} (l : list A) (i k : nat) :
  i <= k -> app (firstn i l) (slice i k l) = firstn k l.
Proof.
  intro H. unfold slice. rewrite firstn_app_skipn. f_equal. lia.
Qed.

Lemma length_slice {A} (l : list A) (i k : nat) :
  length (slice i k l) = Nat.min (k - i) (length l - i).
Proof. unfold slice. rewrite length_firstn, length_skipn. reflexivity. Qed.

Lemma nonempty_of_length {A} (l : list A) : 0 < length l -> l <> [].
Proof. destruct l; simpl; [lia|discriminate]. Qed.

Section Wrap.
Variable words : list string.

(** The lines kept so far, followed by the line being built from word
    [e] on, join back to the words read so far. *)
Local Abbreviation joins_back full e :=
  (forall k, e < k <= length words ->
     py_join_space (app full [py_join_space (slice e k words)]) = py_join_space (firstn k words)).

(** The loop invariant before turn [i], on the state
    [(line_length, e, full_message)]. *)
Local Abbreviation wrap_inv i s :=
  ((snd (fst s) < i \/ (i = 0 /\ snd (fst s) = 0 /\ snd s = [] /\ fst (fst s) = 0)) /\
   joins_back (snd s) (snd (fst s))).

Lemma joins_back_start : joins_back [] 0.
Proof.
  intros k Hk. simpl. unfold slice. rewrite Nat.sub_0_r. reflexivity.
Qed.

Lemma joins_back_break (full : list string) (e i : nat) :
  e < i -> i < length words -> joins_back full e ->
  joins_back (app full [py_join_space (slice e i words)]) i.
Proof.
  intros Hei Hin Hj k Hk.
  assert (Hne1 : slice e i words <> []).
  { apply nonempty_of_length. rewrite length_slice. lia. }
  assert (Hne2 : slice i k words <> []).
  { apply nonempty_of_length. rewrite length_slice. lia. }
  rewrite py_join_space_app; [|destruct full; discriminate|discriminate].
  rewrite (Hj i) by lia. simpl.
  rewrite <- (firstn_slice words i k) by lia.
  rewrite py_join_space_app; [reflexivity| |exact Hne2].
  apply nonempty_of_length. rewrite length_firstn. lia.
Qed.

Hypothesis first_word_short : String.length (nth 0 words "") < 29.

Lemma wrap_break_inv (i : nat) (s : nat * nat * list string) :
  i < length words -> wrap_inv i s ->
  snd (fst (wrap_break words s i)) <= i /\
  joins_back (snd (wrap_break words s i)) (snd (fst (wrap_break words s i))).
Proof.
  intros Hi. destruct s as [[ll e] full]. cbn [fst snd]. intros [Hc Hj].
  unfold wrap_break. cbv beta iota.
  destruct (Nat.leb 30 (ll + String.length (nth i words "") + 1)) eqn:E; cbn [fst snd].
  - destruct Hc as [Hc|[-> [-> [-> ->]]]].
    + split; [lia|]. apply joins_back_break; assumption.
    + apply Nat.leb_le in E. lia.
  - split; [destruct Hc as [Hc|[-> [-> _]]]; lia|exact Hj].
Qed.

Lemma wrap_step_inv (i : nat) (s : nat * nat * list string) :
  S i < length words -> wrap_inv i s -> wrap_inv (S i) (wrap_step words s i).
Proof.
  intros Hi Hs. pose proof (wrap_break_inv i s ltac:(lia) Hs) as H.
  unfold wrap_step. destruct (wrap_break words s i) as [[ll' e'] full'].
  replace (Nat.eqb i (length words - 1)) with false
    by (symmetry; apply Nat.eqb_neq; lia).
  simpl in *. destruct H as [He Hj]. split; [left; lia|exact Hj].
Qed.

Lemma wrap_fold_inv (i : nat) :
  i < length words -> wrap_inv i (fold_left (wrap_step words) (seq 0 i) (0, 0, [])).
Proof.
  induction i as [|i IH]; intro Hi.
  - simpl. split; [right; auto|exact joins_back_start].
  - rewrite seq_S, fold_left_app. simpl. apply wrap_step_inv; [exact Hi|]. apply IH. lia.
Qed.

Lemma wrap_last (s : nat * nat * list string) :
  0 < length words -> wrap_inv (length words - 1) s ->
  py_join_space (snd (wrap_step words s (length words - 1))) = py_join_space words.
Proof.
  intros Hn Hs. pose proof (wrap_break_inv (length words - 1) s ltac:(lia) Hs) as H.
  unfold wrap_step. destruct (wrap_break words s (length words - 1)) as [[ll' e'] full'].
  rewrite Nat.eqb_refl. simpl in *. destruct H as [He Hj].
  specialize (Hj (length words) ltac:(lia)).
  unfold slice in Hj. rewrite firstn_all2 in Hj by (rewrite length_skipn; lia).
  rewrite Hj. rewrite firstn_all. reflexivity.
Qed.

End Wrap.

(** [display_onscreen_message] breaks a long message between words and
    drops no text: the lines it draws, joined with single spaces, give
    the message back, as long as the first word has fewer than 29
    characters. *)
Theorem wrap_message_joins_back (m : string) :
  String.length (nth 0 (py_split_space m) "") < 29 ->
  py_join_space (wrap_message m) = m.
Proof.
  intro H. unfold wrap_message.
  destruct (Nat.ltb 30 (String.length m)); [|reflexivity].
  set (words := py_split_space m).
  assert (Hn : 0 < length words).
  { unfold words. destruct (py_split_space m) eqn:E; [exfalso; exact (py_split_space_nonempty m E)|].
    simpl. lia. }
  replace (seq 0 (length words)) with (seq 0 (S (length words - 1))) by (f_equal; lia).
  rewrite seq_S, fold_left_app. simpl.
  rewrite wrap_last; [|exact H|exact Hn|apply wrap_fold_inv; [exact H|lia]].
  apply py_join_split.
Qed.

Lemma wrap_message_joins_back_witness :
  String.length (nth 0 (py_split_space "Not enough marks! Minimum 4 each side.") "") < 29 /\
  py_join_space (wrap_message "Not enough marks! Minimum 4 each side.")
    = "Not enough marks! Minimum 4 each side.".
Proof.
  assert (H : String.length (nth 0 (py_split_space "Not enough marks! Minimum 4 each side.") "")
              < 29) by (vm_compute; lia).
  split; [exact H|]. exact (wrap_message_joins_back _ H).
Defined.

Lemma wrap_step_appends (words : list string) (s : nat * nat * list string) (i : nat) :
  exists l, snd (wrap_step words s i) = app (snd s) l.
Proof.
  destruct s as [[ll e] full]. unfold wrap_step, wrap_break.
  destruct (Nat.leb 30 (ll + String.length (nth i words "") + 1));
    destruct (Nat.eqb i (length words - 1)); simpl.
  - exists [py_join_space (slice e i words); py_join_space (skipn i words)].
    rewrite <- app_assoc. reflexivity.
  - exists [py_join_space (slice e i words)]. reflexivity.
  - exists [py_join_space (skipn e words)]. reflexivity.
  - exists []. rewrite app_nil_r. reflexivity.
Qed.

Lemma wrap_fold_appends (words : list string) (is : list nat) (s : nat * nat * list string) :
  exists l, snd (fold_left (wrap_step words) is s) = app (snd s) l.
Proof.
  revert s. induction is as [|i is IH]; intro s; simpl.
  - exists []. rewrite app_nil_r. reflexivity.
  - destruct (IH (wrap_step words s i)) as [l1 H1].
    destruct (wrap_step_appends words s i) as [l2 H2].
    exists (app l2 l1). rewrite H1, H2, app_assoc. reflexivity.
Qed.

(** A message longer than 30 characters whose first word has 29
    characters or more is drawn with an empty first line. *)
Theorem wrap_message_long_first_word (m : string) :
  30 < String.length m ->
  29 <= String.length (nth 0 (py_split_space m) "") ->
  hd "?" (wrap_message m) = "".
Proof.
  intros Hm Hw. unfold wrap_message.
  replace (Nat.ltb 30 (String.length m)) with true by (symmetry; apply Nat.ltb_lt; exact Hm).
  destruct (py_split_space m) as [|w ws] eqn:E; [exfalso; exact (py_split_space_nonempty m E)|].
  simpl length. cbn [seq fold_left].
  destruct (wrap_fold_appends (w :: ws) (seq 1 (length ws))
              (wrap_step (w :: ws) (0, 0, []) 0)) as [l Hl].
  rewrite Hl. simpl in Hw.
  assert (E1 : Nat.leb 30 (0 + String.length w + 1) = true) by (apply Nat.leb_le; lia).
  unfold wrap_step, wrap_break. simpl nth. rewrite E1.
  destruct (Nat.eqb 0 (length (w :: ws) - 1)); reflexivity.
Qed.

Lemma wrap_message_long_first_word_witness :
  30 < String.length "abcdefghijklmnopqrstuvwxyz0123 x" /\
  29 <= String.length (nth 0 (py_split_space "abcdefghijklmnopqrstuvwxyz0123 x") "") /\
  hd "?" (wrap_message "abcdefghijklmnopqrstuvwxyz0123 x") = "".
Proof.
  assert (H1 : 30 < String.length "abcdefghijklmnopqrstuvwxyz0123 x") by (vm_compute; lia).
  assert (H2 : 29 <= String.length (nth 0 (py_split_space "abcdefghijklmnopqrstuvwxyz0123 x") ""))
    by (vm_compute; lia).
  split; [exact H1|]. split; [exact H2|]. exact (wrap_message_long_first_word _ H1 H2).
Defined.

End MessagesFacts.

Module OutputFacts.
Import Session Output.
Local Open Scope string_scope.

Lemma linspace_nth (start stop : Q) (n i : nat) :
  (i < n)%nat ->
  nth i (linspace start stop n) 0 == start + q_of_nat i * ((stop - start) / q_of_nat (n - 1)).
Proof.
  intro Hi. induction i as [|i IH].
  - rewrite LinearizeFacts.linspace_first by lia. unfold q_of_nat. simpl. ring.
  - assert (Hs := LinearizeFacts.linspace_step start stop n i Hi).
    rewrite IH in Hs by lia. rewrite LinearizeFacts.q_of_nat_S.
    set (step := (stop - start) / q_of_nat (n - 1)) in *.
    rewrite <- (Qplus_inj_r _ _ (- (start + q_of_nat i * step))). rewrite Hs. ring.
Qed.

(** What [__call__] writes for a linearized spectrum: the data are the
    resampled intensities, the reference pixel is 1, [CD1_1] equals
    [CDELT1], and the linear world coordinate [CRVAL1 + (p - CRPIX1) *
    CDELT1] of every 1-based pixel [p] is the wavelength the
    linearization put at that pixel. *)
Theorem linearized_header_wcs (resample : list Q -> list Q -> list Q -> option (list Q))
  (a : run_args) (st st1 st2 : session) (data ax ys : list Q) (original : string)
  (comment : option string) (index : option nat) (w : written)
  (msgs1 msgs2 : list message) :
  linearize_spectrum resample st data = Returned (Some (ax, ys)) st1 msgs1 ->
  add_wavelength_solution a st1 (Some (ax, ys)) original comment index = Returned w st2 msgs2 ->
  w_data w = ys /\ w_crpix1 w = 1%nat /\ w_cd1_1 w = w_cdelt1 w /\
  forall i, (i < length data)%nat ->
    w_crval1 w + (q_of_nat (S i) - q_of_nat (w_crpix1 w)) * w_cdelt1 w == nth i ax 0.
Proof.
  intros Hlin Hadd.
  assert (Hax : exists x0 x1, ax = linspace x0 x1 (length data)).
  { unfold linearize_spectrum in Hlin.
    destruct (wsolution st) as [f|]; [|discriminate].
    destruct (map f (map q_of_nat (seq 1 (length data)))) as [|x0 r]; [discriminate|].
    destruct (resample (x0 :: r) data (linspace x0 (last (x0 :: r) x0) (length data)));
      [|discriminate].
    injection Hlin as <- _ _ _. eauto. }
  destruct Hax as [x0 [x1 Hax]].
  unfold add_wavelength_solution in Hadd.
  set (hist := match comment with
               | None => _
               | Some c => _
               end) in Hadd.
  destruct hist as [h st3 msgs3|st3]; [|discriminate].
  destruct ax as [|c [|c1 r]]; try discriminate.
  injection Hadd as <- _ _. simpl.
  split; [reflexivity|]. split; [reflexivity|]. split; [reflexivity|].
  intros i Hi.
  assert (H0 := linspace_nth x0 x1 (length data) 0 ltac:(lia)).
  assert (Hn : (1 < length data)%nat).
  { rewrite <- (LinearizeFacts.linspace_length x0 x1 (length data)), <- Hax. simpl. lia. }
  assert (H1 := linspace_nth x0 x1 (length data) 1 Hn).
  assert (Hii := linspace_nth x0 x1 (length data) i Hi).
  rewrite <- Hax in H0, H1, Hii. simpl nth in H0, H1.
  rewrite Hii, H0, H1. rewrite LinearizeFacts.q_of_nat_S. unfold q_of_nat. simpl. ring.
Qed.

Lemma linearized_header_wcs_witness :
  linearize_spectrum Samples.keep_intensities Samples.evaluated_session [1; 2; 3] =
    Returned (Some (linspace (Samples.sample_model 1) (Samples.sample_model 3) 3, [1; 2; 3]))
      Samples.evaluated_session [] /\
  add_wavelength_solution Samples.sample_args Samples.evaluated_session
    (Some (linspace (Samples.sample_model 1) (Samples.sample_model 3) 3, [1; 2; 3]))
    "a.fits" (Some "c") None =
    Returned (mk_written (HistoryComment "c") (nth 0 (linspace (Samples.sample_model 1) (Samples.sample_model 3) 3) 0) 1 (nth 1 (linspace (Samples.sample_model 1) (Samples.sample_model 3) 3) 0 - nth 0 (linspace (Samples.sample_model 1) (Samples.sample_model 3) 3) 0)
       (nth 1 (linspace (Samples.sample_model 1) (Samples.sample_model 3) 3) 0 - nth 0 (linspace (Samples.sample_model 1) (Samples.sample_model 3) 3) 0) "out/wa.fits" [1; 2; 3])
      Samples.evaluated_session [] /\
  w_data (mk_written (HistoryComment "c") (nth 0 (linspace (Samples.sample_model 1) (Samples.sample_model 3) 3) 0) 1 (nth 1 (linspace (Samples.sample_model 1) (Samples.sample_model 3) 3) 0 - nth 0 (linspace (Samples.sample_model 1) (Samples.sample_model 3) 3) 0)
       (nth 1 (linspace (Samples.sample_model 1) (Samples.sample_model 3) 3) 0 - nth 0 (linspace (Samples.sample_model 1) (Samples.sample_model 3) 3) 0) "out/wa.fits" [1; 2; 3]) = [1; 2; 3] /\
  w_crpix1 (mk_written (HistoryComment "c") (nth 0 (linspace (Samples.sample_model 1) (Samples.sample_model 3) 3) 0) 1 (nth 1 (linspace (Samples.sample_model 1) (Samples.sample_model 3) 3) 0 - nth 0 (linspace (Samples.sample_model 1) (Samples.sample_model 3) 3) 0)
       (nth 1 (linspace (Samples.sample_model 1) (Samples.sample_model 3) 3) 0 - nth 0 (linspace (Samples.sample_model 1) (Samples.sample_model 3) 3) 0) "out/wa.fits" [1; 2; 3]) = 1%nat /\
  w_cd1_1 (mk_written (HistoryComment "c") (nth 0 (linspace (Samples.sample_model 1) (Samples.sample_model 3) 3) 0) 1 (nth 1 (linspace (Samples.sample_model 1) (Samples.sample_model 3) 3) 0 - nth 0 (linspace (Samples.sample_model 1) (Samples.sample_model 3) 3) 0)
       (nth 1 (linspace (Samples.sample_model 1) (Samples.sample_model 3) 3) 0 - nth 0 (linspace (Samples.sample_model 1) (Samples.sample_model 3) 3) 0) "out/wa.fits" [1; 2; 3])
    = w_cdelt1 (mk_written (HistoryComment "c") (nth 0 (linspace (Samples.sample_model 1) (Samples.sample_model 3) 3) 0) 1 (nth 1 (linspace (Samples.sample_model 1) (Samples.sample_model 3) 3) 0 - nth 0 (linspace (Samples.sample_model 1) (Samples.sample_model 3) 3) 0)
       (nth 1 (linspace (Samples.sample_model 1) (Samples.sample_model 3) 3) 0 - nth 0 (linspace (Samples.sample_model 1) (Samples.sample_model 3) 3) 0) "out/wa.fits" [1; 2; 3]) /\
  forall i, (i < length [1; 2; 3])%nat ->
    w_crval1 (mk_written (HistoryComment "c") (nth 0 (linspace (Samples.sample_model 1) (Samples.sample_model 3) 3) 0) 1 (nth 1 (linspace (Samples.sample_model 1) (Samples.sample_model 3) 3) 0 - nth 0 (linspace (Samples.sample_model 1) (Samples.sample_model 3) 3) 0)
       (nth 1 (linspace (Samples.sample_model 1) (Samples.sample_model 3) 3) 0 - nth 0 (linspace (Samples.sample_model 1) (Samples.sample_model 3) 3) 0) "out/wa.fits" [1; 2; 3]) +
    (q_of_nat (S i) - q_of_nat (w_crpix1 (mk_written (HistoryComment "c") (nth 0 (linspace (Samples.sample_model 1) (Samples.sample_model 3) 3) 0) 1 (nth 1 (linspace (Samples.sample_model 1) (Samples.sample_model 3) 3) 0 - nth 0 (linspace (Samples.sample_model 1) (Samples.sample_model 3) 3) 0)
       (nth 1 (linspace (Samples.sample_model 1) (Samples.sample_model 3) 3) 0 - nth 0 (linspace (Samples.sample_model 1) (Samples.sample_model 3) 3) 0) "out/wa.fits" [1; 2; 3]))) *
    w_cdelt1 (mk_written (HistoryComment "c") (nth 0 (linspace (Samples.sample_model 1) (Samples.sample_model 3) 3) 0) 1 (nth 1 (linspace (Samples.sample_model 1) (Samples.sample_model 3) 3) 0 - nth 0 (linspace (Samples.sample_model 1) (Samples.sample_model 3) 3) 0)
       (nth 1 (linspace (Samples.sample_model 1) (Samples.sample_model 3) 3) 0 - nth 0 (linspace (Samples.sample_model 1) (Samples.sample_model 3) 3) 0) "out/wa.fits" [1; 2; 3])
    == nth i (linspace (Samples.sample_model 1) (Samples.sample_model 3) 3) 0.
Proof.
  assert (H1 : linearize_spectrum Samples.keep_intensities Samples.evaluated_session [1; 2; 3] =
    Returned (Some (linspace (Samples.sample_model 1) (Samples.sample_model 3) 3, [1; 2; 3]))
      Samples.evaluated_session []) by (vm_compute; reflexivity).
  assert (H2 : add_wavelength_solution Samples.sample_args Samples.evaluated_session
    (Some (linspace (Samples.sample_model 1) (Samples.sample_model 3) 3, [1; 2; 3]))
    "a.fits" (Some "c") None =
    Returned (mk_written (HistoryComment "c") (nth 0 (linspace (Samples.sample_model 1) (Samples.sample_model 3) 3) 0) 1 (nth 1 (linspace (Samples.sample_model 1) (Samples.sample_model 3) 3) 0 - nth 0 (linspace (Samples.sample_model 1) (Samples.sample_model 3) 3) 0)
       (nth 1 (linspace (Samples.sample_model 1) (Samples.sample_model 3) 3) 0 - nth 0 (linspace (Samples.sample_model 1) (Samples.sample_model 3) 3) 0) "out/wa.fits" [1; 2; 3])
      Samples.evaluated_session []) by (vm_compute; reflexivity).
  split; [exact H1|]. split; [exact H2|].
  exact (linearized_header_wcs _ _ _ _ _ _ _ _ _ _ _ _ _ _ H1 H2).
Defined.

Lemma string_app_cancel_l (p x y : string) : (p ++ x)%string = (p ++ y)%string -> x = y.
Proof. induction p as [|c p IH]; simpl; [auto|]. intro H. injection H. exact IH. Qed.

Lemma string_length_app (x y : string) :
  String.length (x ++ y) = (String.length x + String.length y)%nat.
Proof. induction x as [|c x IH]; simpl; [reflexivity|]. rewrite IH. reflexivity. Qed.

Lemma string_app_cancel_r (t x y : string) : (x ++ t)%string = (y ++ t)%string -> x = y.
Proof.
  revert y. induction x as [|c x IH]; intros [|c' y] H; simpl in H.
  - reflexivity.
  - exfalso. assert (Hl := f_equal String.length H). simpl in Hl.
    rewrite string_length_app in Hl. lia.
  - exfalso. assert (Hl := f_equal String.length H). simpl in Hl.
    rewrite string_length_app in Hl. lia.
  - injection H as -> H. f_equal. exact (IH y H).
Qed.

Lemma py_str_nat_inj (k k' : nat) : py_str_nat k = py_str_nat k' -> k = k'.
Proof.
  unfold py_str_nat. intro H.
  apply DecimalNat.Unsigned.to_uint_inj.
  assert (E := f_equal NilEmpty.uint_of_string H).
  rewrite !NilEmpty.usu in E. injection E as E. exact E.
Qed.

(** Two targets of the same image are written to different files: the
    output name determines the target index (and whether one was given). *)
Theorem output_filename_index_inj (a : run_args) (original : string) (i j : option nat) :
  output_filename a original i = output_filename a original j -> i = j.
Proof.
  unfold output_filename. intro H.
  apply string_app_cancel_l, string_app_cancel_l, string_app_cancel_l in H.
  destruct i as [k|], j as [k'|]; try discriminate; [|reflexivity].
  simpl in H. injection H as H. apply string_app_cancel_r in H.
  f_equal. exact (py_str_nat_inj _ _ H).
Qed.

Lemma output_filename_index_inj_witness :
  output_filename Samples.sample_args "lamp.fits" (Some 12%nat)
    = output_filename Samples.sample_args "lamp.fits" (Some 12%nat) /\
  Some 12%nat = Some 12%nat.
Proof.
  assert (H : output_filename Samples.sample_args "lamp.fits" (Some 12%nat)
              = output_filename Samples.sample_args "lamp.fits" (Some 12%nat))
    by reflexivity.
  split; [exact H|]. exact (output_filename_index_inj _ _ _ _ H).
Defined.

(** [add_wavelength_solution] raises when it is asked to evaluate the
    solution (no comment given) and there is none ([None] is unpacked),
    when no linearized spectrum is given, and when the wavelength axis
    has fewer than two samples. *)
Theorem add_wavelength_solution_raises (a : run_args) (st : session)
  (spectrum : option (list Q * list Q)) (original : string) (comment : option string)
  (index : option nat) :
  (comment = None /\ wsolution st = None) \/ spectrum = None \/
  (exists ax ys, spectrum = Some (ax, ys) /\ (length ax < 2)%nat) ->
  exists st', add_wavelength_solution a st spectrum original comment index = Raised st'.
Proof.
  intro H. unfold add_wavelength_solution.
  destruct H as [[-> Hw]|[->|[ax [ys [-> Hl]]]]].
  - unfold evaluate_solution. rewrite Hw. eauto.
  - destruct comment as [c|].
    + eauto.
    + destruct (evaluate_solution false st) as [[[ev r]|] st1 msgs|st1]; eauto.
  - destruct comment as [c|].
    + destruct ax as [|x [|y r]]; [eauto|eauto|simpl in Hl; lia].
    + destruct (evaluate_solution false st) as [[[ev r0]|] st1 msgs|st1]; eauto.
      destruct ax as [|x [|y r]]; [eauto|eauto|simpl in Hl; lia].
Qed.

Lemma add_wavelength_solution_raises_witness :
  ((None : option string) = None /\ wsolution Samples.unfitted_session = None) /\
  exists st', add_wavelength_solution Samples.sample_args Samples.unfitted_session
                (Some ([4002; 4004], [1; 2])) "a.fits" None None = Raised st'.
Proof.
  assert (H : (None : option string) = None /\ wsolution Samples.unfitted_session = None)
    by (split; reflexivity).
  split; [exact H|].
  exact (add_wavelength_solution_raises _ _ _ _ _ _ (or_introl H)).
Defined.

End OutputFacts.

Module CompatibilityMoreFacts.
Import Compatibility.

Lemma py_neq_refl (a : hval) : py_neq a a = false.
Proof.
  destruct a as [s|q]; simpl.
  - rewrite String.eqb_refl. reflexivity.
  - rewrite Qeq_bool_refl. reflexivity.
Qed.

Lemma py_neq_sym (a b : hval) : py_neq a b = py_neq b a.
Proof.
  destruct a as [s|q], b as [s'|q']; simpl; try reflexivity.
  - rewrite String.eqb_sym. reflexivity.
  - rewrite Qeq_bool_comm. reflexivity.
Qed.

Lemma Qltb_compat_r (x y y' : Q) : y == y' -> Qltb x y = Qltb x y'.
Proof.
  intro E. destruct (Qltb x y) eqn:H.
  - apply Qltb_lt in H. symmetry. apply Qltb_lt. rewrite <- E. exact H.
  - apply Qltb_false in H. symmetry. apply Qltb_false. rewrite <- E. exact H.
Qed.

Lemma Qltb_abs_sym (x a b : Q) : Qltb x (Qabs (a - b)) = Qltb x (Qabs (b - a)).
Proof. rewrite Qabs_Qminus. reflexivity. Qed.

Lemma Qltb_one_abs_self (a : Q) : Qltb 1 (Qabs (a - a)) = false.
Proof.
  apply Qltb_false. setoid_replace (a - a) with 0 by ring. discriminate.
Qed.

(** A lamp checked against the solution made from its own
    configuration: a red-camera solution accepts it when both angle cards
    are numbers and raises otherwise ([str - str]); a blue-camera
    solution accepts it when [float()] reads both angle cards and raises
    otherwise. *)
Theorem check_compatibility_reflexive (parse_float : string -> option Q) (h : header) :
  check_compatibility parse_float (set_spectral_features h) (Some h) =
  match h with
  | RedHeader r =>
      match r_cam_ang r, r_grt_ang r with
      | VNum _, VNum _ => Some true
      | _, _ => None
      end
  | BlueHeader b =>
      match py_float_q parse_float (b_cam_ang b), py_float_q parse_float (b_grt_ang b) with
      | Some _, Some _ => Some true
      | _, _ => None
      end
  end.
Proof.
  destruct h as [[g ro f1 f2 sl ic wm [ca|ca] [ga|ga]]|[g cc f1 f2 sl p18 p22 [ca|ca] [ga|ga]]];
    cbn -[py_neq Qltb Qabs Qminus]; rewrite ?py_neq_refl; cbn -[py_neq Qltb Qabs Qminus];
    unfold float_sub, py_float_q;
    repeat match goal with
           | |- context [parse_float ?s] => destruct (parse_float s); cbn -[Qltb Qabs Qminus]
           end;
    rewrite ?Qltb_one_abs_self; reflexivity.
Qed.

(** When both dicts hold numeric angles, the verdict does not depend on
    which of the two configurations is the stored one. *)
Theorem check_compatibility_symmetric (parse_float : string -> option Q) (h1 h2 : header) :
  (exists a b, lookup "cam_ang" (set_spectral_features h1) = Some (VNum a) /\
               lookup "grt_ang" (set_spectral_features h1) = Some (VNum b)) ->
  (exists a b, lookup "cam_ang" (set_spectral_features h2) = Some (VNum a) /\
               lookup "grt_ang" (set_spectral_features h2) = Some (VNum b)) ->
  check_compatibility parse_float (set_spectral_features h1) (Some h2) =
  check_compatibility parse_float (set_spectral_features h2) (Some h1).
Proof.
  intros [a1 [b1 [Ha1 Hb1]]] [a2 [b2 [Ha2 Hb2]]].
  destruct h1 as [[]|[]], h2 as [[]|[]]; cbn in Ha1, Hb1, Ha2, Hb2;
    injection Ha1 as ->; injection Hb1 as ->; injection Ha2 as ->; injection Hb2 as ->;
    cbn -[py_neq Qltb Qabs Qminus];
  repeat match goal with
         | |- ?L = ?R =>
             match L with
             | context [py_neq ?a ?b] =>
                 match R with context [py_neq b a] => rewrite (py_neq_sym a b) end
             | context [Qltb 1 (Qabs (?a - ?b))] =>
                 match R with context [Qabs (b - a)] => rewrite (Qltb_abs_sym 1 a b) end
             end
         end;
  CompatibilityFacts.settle_keys.
Qed.

Lemma check_compatibility_symmetric_witness :
  (exists a b,
     lookup "cam_ang" (set_spectral_features (RedHeader (Samples.red_lamp 15))) = Some (VNum a) /\
     lookup "grt_ang" (set_spectral_features (RedHeader (Samples.red_lamp 15))) = Some (VNum b)) /\
  (exists a b,
     lookup "cam_ang" (set_spectral_features (BlueHeader Samples.blue_lamp)) = Some (VNum a) /\
     lookup "grt_ang" (set_spectral_features (BlueHeader Samples.blue_lamp)) = Some (VNum b)) /\
  check_compatibility Samples.no_string_floats
    (set_spectral_features (RedHeader (Samples.red_lamp 15))) (Some (BlueHeader Samples.blue_lamp)) =
  check_compatibility Samples.no_string_floats
    (set_spectral_features (BlueHeader Samples.blue_lamp)) (Some (RedHeader (Samples.red_lamp 15))).
Proof.
  assert (H1 : exists a b,
     lookup "cam_ang" (set_spectral_features (RedHeader (Samples.red_lamp 15))) = Some (VNum a) /\
     lookup "grt_ang" (set_spectral_features (RedHeader (Samples.red_lamp 15))) = Some (VNum b))
    by (exists 30, 15; split; reflexivity).
  assert (H2 : exists a b,
     lookup "cam_ang" (set_spectral_features (BlueHeader Samples.blue_lamp)) = Some (VNum a) /\
     lookup "grt_ang" (set_spectral_features (BlueHeader Samples.blue_lamp)) = Some (VNum b))
    by (exists 30, 15; split; reflexivity).
  split; [exact H1|]. split; [exact H2|].
  exact (check_compatibility_symmetric _ _ _ H1 H2).
Defined.

End CompatibilityMoreFacts.

Module SpectralFacts.
Import Compatibility Spectral.
Local Open Scope R_scope.

Lemma grating_frequency_pos (g : hval) (freq : Q) :
  grating_frequency_of g = Some freq -> (0 < freq)%Q.
Proof.
  destruct g as [s|q]; simpl; [|discriminate].
  repeat match goal with |- context [String.eqb ?a ?b] => destruct (String.eqb a b) end;
    intro H; try discriminate; injection H as <-; reflexivity.
Qed.

Lemma Q2R_pos (q : Q) : (0 < q)%Q -> 0 < Q2R q.
Proof.
  intro H. apply Qlt_Rlt in H. unfold Q2R at 1 in H. simpl in H. lra.
Qed.

Lemma sin_deg_shift (b e : R) :
  sin_deg (b + e) - sin_deg (b - e) = 2 * cos (b * PI / 180) * sin (e * PI / 180).
Proof.
  unfold sin_deg.
  replace ((b + e) * PI / 180) with (b * PI / 180 + e * PI / 180) by field.
  replace ((b - e) * PI / 180) with (b * PI / 180 - e * PI / 180) by field.
  rewrite sin_plus, sin_minus. ring.
Qed.

(** With the camera and grating angles within 90 degrees of each other,
    the red limit [get_spectral_characteristics] reports is at least
    30 A above the blue limit (the two correction factors differ by 30 A
    and the half-field terms are ordered). *)
Theorem spectral_limits_ordered (parse_float : string -> option Q) (h : fits_header)
  (sc : characteristics) :
  get_spectral_characteristics parse_float h = Some sc ->
  -90 <= beta sc <= 90 ->
  blue_limit sc + 30 <= red_limit sc.
Proof.
  intros H Hb. unfold get_spectral_characteristics in H.
  destruct (lookup "GRATING" h) as [g|]; [|discriminate].
  destruct (grating_frequency_of g) as [freq|] eqn:Ef; [|discriminate].
  destruct (lookup "GRT_ANG" h) as [ga|]; [|discriminate].
  destruct (py_float parse_float ga) as [gr|]; [|discriminate].
  destruct (lookup "CAM_ANG" h) as [ca|]; [|discriminate].
  destruct (py_float parse_float ca) as [cr|]; [|discriminate].
  destruct (binning_of h) as [bin|]; [|discriminate].
  destruct (predicted_wavelength freq (gr + 0) (cr - gr) bin 1); [|discriminate].
  destruct (predicted_wavelength freq (gr + 0) (cr - gr) bin 2); [|discriminate].
  injection H as <-. cbn [blue_limit red_limit beta] in *.
  set (be := cr - gr) in *.
  assert (Hf := Q2R_pos _ (grating_frequency_pos g freq Ef)).
  assert (HK : 0 < 10 * (1000000 / Q2R freq)).
  { apply Rmult_lt_0_compat; [lra|]. apply Rdiv_lt_0_compat; lra. }
  assert (HPI := PI_RGT_0).
  assert (Hc : 0 <= cos (be * PI / 180)).
  { assert (0 <= (be + 90) * PI) by (apply Rmult_le_pos; lra).
    assert (0 <= (90 - be) * PI) by (apply Rmult_le_pos; lra).
    apply cos_ge_0; lra. }
  assert (Hs : 0 < sin (4656 / 1000 * PI / 180)) by (apply sin_gt_0; lra).
  assert (Hd := sin_deg_shift be (4656 / 1000)).
  assert (0 <= 10 * (1000000 / Q2R freq) * (2 * cos (be * PI / 180) * sin (4656 / 1000 * PI / 180))).
  { apply Rmult_le_pos; [lra|]. apply Rmult_le_pos; [lra|]. lra. }
  nra.
Qed.

Lemma spectral_limits_ordered_witness :
  exists sc,
    get_spectral_characteristics Samples.no_string_floats Samples.red_lamp_cards = Some sc /\
    (-90 <= beta sc <= 90) /\ blue_limit sc + 30 <= red_limit sc.
Proof.
  destruct (get_spectral_characteristics Samples.no_string_floats Samples.red_lamp_cards)
    as [sc|] eqn:E.
  2:{ exfalso. cbn in E. discriminate. }
  assert (Hb : -90 <= beta sc <= 90).
  { cbn in E. injection E as <-. cbn [beta]. unfold Q2R. simpl. lra. }
  exists sc. split; [reflexivity|]. split; [exact Hb|].
  exact (spectral_limits_ordered _ _ _ E Hb).
Defined.

(** [predicted_wavelength] increases with the pixel for a positive
    grating frequency and binning, while the diffraction angle stays
    within 90 degrees. *)
Theorem predicted_wavelength_increasing (freq : Q) (al be : R) (b p q : Q) :
  (0 < freq)%Q -> (0 < b)%Q -> (p < q)%Q ->
  -(PI / 2) <= be * PI / 180 + atan ((Q2R p * Q2R b - 2048) * (15 / 1000) / (3772 / 10)) ->
  be * PI / 180 + atan ((Q2R q * Q2R b - 2048) * (15 / 1000) / (3772 / 10)) <= PI / 2 ->
  exists wp wq,
    predicted_wavelength freq al be (VNum b) p = Some wp /\
    predicted_wavelength freq al be (VNum b) q = Some wq /\ wp < wq.
Proof.
  intros Hf Hb Hpq Hlo Hhi.
  eexists; eexists; split; [reflexivity|]. split; [reflexivity|].
  apply Q2R_pos in Hf, Hb. apply Qlt_Rlt in Hpq.
  assert (HK : 0 < 10 * (1000000 / Q2R freq)).
  { apply Rmult_lt_0_compat; [lra|]. apply Rdiv_lt_0_compat; lra. }
  assert (Hm : Q2R p * Q2R b < Q2R q * Q2R b) by (apply Rmult_lt_compat_r; lra).
  assert (Ha : atan ((Q2R p * Q2R b - 2048) * (15 / 1000) / (3772 / 10))
             < atan ((Q2R q * Q2R b - 2048) * (15 / 1000) / (3772 / 10)))
    by (apply atan_increasing; lra).
  assert (Hsin : sin (be * PI / 180 + atan ((Q2R p * Q2R b - 2048) * (15 / 1000) / (3772 / 10)))
               < sin (be * PI / 180 + atan ((Q2R q * Q2R b - 2048) * (15 / 1000) / (3772 / 10))))
    by (apply sin_increasing_1; lra).
  apply Rmult_lt_compat_l; [exact HK|]. lra.
Qed.

Lemma predicted_wavelength_increasing_witness :
  (0 < 400)%Q /\ (0 < 1)%Q /\ (1 < 2)%Q /\
  -(PI / 2) <= 15 * PI / 180 + atan ((Q2R 1 * Q2R 1 - 2048) * (15 / 1000) / (3772 / 10)) /\
  15 * PI / 180 + atan ((Q2R 2 * Q2R 1 - 2048) * (15 / 1000) / (3772 / 10)) <= PI / 2 /\
  exists wp wq,
    predicted_wavelength 400 0 15 (VNum 1) 1 = Some wp /\
    predicted_wavelength 400 0 15 (VNum 1) 2 = Some wq /\ wp < wq.
Proof.
  assert (H1 : (0 < 400)%Q) by reflexivity.
  assert (H2 : (0 < 1)%Q) by reflexivity.
  assert (H3 : (1 < 2)%Q) by reflexivity.
  assert (HPI := PI_RGT_0).
  assert (E1 : Q2R 1 = 1) by (unfold Q2R; simpl; lra).
  assert (E2 : Q2R 2 = 2) by (unfold Q2R; simpl; lra).
  assert (H4 : -(PI / 2) <= 15 * PI / 180 + atan ((Q2R 1 * Q2R 1 - 2048) * (15 / 1000) / (3772 / 10))).
  { destruct (atan_bound ((Q2R 1 * Q2R 1 - 2048) * (15 / 1000) / (3772 / 10))). lra. }
  assert (H5 : 15 * PI / 180 + atan ((Q2R 2 * Q2R 1 - 2048) * (15 / 1000) / (3772 / 10)) <= PI / 2).
  { assert (atan ((Q2R 2 * Q2R 1 - 2048) * (15 / 1000) / (3772 / 10)) < atan 0)
      by (apply atan_increasing; rewrite E1, E2; lra).
    rewrite atan_0 in *. lra. }
  split; [exact H1|]. split; [exact H2|]. split; [exact H3|]. split; [exact H4|].
  split; [exact H5|].
  exact (predicted_wavelength_increasing 400 0 15 1 1 2 H1 H2 H3 H4 H5).
Defined.

End SpectralFacts.

Module InterpolationFacts.
Import Session Interpolation.

(** [interpolate] resamples a spectrum of [n] pixels on
    [n * interpolation_size] points evenly spaced from pixel 1 to
    pixel [n]. *)
Theorem interpolate_axis (spline : list Q -> list Q -> list Q -> option (list Q))
  (spectrum ax ys : list Q) :
  interpolate spline spectrum = Some (ax, ys) ->
  length ax = (length spectrum * interpolation_size)%nat /\
  nth 0 ax 0 == 1 /\
  nth (length spectrum * interpolation_size - 1) ax 0 == q_of_nat (length spectrum) /\
  forall i, (S i < length spectrum * interpolation_size)%nat ->
    nth (S i) ax 0 - nth i ax 0
    == (q_of_nat (length spectrum) - 1) / q_of_nat (length spectrum * interpolation_size - 1).
Proof.
  intro H. unfold interpolate in H.
  destruct spectrum as [|x0 r]; [discriminate|].
  set (n := length (x0 :: r)) in *.
  assert (Hn : n = S (length r)) by reflexivity.
  replace (map q_of_nat (seq 1 n)) with (q_of_nat 1 :: map q_of_nat (seq 2 (length r))) in H
    by (rewrite Hn; reflexivity).
  change (q_of_nat 1 :: map q_of_nat (seq 2 (length r)))
    with (map q_of_nat (seq 1 (S (length r)))) in H.
  rewrite LinearizeFacts.last_map_seq in H. rewrite <- Hn in H.
  destruct (spline _ _ _); [|discriminate].
  assert (Hax : linspace (q_of_nat 1) (q_of_nat n) (n * interpolation_size) = ax)
    by congruence.
  subst ax.
  set (N := (n * interpolation_size)%nat).
  assert (EN : N = S (S (N - 2))) by (subst N; unfold interpolation_size; lia).
  split; [apply LinearizeFacts.linspace_length|].
  split; [rewrite LinearizeFacts.linspace_first by lia; reflexivity|].
  split.
  - rewrite EN at 1 2. replace (S (S (N - 2)) - 1)%nat with (S (N - 2)) by lia.
    rewrite LinearizeFacts.linspace_last. reflexivity.
  - intros i Hi. rewrite LinearizeFacts.linspace_step by exact Hi. reflexivity.
Qed.

Lemma interpolate_axis_witness :
  interpolate Samples.keep_intensities [5; 7] =
    Some (linspace (q_of_nat 1) (q_of_nat 2) (2 * interpolation_size), [5; 7]) /\
  length (linspace (q_of_nat 1) (q_of_nat 2) (2 * interpolation_size))
    = (length [5; 7] * interpolation_size)%nat /\
  nth 0 (linspace (q_of_nat 1) (q_of_nat 2) (2 * interpolation_size)) 0 == 1 /\
  nth (length [5; 7] * interpolation_size - 1)
    (linspace (q_of_nat 1) (q_of_nat 2) (2 * interpolation_size)) 0 == q_of_nat (length [5; 7]) /\
  forall i, (S i < length [5; 7] * interpolation_size)%nat ->
    nth (S i) (linspace (q_of_nat 1) (q_of_nat 2) (2 * interpolation_size)) 0
    - nth i (linspace (q_of_nat 1) (q_of_nat 2) (2 * interpolation_size)) 0
    == (q_of_nat (length [5; 7]) - 1) / q_of_nat (length [5; 7] * interpolation_size - 1).
Proof.
  assert (H : interpolate Samples.keep_intensities [5; 7] =
    Some (linspace (q_of_nat 1) (q_of_nat 2) (2 * interpolation_size), [5; 7]))
    by (vm_compute; reflexivity).
  split; [exact H|]. exact (interpolate_axis _ _ _ _ H).
Defined.

End InterpolationFacts.
